(** * Model Context Protocol: envelope codec, tool registry, dispatcher and agent loop

    A shallow embedding of the JavaScript sources

      - [src/core/mcp-schema.js]  (request/response envelopes, Joi schemas),
      - [src/core/mcp-server.js]  (MCPServer: registry, dispatcher, catalog),
      - [src/core/mcp-agent.js]   (MCPAgent: plan execution, retries, history,
                                   the rule-based planner),
      - [src/core/mcp-client.js]  (MCPClient: callTool, ping, getAvailableTools;
                                   in this tree as [unnamed/part_003]),

    followed by the properties proved about them.

    JavaScript values are a first-order datatype [JsValue]; a computation
    that may throw is a [Completion]; mutable objects (the server's three
    maps, the agent's conversation list) are threaded explicitly.  The
    external collaborators are handled as follows.

      - Joi (npm dependency, v17 semantics) is modelled by a small schema
        language with an interpreter [Joi.validate] that follows the
        library's validation order: presence, allow-list, base type,
        declared keys in order, unknown keys; first error wins
        (abortEarly).
      - The tool calls of the agent and its language-model stages are
        section variables: the theorems hold for every behaviour of them.
      - axios is a section variable of the client: a request resolves
        with a response object or rejects with a thrown value. *)

From Stdlib Require Import String Ascii List ZArith Bool Lia DecimalString.
Import ListNotations.
Open Scope string_scope.

#[global] Set Warnings "-register-all".

(* ================================================================== *)
(** ** JavaScript values *)
(* ================================================================== *)

Module Js.

(** Numbers are integer valued in everything modelled here (timestamps,
    counters).  Function values occur only as tool handlers and are
    modelled separately ([MCPServer.Handler]). *)
Inductive JsValue : Type :=
| JUndefined
| JNull
| JBool (b : bool)
| JNum (n : Z)
| JStr (s : string)
| JArr (items : list JsValue)
| JObj (fields : list (string * JsValue)).

(** Result of evaluating an expression or a call: a value, or a thrown
    value that unwinds to the nearest [catch]. *)
Inductive Completion (A : Type) : Type :=
| Return (a : A)
| Throw (e : JsValue).

Arguments Return {A} a.
Arguments Throw {A} e.

Definition bind {A B} (c : Completion A) (k : A -> Completion B) : Completion B :=
  match c with
  | Return a => k a
  | Throw e => Throw e
  end.

(** [try { body } catch (e) { handler(e) }] *)
Definition try_catch {A} (body : Completion A) (handler : JsValue -> Completion A)
  : Completion A :=
  match body with
  | Return a => Return a
  | Throw e => handler e
  end.

Notation "x <- c ;; k" := (bind c (fun x => k))
  (at level 61, c at next level, right associativity).

(** [new Error(message)]: an object whose [message] property is the text. *)
Definition newError (message : string) : JsValue :=
  JObj [("message", JStr message)].

Definition throwError {A} (message : string) : Completion A :=
  Throw (newError message).

(** Truthiness, as used by [if (schema)], [x || y] and [!value]. *)
Definition truthy (v : JsValue) : bool :=
  match v with
  | JUndefined | JNull => false
  | JBool b => b
  | JNum n => negb (n =? 0)%Z
  | JStr s => negb (s =? "")
  | JArr _ | JObj _ => true
  end.

(** Own-property lookup in a field list; the first binding is the property. *)
Fixpoint lookup {A} (k : string) (l : list (string * A)) : option A :=
  match l with
  | [] => None
  | (k', a) :: rest => if k' =? k then Some a else lookup k rest
  end.

(** [o[k]] where [o] is known not to be null or undefined: a missing
    property reads as [undefined].  None of the keys read in the modelled
    code ([version], [action], [name], [parameters], [status], [result],
    [error], [message]) is an inherited property of arrays, strings or
    plain objects. *)
Definition getProp (o : JsValue) (k : string) : JsValue :=
  match o with
  | JObj fields => match lookup k fields with Some v => v | None => JUndefined end
  | _ => JUndefined
  end.

Definition dq : string := String (ascii_of_nat 34) EmptyString.
Definition sq : string := String (ascii_of_nat 39) EmptyString.

(** [o.k] for an arbitrary [o]: reading a property of [undefined] or
    [null] throws a TypeError. *)
Definition getMember (o : JsValue) (k : string) : Completion JsValue :=
  match o with
  | JUndefined =>
      throwError ("Cannot read properties of undefined (reading " ++ sq ++ k ++ sq ++ ")")
  | JNull =>
      throwError ("Cannot read properties of null (reading " ++ sq ++ k ++ sq ++ ")")
  | _ => Return (getProp o k)
  end.

Definition keys (fields : list (string * JsValue)) : list string :=
  map fst fields.

Definition numberToString (n : Z) : string :=
  NilZero.string_of_int (Z.to_int n).

Fixpoint join (sep : string) (l : list string) : string :=
  match l with
  | [] => ""
  | [x] => x
  | x :: rest => x ++ sep ++ join sep rest
  end.

(** String conversion performed by a template literal [`${v}`]. *)
Fixpoint toString (v : JsValue) : string :=
  match v with
  | JUndefined => "undefined"
  | JNull => "null"
  | JBool true => "true"
  | JBool false => "false"
  | JNum n => numberToString n
  | JStr s => s
  | JArr items =>
      join "," (map (fun x => match x with
                              | JUndefined | JNull => ""
                              | _ => toString x
                              end) items)
  | JObj _ => "[object Object]"
  end.

(** [a || b] *)
Definition or_else (a b : JsValue) : JsValue :=
  if truthy a then a else b.

(** Whitespace removed by [String.prototype.trim], on the ASCII range. *)
Definition isWhiteSpace (c : ascii) : bool :=
  let n := nat_of_ascii c in
  ((9 <=? n) && (n <=? 13))%nat || (n =? 32)%nat.

Fixpoint allWhiteSpace (s : string) : bool :=
  match s with
  | EmptyString => true
  | String c rest => isWhiteSpace c && allWhiteSpace rest
  end.

(** [s.trim() === ''] *)
Definition trimIsEmpty (s : string) : bool := allWhiteSpace s.

(** [s.startsWith(p)] *)
Definition startsWith (p s : string) : bool := String.prefix p s.

(** [hay.includes(needle)] *)
Fixpoint includes (needle hay : string) : bool :=
  String.prefix needle hay ||
  match hay with
  | EmptyString => false
  | String _ rest => includes needle rest
  end.

End Js.

Export Js.

(* ================================================================== *)
(** ** Joi, as far as the two schemas use it *)
(* ================================================================== *)

Module Joi.

Inductive Presence : Type := Optional | Required | Forbidden.

(** [JoiString p vs]: [Joi.string()], with [.valid(...vs)] when [vs] is
    not empty.  [JoiObject p ks]: [Joi.object()], or [Joi.object({...})]
    when [ks] lists the declared keys in declaration order.
    [JoiAny p]: [Joi.any()]; [Joi.forbidden()] is [JoiAny Forbidden].
    [JoiWhen ref is th ot]: [Joi.when(ref, { is, then, otherwise })] with
    a literal [is].  A [.default(v)] only changes the value Joi returns,
    which both validators discard, so it is not represented. *)
Inductive Schema : Type :=
| JoiString (presence : Presence) (valids : list string)
| JoiObject (presence : Presence) (keys : option (list (string * Schema)))
| JoiAny (presence : Presence)
| JoiWhen (ref : string) (is_ : string) (then_ otherwise_ : Schema).

(** Label used in messages: the dotted path, or [value] at the root. *)
Definition label (path : string) : string :=
  dq ++ (if path =? "" then "value" else path) ++ dq.

Definition childPath (path key : string) : string :=
  if path =? "" then key else path ++ "." ++ key.

Definition presenceCheck (p : Presence) (path : string) (v : JsValue)
  : option (option string) :=
  match v, p with
  | JUndefined, Required => Some (Some (label path ++ " is required"))
  | JUndefined, _ => Some None
  | _, Forbidden => Some (Some (label path ++ " is not allowed"))
  | _, _ => None
  end.

Definition onlyMessage (path : string) (vs : list string) : string :=
  label path ++ " must be " ++
  (match vs with [_] => "" | _ => "one of " end) ++
  "[" ++ join ", " vs ++ "]".

Definition inValids (vs : list string) (v : JsValue) : bool :=
  match v with
  | JStr s => existsb (String.eqb s) vs
  | _ => false
  end.

Fixpoint firstUnknown (declared : list string) (present : list string) : option string :=
  match present with
  | [] => None
  | k :: rest =>
      if existsb (String.eqb k) declared then firstUnknown declared rest else Some k
  end.

(** [schema.validate(v).error], as [Some message], or [None] when the
    value is accepted.  [parent] is the enclosing object, which a
    [JoiWhen] reference reads. *)
Fixpoint validateAt (s : Schema) (parent : JsValue) (path : string) (v : JsValue)
  {struct s} : option string :=
  match s with
  | JoiWhen ref is_ then_ otherwise_ =>
      match getProp parent ref with
      | JStr r =>
          if r =? is_ then validateAt then_ parent path v
          else validateAt otherwise_ parent path v
      | _ => validateAt otherwise_ parent path v
      end
  | JoiAny p =>
      match presenceCheck p path v with
      | Some r => r
      | None => None
      end
  | JoiString p vs =>
      match presenceCheck p path v with
      | Some r => r
      | None =>
          if inValids vs v then None
          else match vs with
               | _ :: _ => Some (onlyMessage path vs)
               | [] =>
                   match v with
                   | JStr "" => Some (label path ++ " is not allowed to be empty")
                   | JStr _ => None
                   | _ => Some (label path ++ " must be a string")
                   end
               end
      end
  | JoiObject p ks =>
      match presenceCheck p path v with
      | Some r => r
      | None =>
          match v with
          | JObj fields =>
              match ks with
              | None => None
              | Some children =>
                  let fix each (cs : list (string * Schema)) : option string :=
                    match cs with
                    | [] => None
                    | (key, child) :: rest =>
                        match validateAt child v (childPath path key) (getProp v key) with
                        | Some e => Some e
                        | None => each rest
                        end
                    end in
                  match each children with
                  | Some e => Some e
                  | None =>
                      match firstUnknown (map fst children) (keys fields) with
                      | Some k => Some (label (childPath path k) ++ " is not allowed")
                      | None => None
                      end
                  end
              end
          | _ => Some (label path ++ " must be of type object")
          end
      end
  end.

Definition validate (s : Schema) (v : JsValue) : option string :=
  validateAt s JUndefined "" v.

End Joi.

(* ================================================================== *)
(** ** mcp-schema.js *)
(* ================================================================== *)

Module MCPSchema.

Import Joi.

Definition requestSchema : Schema :=
  JoiObject Optional (Some
    [ ("version", JoiString Required ["1.0"]);
      ("action", JoiObject Required (Some
         [ ("name", JoiString Required []);
           ("parameters", JoiObject Optional None) ])) ]).

Definition responseSchema : Schema :=
  JoiObject Optional (Some
    [ ("version", JoiString Required ["1.0"]);
      ("status", JoiString Required ["success"; "error"]);
      ("result", JoiWhen "status" "success"
                   (JoiObject Required None) (JoiAny Forbidden));
      ("error", JoiWhen "status" "error"
                   (JoiString Required []) (JoiAny Forbidden)) ]).

(** [createRequest(actionName, parameters = {})] *)
Definition createRequest (actionName : JsValue) (parameters : JsValue)
  : Completion JsValue :=
  let parameters := match parameters with JUndefined => JObj [] | p => p end in
  let request :=
    JObj [ ("version", JStr "1.0");
           ("action", JObj [ ("name", actionName); ("parameters", parameters) ]) ] in
  match validate requestSchema request with
  | Some message => throwError ("Nieprawidłowe żądanie MCP: " ++ message)
  | None => Return request
  end.

Definition createSuccessResponse (result : JsValue) : Completion JsValue :=
  let response :=
    JObj [ ("version", JStr "1.0"); ("status", JStr "success"); ("result", result) ] in
  match validate responseSchema response with
  | Some message => throwError ("Nieprawidłowa odpowiedź MCP: " ++ message)
  | None => Return response
  end.

Definition createErrorResponse (errorMessage : JsValue) : Completion JsValue :=
  let response :=
    JObj [ ("version", JStr "1.0"); ("status", JStr "error"); ("error", errorMessage) ] in
  match validate responseSchema response with
  | Some message => throwError ("Nieprawidłowa odpowiedź MCP: " ++ message)
  | None => Return response
  end.

(** Returns [true], or the error message. *)
Definition validateRequest (request : JsValue) : JsValue :=
  match validate requestSchema request with
  | Some message => JStr message
  | None => JBool true
  end.

Definition validateResponse (response : JsValue) : JsValue :=
  match validate responseSchema response with
  | Some message => JStr message
  | None => JBool true
  end.

End MCPSchema.

(* ================================================================== *)
(** ** mcp-server.js *)
(* ================================================================== *)

Module MCPServer.

Import MCPSchema.

(** A registered handler.  The two built-in handlers are closures over
    the server ([this]) and the clock, so they are interpreted against
    the server state of the call ([runHandler]); a user tool is any
    function from its parameters to a result or a thrown value (an
    [async] handler that rejects counts as one that throws). *)
Inductive Handler : Type :=
| SystemGetTools
| SystemPing
| UserTool (run : JsValue -> Completion JsValue).

(** The [handler] argument of [registerTool]: a function, or any other
    value (the call then fails its [typeof] test). *)
Inductive HandlerArg : Type :=
| IsFunction (h : Handler)
| NotFunction (v : JsValue).

(** The three [Map]s of the server, in insertion order.  [port],
    [enableLogging] and the Express application play no part in the
    registry or in [handleRequest] beyond console output. *)
Record Server : Type := mkServer {
  tools : list (string * Handler);
  toolSchemas : list (string * JsValue);
  toolDescriptions : list (string * string)
}.

Definition mapHas {A} (k : string) (m : list (string * A)) : bool :=
  existsb (fun kv => fst kv =? k) m.

Definition mapGet {A} (k : string) (m : list (string * A)) : option A :=
  lookup k m.

(** [Map.prototype.set]: an existing key keeps its position, a new key
    goes last. *)
Fixpoint mapSet {A} (k : string) (a : A) (m : list (string * A)) : list (string * A) :=
  match m with
  | [] => [(k, a)]
  | (k', a') :: rest =>
      if k' =? k then (k, a) :: rest else (k', a') :: mapSet k a rest
  end.

Definition mapKeys {A} (m : list (string * A)) : list string := map fst m.

Definition invalidNameMessage : string :=
  "Nazwa narzędzia musi być niepustym ciągiem znaków".
Definition invalidHandlerMessage : string :=
  "Handler narzędzia musi być funkcją".
Definition invalidDescriptionMessage : string :=
  "Opis narzędzia musi być ciągiem znaków".
Definition duplicateToolMessage (name : string) : string :=
  "Narzędzie o nazwie " ++ dq ++ name ++ dq ++ " jest już zarejestrowane".

(** [registerTool(name, handler, description, schema = null)].  The
    result pairs the completion of the call with the server state it
    leaves behind. *)
Definition registerTool (name : JsValue) (handler : HandlerArg)
    (description schema : JsValue) (this : Server) : Completion unit * Server :=
  let schema := match schema with JUndefined => JNull | s => s end in
  match name with
  | JStr n =>
      if trimIsEmpty n then (throwError invalidNameMessage, this)
      else
        match handler with
        | NotFunction _ => (throwError invalidHandlerMessage, this)
        | IsFunction h =>
            match description with
            | JStr d =>
                if mapHas n (tools this)
                then (throwError (duplicateToolMessage n), this)
                else
                  let this1 := mkServer (mapSet n h (tools this))
                                        (toolSchemas this) (toolDescriptions this) in
                  let this2 := mkServer (tools this1) (toolSchemas this1)
                                        (mapSet n d (toolDescriptions this1)) in
                  let this3 :=
                    if truthy schema
                    then mkServer (tools this2) (mapSet n schema (toolSchemas this2))
                                  (toolDescriptions this2)
                    else this2 in
                  (Return tt, this3)
            | _ => (throwError invalidDescriptionMessage, this)
            end
        end
  | _ => (throwError invalidNameMessage, this)
  end.

Definition _registerSystemTools (this : Server) : Completion unit * Server :=
  match registerTool (JStr "system.getTools") (IsFunction SystemGetTools)
          (JStr "Pobiera listę dostępnych narzędzi") JUndefined this with
  | (Throw e, this1) => (Throw e, this1)
  | (Return _, this1) =>
      registerTool (JStr "system.ping") (IsFunction SystemPing)
        (JStr "Sprawdza status serwera") JUndefined this1
  end.

(** [new MCPServer(options)] *)
Definition newMCPServer : Completion Server :=
  match _registerSystemTools (mkServer [] [] []) with
  | (Throw e, _) => Throw e
  | (Return _, this) => Return this
  end.

(** [{ name, description: toolDescriptions.get(name),
       schema: toolSchemas.get(name) || null }] *)
Definition toolEntry (this : Server) (name : string) : JsValue :=
  JObj [ ("name", JStr name);
         ("description", match mapGet name (toolDescriptions this) with
                         | Some d => JStr d
                         | None => JUndefined
                         end);
         ("schema", or_else (match mapGet name (toolSchemas this) with
                             | Some s => s
                             | None => JUndefined
                             end) JNull) ].

Definition isSystemName (name : string) : bool := startsWith "system." name.

(** Body sent by [GET /tools]. *)
Definition getToolsRoute (this : Server) : JsValue :=
  JObj [ ("tools", JArr (map (toolEntry this) (mapKeys (tools this)))) ].

(** Handler registered as [system.getTools]. *)
Definition systemGetTools (this : Server) : JsValue :=
  JObj [ ("tools",
          JArr (map (toolEntry this)
                    (filter (fun name => negb (isSystemName name))
                            (mapKeys (tools this))))) ].

(** Handler registered as [system.ping]; [now] is [Date.now()]. *)
Definition systemPing (now : Z) : JsValue :=
  JObj [ ("timestamp", JNum now); ("status", JStr "active"); ("version", JStr "1.0") ].

Definition runHandler (this : Server) (now : Z) (h : Handler) (parameters : JsValue)
  : Completion JsValue :=
  match h with
  | SystemGetTools => Return (systemGetTools this)
  | SystemPing => Return (systemPing now)
  | UserTool run => run parameters
  end.

(** [const { name, parameters } = request.action] *)
Definition requestAction (request : JsValue) : Completion (JsValue * JsValue) :=
  action <- getMember request "action" ;;
  match action with
  | JUndefined | JNull =>
      throwError ("Cannot destructure property " ++ sq ++ "name" ++ sq ++ " of " ++ sq
                  ++ "request.action" ++ sq ++ " as it is " ++ toString action ++ ".")
  | _ => Return (getProp action "name", getProp action "parameters")
  end.

(** [this.tools.has(name)] and [this.tools.get(name)]; the keys of the
    map are strings, so no other value is a key. *)
Definition toolsHas (this : Server) (name : JsValue) : bool :=
  match name with
  | JStr n => mapHas n (tools this)
  | _ => false
  end.

Definition toolsGet (this : Server) (name : JsValue) : option Handler :=
  match name with
  | JStr n => mapGet n (tools this)
  | _ => None
  end.

(** [await toolHandler(parameters)]; calling [undefined] is a TypeError. *)
Definition callHandler (this : Server) (now : Z) (toolHandler : option Handler)
    (parameters : JsValue) : Completion JsValue :=
  match toolHandler with
  | Some h => runHandler this now h parameters
  | None => throwError "toolHandler is not a function"
  end.

(** [handleRequest(request)]: the response, and the names of the tools
    whose handler was called while producing it. *)
Definition handleRequest (this : Server) (now : Z) (request : JsValue)
  : Completion JsValue * list JsValue :=
  let body : Completion JsValue * list JsValue :=
    match validateRequest request with
    | JBool true =>
        match requestAction request with
        | Throw e => (Throw e, [])
        | Return (name, parameters) =>
            if negb (toolsHas this name)
            then (createErrorResponse (JStr ("Nieznane narzędzie: " ++ toString name)), [])
            else
              let toolHandler := toolsGet this name in
              (try_catch
                 (result <- callHandler this now toolHandler parameters ;;
                  createSuccessResponse result)
                 (fun toolError =>
                    message <- getMember toolError "message" ;;
                    createErrorResponse
                      (JStr ("Błąd podczas wykonywania narzędzia: " ++ toString message))),
               [name])
        end
    | validationResult =>
        (createErrorResponse
           (JStr ("Nieprawidłowe żądanie: " ++ toString validationResult)), [])
    end in
  (try_catch (fst body)
     (fun error =>
        message <- getMember error "message" ;;
        createErrorResponse (JStr ("Nieoczekiwany błąd: " ++ toString message))),
   snd body).

(** Server states that exist at run time: the one the constructor
    builds, and any state left by a call of [registerTool] on such a
    state, whether the call returned or threw. *)
Inductive Reachable : Server -> Prop :=
| reachable_new : forall this,
    newMCPServer = Return this -> Reachable this
| reachable_register : forall this name handler description schema outcome this',
    Reachable this ->
    registerTool name handler description schema this = (outcome, this') ->
    Reachable this'.

(** The entries of a catalog body [{ tools: [...] }] and their names. *)
Definition catalogEntries (body : JsValue) : list JsValue :=
  match getProp body "tools" with
  | JArr entries => entries
  | _ => []
  end.

Definition catalogNames (body : JsValue) : list JsValue :=
  map (fun entry => getProp entry "name") (catalogEntries body).

(** A catalog hides the reserved namespace when no entry is named [system.*]. *)
Definition hidesSystemTools (body : JsValue) : Prop :=
  forall name, In (JStr name) (catalogNames body) -> isSystemName name = false.

End MCPServer.

(* ================================================================== *)
(** ** mcp-agent.js *)
(* ================================================================== *)

(** The file holds two variants of [MCPAgent] (one that asks Claude, one
    with built-in rules).  [_executePlan], [_addToConversation] and
    [processUserQuery] are the same text in both; the variants differ in
    the three stages [_analyzeUserQuery], [_generatePlan] and
    [_generateUserResponse], which are parameters below.  In the Claude
    variant the plan is what [JSON.parse] made of the model's answer and
    is not checked before it is executed, so a plan is an arbitrary
    value here. *)

Module MCPAgent.

(** [{ role, content, timestamp }] *)
Record Turn : Type := mkTurn {
  role : string;
  content : JsValue;
  timestamp : Z
}.

(** What [_executePlan] reads of a step: [step.action] and
    [step.parameters]. *)
Record Step : Type := mkStep {
  action : JsValue;
  parameters : JsValue
}.

(** [this.maxRetries], a number.  The loop only compares the counter
    [retries] with it, and among the numbers [Infinity] is the one that
    no integer stands for in those comparisons. *)
Inductive Limit : Type :=
| Finite (n : Z)
| Infinity.

(** [retries < limit] and [retries >= limit] *)
Definition lessThan (retries : Z) (limit : Limit) : bool :=
  match limit with
  | Finite n => (retries <? n)%Z
  | Infinity => true
  end.

Definition atLeast (retries : Z) (limit : Limit) : bool :=
  match limit with
  | Finite n => (retries >=? n)%Z
  | Infinity => false
  end.

(** The fields of the agent read or written by the modelled methods:
    [this.debug] (as the [if] statements see it), [this.maxRetries] and
    [this.context.conversations]. *)
Record Agent : Type := mkAgent {
  debug : bool;
  maxRetries : Limit;
  conversations : list Turn
}.

(** The constructor: [this.debug] is [options.debug] or its default,
    [this.maxRetries = options.maxRetries || 3] (so [0] becomes [3] and
    every other number is kept), and the conversation list is empty. *)
Definition newMCPAgent (optionsDebug : bool) (optionsMaxRetries : option Limit) : Agent :=
  mkAgent optionsDebug
          (match optionsMaxRetries with
           | Some (Finite n) => if (n =? 0)%Z then Finite 3 else Finite n
           | Some Infinity => Infinity
           | None => Finite 3
           end) [].

(** An awaited call of the client or of a stage: it resolves with a
    value, or rejects with an [Error] whose [message] is kept.  Every
    throw site of [MCPClient.callTool] builds an [Error] or re-throws
    one, and what the stages throw are the TypeErrors of the language,
    so [error.message] is always readable in the [catch] blocks. *)
Inductive Outcome (A : Type) : Type :=
| Resolved (a : A)
| Rejected (message : string).

Arguments Resolved {A} a.
Arguments Rejected {A} message.

(** [shift()] *)
Definition shift {A} (l : list A) : list A := tl l.

(** [_addToConversation(role, content)]; [now] is [Date.now()]. *)
Definition _addToConversation (now : Z) (role : string) (content : JsValue)
    (this : Agent) : Agent :=
  let pushed := (conversations this ++ [mkTurn role content now])%list in
  mkAgent (debug this) (maxRetries this)
          (if (20 <? length pushed)%nat then shift pushed else pushed).

(** [resetContext()] *)
Definition resetContext (this : Agent) : Agent :=
  mkAgent (debug this) (maxRetries this) [].

(** The message of the TypeError thrown by [o.k] when [o] is [null] or
    [undefined]. *)
Definition cannotRead (o : JsValue) (k : string) : string :=
  "Cannot read properties of " ++ toString o ++ " (reading " ++ sq ++ k ++ sq ++ ")".

Definition isNullish (v : JsValue) : bool :=
  match v with
  | JUndefined | JNull => true
  | _ => false
  end.

(** Whether a template literal can convert [v] to a string.  No value
    here is a function, so an object is converted by
    [Object.prototype.toString] unless it has a property of its own
    named [toString], which makes the conversion throw a TypeError; an
    array converts its elements, [null] and [undefined] apart, and joins
    them. *)
Fixpoint convertible (v : JsValue) : bool :=
  match v with
  | JObj fields => negb (existsb (fun field => fst field =? "toString") fields)
  | JArr items =>
      forallb (fun item => match item with
                           | JUndefined | JNull => true
                           | _ => convertible item
                           end) items
  | _ => true
  end.

Definition cannotConvert : string := "Cannot convert object to primitive value".

(** [step.action] and [step.parameters] of a value that is not [null]
    or [undefined]. *)
Definition stepOf (step : JsValue) : Step :=
  mkStep (getProp step "action") (getProp step "parameters").

Section Execution.

(** Everything outside the agent: the MCP client with the server behind
    it, the language model, the clock. *)
Variable World : Type.

(** [this.mcpClient.callTool(action, parameters)] *)
Variable callTool : World -> JsValue -> JsValue -> Outcome JsValue * World.

(** Variables of the [while] loop of [_executePlan]. *)
Record LoopState : Type := mkLoop {
  retries : Z;
  success : bool;
  stepResult : JsValue
}.

(** [while (!success && retries < this.maxRetries) { try ... catch ... }],
    where [attempt] is the body of the [try] block.  Besides the loop
    variables the result carries the world after the attempts and the
    outcome of each attempt, oldest first.  [fuel] bounds the
    iterations; [None] means it ran out before the loop ended.  The
    wait between attempts ([setTimeout], 1000 ms) has no effect on the
    state. *)
Fixpoint retryLoop (fuel : nat) (this : Agent)
    (attempt : World -> Outcome JsValue * World) (s : LoopState)
    (w : World) (calls : list (Outcome JsValue))
  : option (LoopState * World * list (Outcome JsValue)) :=
  if negb (success s) && lessThan (retries s) (maxRetries this) then
    match fuel with
    | O => None
    | S fuel' =>
        match attempt w with
        | (Resolved r, w') =>
            retryLoop fuel' this attempt (mkLoop (retries s) true r) w'
                      (calls ++ [Resolved r])%list
        | (Rejected message, w') =>
            let retries' := (retries s + 1)%Z in
            let stepResult' :=
              if atLeast retries' (maxRetries this)
              then JObj [("error", JStr message)]
              else stepResult s in
            retryLoop fuel' this attempt (mkLoop retries' (success s) stepResult') w'
                      (calls ++ [Rejected message])%list
        end
    end
  else Some (s, w, calls).

(** One iteration of the [for] loop on a step whose [action] and
    [parameters] can be read: the entry pushed on [results], the world
    afterwards and the outcome of each call of the tool. *)
Definition executeStep (fuel : nat) (this : Agent) (step : Step) (w : World)
  : option (JsValue * World * list (Outcome JsValue)) :=
  match retryLoop fuel this
                  (fun w' => callTool w' (action step) (parameters step))
                  (mkLoop 0 false JUndefined) w [] with
  | Some (s, w', calls) =>
      Some (JObj [ ("action", action step);
                   ("parameters", parameters step);
                   ("result", stepResult s) ], w', calls)
  | None => None
  end.

(** One iteration of the [for] loop on an arbitrary element [step] of
    [plan.steps]: the entry it pushes, or the error it throws.  On
    [null] and [undefined] reading [step.action] is a TypeError.  In
    debug mode the [console.log] that opens the iteration throws it.
    Otherwise the [try] block throws it on every attempt, before any call
    of the tool, the [catch] block counts the attempts, and
    [results.push] throws it once the loop has ended.  On any other
    value the only thing that can throw is that [console.log], whose
    message converts [step.action] to a string. *)
Definition executeElement (fuel : nat) (this : Agent) (step : JsValue) (w : World)
  : option (Outcome JsValue * World * list (Outcome JsValue)) :=
  if isNullish step then
    let message := cannotRead step "action" in
    if debug this then Some (Rejected message, w, [])
    else
      match retryLoop fuel this (fun w' => (Rejected message, w'))
                      (mkLoop 0 false JUndefined) w [] with
      | Some (_, w', _) => Some (Rejected message, w', [])
      | None => None
      end
  else if debug this && negb (convertible (getProp step "action")) then
    Some (Rejected cannotConvert, w, [])
  else
    match executeStep fuel this (stepOf step) w with
    | Some (entry, w', calls) => Some (Resolved entry, w', calls)
    | None => None
    end.

(** The [for] loop over the elements of [plan.steps], with [results] as
    accumulator; the third component lists, per element, the calls of
    the tool made for it.  An iteration that throws ends the loop. *)
Fixpoint executeSteps (fuel : nat) (this : Agent) (remaining : list JsValue)
    (results : list JsValue) (w : World) (log : list (list (Outcome JsValue)))
  : option (Outcome (list JsValue) * World * list (list (Outcome JsValue))) :=
  match remaining with
  | [] => Some (Resolved results, w, log)
  | step :: rest =>
      match executeElement fuel this step w with
      | Some (Resolved entry, w', calls) =>
          executeSteps fuel this rest (results ++ [entry])%list w' (log ++ [calls])%list
      | Some (Rejected message, w', calls) =>
          Some (Rejected message, w', (log ++ [calls])%list)
      | None => None
      end
  end.

(** How the loop header [i < plan.steps.length] and the read
    [plan.steps[i]] see a value that is a string or a plain object: the
    values [plan.steps[0]], [plan.steps[1]], ... that the loop visits,
    up to and including the first that is [null] or [undefined] (where
    the iteration throws), or the message of the TypeError when
    converting [plan.steps.length] to a number throws.  The conversions
    of the language behind it are not modelled; the theorems hold for
    every such function. *)
Variable arrayLike : JsValue -> Outcome (list JsValue).

(** The elements the [for] loop visits, or the TypeError of
    [plan.steps.length]: on an array its elements; a number or a boolean
    has no [length], so the loop body never runs. *)
Definition planSteps (plan : JsValue) : Outcome (list JsValue) :=
  if isNullish plan then Rejected (cannotRead plan "steps")
  else
    match getProp plan "steps" with
    | JUndefined => Rejected (cannotRead JUndefined "length")
    | JNull => Rejected (cannotRead JNull "length")
    | JArr items => Resolved items
    | JBool _ | JNum _ => Resolved []
    | JStr s => arrayLike (JStr s)
    | JObj fields => arrayLike (JObj fields)
    end.

(** [_executePlan(plan)]: the results, or the error thrown. *)
Definition _executePlan (fuel : nat) (this : Agent) (plan : JsValue) (w : World)
  : option (Outcome (list JsValue) * World * list (list (Outcome JsValue))) :=
  match planSteps plan with
  | Rejected message => Some (Rejected message, w, [])
  | Resolved items => executeSteps fuel this items [] w []
  end.

(** The stages that differ between the two variants.  None of them
    reads or writes [this.context.conversations]. *)
Variable TaskAnalysis : Type.
Variable _analyzeUserQuery : World -> JsValue -> Outcome TaskAnalysis * World.
Variable _generatePlan : World -> TaskAnalysis -> Outcome JsValue * World.
Variable _generateUserResponse :
  World -> JsValue -> list JsValue -> Outcome JsValue * World.

(** [Date.now()] *)
Variable dateNow : World -> Z.

Definition processingErrorMessage (message : string) : string :=
  "Wystąpił błąd podczas przetwarzania zapytania: " ++ message.

(** [processUserQuery(userQuery)]: the value returned to the caller, the
    agent and the world afterwards. *)
Definition processUserQuery (fuel : nat) (this : Agent) (w : World) (userQuery : JsValue)
  : option (JsValue * Agent * World) :=
  let this1 := _addToConversation (dateNow w) "user" userQuery this in
  match _analyzeUserQuery w userQuery with
  | (Rejected message, w1) => Some (JStr (processingErrorMessage message), this1, w1)
  | (Resolved taskAnalysis, w1) =>
      match _generatePlan w1 taskAnalysis with
      | (Rejected message, w2) => Some (JStr (processingErrorMessage message), this1, w2)
      | (Resolved plan, w2) =>
          match _executePlan fuel this1 plan w2 with
          | None => None
          | Some (Rejected message, w3, _) =>
              Some (JStr (processingErrorMessage message), this1, w3)
          | Some (Resolved results, w3, _) =>
              match _generateUserResponse w3 userQuery results with
              | (Rejected message, w4) =>
                  Some (JStr (processingErrorMessage message), this1, w4)
              | (Resolved response, w4) =>
                  let this2 :=
                    _addToConversation (dateNow w4) "assistant" response this1 in
                  Some (response, this2, w4)
              end
          end
      end
  end.

(** How a run of [processUserQuery] on [userQuery] goes, in terms of
    what the four awaited stages answer: one of them rejects with
    [message], or all of them resolve. *)
Inductive StageRejected (fuel : nat) (this : Agent) (w : World) (userQuery : JsValue)
    (message : string) (wEnd : World) : Prop :=
| rejected_analysis :
    _analyzeUserQuery w userQuery = (Rejected message, wEnd) ->
    StageRejected fuel this w userQuery message wEnd
| rejected_plan : forall taskAnalysis w1,
    _analyzeUserQuery w userQuery = (Resolved taskAnalysis, w1) ->
    _generatePlan w1 taskAnalysis = (Rejected message, wEnd) ->
    StageRejected fuel this w userQuery message wEnd
| rejected_execution : forall taskAnalysis w1 plan w2 log,
    _analyzeUserQuery w userQuery = (Resolved taskAnalysis, w1) ->
    _generatePlan w1 taskAnalysis = (Resolved plan, w2) ->
    _executePlan fuel (_addToConversation (dateNow w) "user" userQuery this) plan w2
      = Some (Rejected message, wEnd, log) ->
    StageRejected fuel this w userQuery message wEnd
| rejected_response : forall taskAnalysis w1 plan w2 results w3 log,
    _analyzeUserQuery w userQuery = (Resolved taskAnalysis, w1) ->
    _generatePlan w1 taskAnalysis = (Resolved plan, w2) ->
    _executePlan fuel (_addToConversation (dateNow w) "user" userQuery this) plan w2
      = Some (Resolved results, w3, log) ->
    _generateUserResponse w3 userQuery results = (Rejected message, wEnd) ->
    StageRejected fuel this w userQuery message wEnd.

Inductive StagesResolved (fuel : nat) (this : Agent) (w : World) (userQuery : JsValue)
    (response : JsValue) (wEnd : World) : Prop :=
| resolved_all : forall taskAnalysis w1 plan w2 results w3 log,
    _analyzeUserQuery w userQuery = (Resolved taskAnalysis, w1) ->
    _generatePlan w1 taskAnalysis = (Resolved plan, w2) ->
    _executePlan fuel (_addToConversation (dateNow w) "user" userQuery this) plan w2
      = Some (Resolved results, w3, log) ->
    _generateUserResponse w3 userQuery results = (Resolved response, wEnd) ->
    StagesResolved fuel this w userQuery response wEnd.

End Execution.

Arguments retryLoop {World} fuel this attempt s w calls.
Arguments executeStep {World} callTool fuel this step w.
Arguments executeElement {World} callTool fuel this step w.
Arguments executeSteps {World} callTool fuel this remaining results w log.
Arguments _executePlan {World} callTool arrayLike fuel this plan w.
Arguments processUserQuery {World} callTool arrayLike {TaskAnalysis}
  _analyzeUserQuery _generatePlan _generateUserResponse dateNow fuel this w userQuery.
Arguments StageRejected {World} callTool arrayLike {TaskAnalysis}
  _analyzeUserQuery _generatePlan _generateUserResponse dateNow
  fuel this w userQuery message wEnd.
Arguments StagesResolved {World} callTool arrayLike {TaskAnalysis}
  _analyzeUserQuery _generatePlan _generateUserResponse dateNow
  fuel this w userQuery response wEnd.

(** An element of [plan.steps] on which an iteration of the [for] loop
    does not throw: a value other than [null] and [undefined] whose
    [action], in debug mode, can be printed.  Every step whose action is
    a tool name is one. *)
Definition readable (this : Agent) (step : JsValue) : bool :=
  negb (isNullish step) &&
  (negb (debug this) || convertible (getProp step "action")).

(** The last [n] elements of a list, in order. *)
Definition keepLast {A} (n : nat) (l : list A) : list A :=
  skipn (length l - n) l.

(** A sequence of calls of [_addToConversation], oldest first; each
    element gives [Date.now()], the role and the content of a call. *)
Definition turnOf (call : Z * string * JsValue) : Turn :=
  let '(now, role, content) := call in mkTurn role content now.

Definition appendAll (calls : list (Z * string * JsValue)) (this : Agent) : Agent :=
  fold_left (fun agent call =>
               let '(now, role, content) := call in
               _addToConversation now role content agent)
            calls this.

Definition isRejected {A} (o : Outcome A) : Prop :=
  match o with Rejected _ => True | Resolved _ => False end.

End MCPAgent.

(* ================================================================== *)
(** ** Concrete servers, clients and agents *)
(* ================================================================== *)

Module Examples.

Import MCPSchema MCPServer MCPAgent.

(** The server the constructor builds. *)
Definition freshServer : Server :=
  mkServer [ ("system.getTools", SystemGetTools); ("system.ping", SystemPing) ]
           []
           [ ("system.getTools", "Pobiera listę dostępnych narzędzi");
             ("system.ping", "Sprawdza status serwera") ].

(** A user tool that returns its parameters. *)
Definition echo : Handler := UserTool (fun parameters => Return parameters).

Definition echoSchema : JsValue := JObj [("parameters", JObj [("type", JStr "object")])].

(** [freshServer] after [registerTool("echo", echo, "Zwraca parametry", echoSchema)]. *)
Definition echoServer : Server :=
  snd (registerTool (JStr "echo") (IsFunction echo) (JStr "Zwraca parametry")
         echoSchema freshServer).

(** End-to-end scenario 2 of the specification. *)
Definition unknownToolRequest : JsValue :=
  JObj [ ("version", JStr "1.0");
         ("action", JObj [ ("name", JStr "doesNotExist"); ("parameters", JObj []) ]) ].

(** A client whose world is the number of calls made so far.  The tool
    [flaky] fails on the first two calls and succeeds from the third on;
    the tool [broken] always fails; every other tool succeeds. *)
Definition demoCallTool (calls : nat) (action parameters : JsValue)
  : Outcome JsValue * nat :=
  match action with
  | JStr "broken" => (Rejected "Błąd serwera MCP: unavailable", S calls)
  | JStr "flaky" =>
      if (calls <? 2)%nat
      then (Rejected "Brak odpowiedzi serwera: timeout", S calls)
      else (Resolved (JObj [("ok", JBool true)]), S calls)
  | _ => (Resolved parameters, S calls)
  end.

Definition demoAgent : Agent := newMCPAgent false None.

(** An agent constructed with [{ maxRetries: Infinity }]. *)
Definition unboundedAgent : Agent := newMCPAgent false (Some Infinity).

Definition brokenStep : Step := mkStep (JStr "broken") (JObj []).
Definition flakyStep : Step := mkStep (JStr "flaky") (JObj []).
Definition echoStep : Step := mkStep (JStr "echo") (JObj [("text", JStr "abc")]).

(** The object literals [{ action, parameters }] and [{ steps: [...] }]. *)
Definition stepValue (step : Step) : JsValue :=
  JObj [ ("action", action step); ("parameters", parameters step) ].

Definition planOf (steps : list Step) : JsValue :=
  JObj [ ("steps", JArr (map stepValue steps)) ].

Definition demoPlan : JsValue := planOf [brokenStep; echoStep].

Definition brokenPlan : JsValue := planOf [brokenStep].

(** A stand-in for the conversions behind array-like values: strings
    and plain objects are taken to have no elements.  No plan of the
    examples has such [steps]. *)
Definition demoArrayLike (_ : JsValue) : Outcome (list JsValue) := Resolved [].

(** Stages of an agent whose analysis hands the query on, failing on a
    query that is not a string as [query.toLowerCase()] does; whose
    planner answers [null] on the query ["null"] (an answer of the model
    that parses and is no plan) and otherwise plans one [echo] step; and
    which answers ["gotowe"]. *)
Definition demoAnalyze (w : nat) (query : JsValue) : Outcome JsValue * nat :=
  match query with
  | JStr _ => (Resolved query, w)
  | _ => (Rejected "query.toLowerCase is not a function", w)
  end.

Definition demoGeneratePlan (w : nat) (analysis : JsValue) : Outcome JsValue * nat :=
  match analysis with
  | JStr "null" => (Resolved JNull, w)
  | _ => (Resolved (planOf [echoStep]), w)
  end.

Definition demoRespond (w : nat) (_ : JsValue) (_ : list JsValue)
  : Outcome JsValue * nat :=
  (Resolved (JStr "gotowe"), w).

Definition demoNow (w : nat) : Z := Z.of_nat w.

Definition demoQuery :=
  processUserQuery demoCallTool demoArrayLike
                   demoAnalyze demoGeneratePlan demoRespond demoNow.

(** An agent whose history already holds 20 turns. *)
Definition fullAgent : Agent :=
  mkAgent false (Finite 3) (repeat (mkTurn "user" (JStr "hej") 0) 20).

End Examples.

(* ================================================================== *)
(** ** Vocabulary of the statements *)
(* ================================================================== *)

Import Joi MCPSchema MCPServer.

(** The envelopes the two constructors build. *)
Definition successEnvelope (result : JsValue) : JsValue :=
  JObj [ ("version", JStr "1.0"); ("status", JStr "success"); ("result", result) ].

Definition errorEnvelope (message : string) : JsValue :=
  JObj [ ("version", JStr "1.0"); ("status", JStr "error"); ("error", JStr message) ].

Definition isMapping (v : JsValue) : bool :=
  match v with JObj _ => true | _ => false end.

Definition isNonEmptyString (v : JsValue) : bool :=
  match v with JStr s => negb (s =? "") | _ => false end.

(** A request of the documented shape: an object whose [version] is
    ["1.0"] and whose [action] is an object with a non-empty string
    [name]. *)
Definition hasRequestShape (v : JsValue) : bool :=
  match v with
  | JObj _ =>
      match getProp v "version", getProp v "action" with
      | JStr ver, JObj action =>
          (ver =? "1.0") && isNonEmptyString (getProp (JObj action) "name")
      | _, _ => false
      end
  | _ => false
  end.

(** What holds of every reachable server: registered names are not
    blank, every tool has a description, the two built-in tools are
    registered. *)
Record WellFormed (this : Server) : Prop := {
  names_not_blank : Forall (fun n => trimIsEmpty n = false) (mapKeys (tools this));
  described : mapKeys (toolDescriptions this) = mapKeys (tools this);
  schemas_of_tools :
    forall n, In n (mapKeys (toolSchemas this)) -> In n (mapKeys (tools this));
  schemas_truthy : Forall (fun kv => truthy (snd kv) = true) (toolSchemas this);
  builtin_getTools : In "system.getTools" (mapKeys (tools this));
  builtin_ping : In "system.ping" (mapKeys (tools this))
}.

(* ================================================================== *)
(** ** mcp-client.js *)
(* ================================================================== *)

Module MCPClient.

Import MCPSchema.

(** [this.serverUrl], [this.timeout], [this.headers] *)
Record Client : Type := mkClient {
  serverUrl : JsValue;
  timeout : JsValue;
  headers : JsValue
}.

(** [new MCPClient(serverUrl, options = {})] *)
Definition newMCPClient (serverUrl options : JsValue) : Completion Client :=
  let options := match options with JUndefined => JObj [] | o => o end in
  timeout <- getMember options "timeout" ;;
  headers <- getMember options "headers" ;;
  Return (mkClient serverUrl (or_else timeout (JNum 30000)) (or_else headers (JObj []))).

(** [v === 'text'] and [v === n] *)
Definition isString (v : JsValue) (text : string) : bool :=
  match v with JStr s => s =? text | _ => false end.

Definition isNumber (v : JsValue) (n : Z) : bool :=
  match v with JNum m => (m =? n)%Z | _ => false end.

Section Transport.

(** The network as axios shows it.  [post net this request] is
    [axios.post(this.serverUrl, request, config)] and [getPing net this]
    is [axios.get(`${this.serverUrl}/ping`, config)]; both configurations
    are built from [this.timeout] and [this.headers] only, so the client
    stands for them.  A call resolves with a response object or rejects
    with the value axios throws, and leaves the network in a new state. *)
Variable Net : Type.
Variable post : Net -> Client -> JsValue -> Completion JsValue * Net.
Variable getPing : Net -> Client -> Completion JsValue * Net.

(** The [catch] block of [callTool]. *)
Definition rethrow (error : JsValue) : Completion JsValue :=
  response <- getMember error "response" ;;
  if truthy response
  then throwError ("Błąd HTTP " ++ toString (getProp response "status") ++ ": "
                   ++ toString (getProp response "statusText"))
  else
    request <- getMember error "request" ;;
    if truthy request
    then throwError ("Brak odpowiedzi serwera: " ++ toString (getProp error "message"))
    else Throw error.

(** [callTool(actionName, parameters = {})] *)
Definition callTool (this : Client) (actionName parameters : JsValue) (net : Net)
  : Completion JsValue * Net :=
  let parameters := match parameters with JUndefined => JObj [] | p => p end in
  let body : Completion JsValue * Net :=
    match createRequest actionName parameters with
    | Throw e => (Throw e, net)
    | Return request =>
        match post net this request with
        | (Throw e, net') => (Throw e, net')
        | (Return response, net') =>
            (mcpResponse <- getMember response "data" ;;
             match validateResponse mcpResponse with
             | JBool true =>
                 status <- getMember mcpResponse "status" ;;
                 if isString status "error"
                 then throwError ("Błąd serwera MCP: "
                                  ++ toString (getProp mcpResponse "error"))
                 else Return (getProp mcpResponse "result")
             | validationResult =>
                 throwError ("Nieprawidłowa odpowiedź MCP: " ++ toString validationResult)
             end,
             net')
        end
    end in
  (try_catch (fst body) rethrow, snd body).

(** [ping()] *)
Definition ping (this : Client) (net : Net) : Completion JsValue * Net :=
  let answer := getPing net this in
  (try_catch (response <- fst answer ;;
              status <- getMember response "status" ;;
              Return (JBool (isNumber status 200)))
             (fun _ => Return (JBool false)),
   snd answer).

(** [getAvailableTools()] *)
Definition getAvailableTools (this : Client) (net : Net) : Completion JsValue * Net :=
  let answer := callTool this (JStr "system.getTools") (JObj []) net in
  (try_catch (result <- fst answer ;;
              tools <- getMember result "tools" ;;
              Return (or_else tools (JArr [])))
             (fun error =>
                message <- getMember error "message" ;;
                throwError ("Nie udało się pobrać listy narzędzi: " ++ toString message)),
   snd answer).

(** [MCPAgent.loadAvailableTools()], on the agent's [context.tools]:
    the list the client returns, or the old one when the client fails
    (the failure is only logged). *)
Definition loadAvailableTools (contextTools : JsValue) (mcpClient : Client) (net : Net)
  : Completion JsValue * Net :=
  let answer := getAvailableTools mcpClient net in
  (try_catch (tools <- fst answer ;; Return tools)
             (fun error => _ <- getMember error "message" ;; Return contextTools),
   snd answer).

End Transport.

Arguments callTool {Net} post this actionName parameters net.
Arguments ping {Net} getPing this net.
Arguments getAvailableTools {Net} post this net.
Arguments loadAvailableTools {Net} post contextTools mcpClient net.

(** A thrown value that a [catch (error)] block can read [message]
    from as a string: what [new Error(text)] and axios errors are. *)
Definition hasMessage (e : JsValue) : Prop :=
  exists fields message, e = JObj fields /\ getProp e "message" = JStr message.

End MCPClient.

(* ================================================================== *)
(** ** Vocabulary of the further statements *)
(* ================================================================== *)

(** [this'] is [this] after some calls of [registerTool]. *)
Inductive Extends (this : Server) : Server -> Prop :=
| extends_refl : Extends this this
| extends_register : forall this1 name handler description schema outcome this2,
    Extends this this1 ->
    registerTool name handler description schema this1 = (outcome, this2) ->
    Extends this this2.


(** A value [createRequest] takes as [parameters]. *)
Definition isParameters (v : JsValue) : bool :=
  match v with JUndefined | JObj _ => true | _ => false end.

(** Acceptance by [requestSchema], spelled out: the declared keys have
    the right shape and no other key is present. *)
Definition hasOnlyKeys (allowed : list string) (v : JsValue) : bool :=
  match v with
  | JObj fields => forallb (fun k => existsb (String.eqb k) allowed) (Js.keys fields)
  | _ => false
  end.

Definition isExactRequest (v : JsValue) : bool :=
  hasRequestShape v &&
  hasOnlyKeys ["version"; "action"] v &&
  hasOnlyKeys ["name"; "parameters"] (getProp v "action") &&
  isParameters (getProp (getProp v "action") "parameters").

Module RetryPolicy.

Import MCPAgent.

Section Policy.

Variable World : Type.
Variable callTool : World -> JsValue -> JsValue -> Outcome JsValue * World.

(** The retry policy in words: call the tool up to [n] times, stop at
    the first call that succeeds. *)
Fixpoint tryUpTo (n : nat) (step : Step) (w : World)
  : list (Outcome JsValue) * World :=
  match n with
  | O => ([], w)
  | S k =>
      match callTool w (action step) (parameters step) with
      | (Resolved r, w') => ([Resolved r], w')
      | (Rejected message, w') =>
          let '(rest, w'') := tryUpTo k step w' in
          (Rejected message :: rest, w'')
      end
  end.

(** A plan under that policy: the steps in order, each starting in the
    world the step before it left; the calls made per step and the
    world at the end. *)
Fixpoint tryEach (n : nat) (steps : list Step) (w : World)
  : list (list (Outcome JsValue)) * World :=
  match steps with
  | [] => ([], w)
  | step :: rest =>
      let '(calls, w1) := tryUpTo n step w in
      let '(log, w') := tryEach n rest w1 in
      (calls :: log, w')
  end.

(** The world in which a step starts, given the steps before it. *)
Definition worldAfter (n : nat) (steps : list Step) (w : World) : World :=
  snd (tryEach n steps w).

End Policy.

Arguments tryUpTo {World} callTool n step w.
Arguments tryEach {World} callTool n steps w.
Arguments worldAfter {World} callTool n steps w.

(** The result recorded after a sequence of calls: what the last call
    returned, or [{ error }] with the message of the last failure, or
    [undefined] when no call was made. *)
Definition resultOfCalls (calls : list (Outcome JsValue)) : JsValue :=
  match last (map Some calls) None with
  | None => JUndefined
  | Some (Resolved r) => r
  | Some (Rejected message) => JObj [("error", JStr message)]
  end.

Definition entryOf (step : Step) (calls : list (Outcome JsValue)) : JsValue :=
  JObj [ ("action", action step);
         ("parameters", parameters step);
         ("result", resultOfCalls calls) ].

End RetryPolicy.

(* ================================================================== *)
(** ** mcp-agent.js, the variant with built-in rules: [_generatePlan] *)
(* ================================================================== *)

Module SimpleAgent.

Import MCPAgent.

(** [{ type, targetContent, originalQuery }] *)
Record TaskAnalysis : Type := mkAnalysis {
  type : JsValue;
  targetContent : JsValue;
  originalQuery : JsValue
}.

Section Planner.

(** Two built-ins of the language stay abstract: [codeBlock s] is
    group 1 of [s.match(/```(?:javascript|js)?(.*?)```/s)], or [None]
    when there is no match, and [trim s] is [s.trim()]. *)
Variable codeBlock : string -> option string.
Variable trim : string -> string.

(** [targetContent.includes(word)], on whatever [targetContent] is:
    the substring test of strings, the membership test of arrays, a
    TypeError for every other value. *)
Definition contentIncludes (targetContent : JsValue) (word : string)
  : Completion bool :=
  match targetContent with
  | JStr s => Return (includes word s)
  | JArr items => Return (existsb (fun item => MCPClient.isString item word) items)
  | JUndefined =>
      throwError ("Cannot read properties of undefined (reading "
                  ++ sq ++ "includes" ++ sq ++ ")")
  | JNull =>
      throwError ("Cannot read properties of null (reading "
                  ++ sq ++ "includes" ++ sq ++ ")")
  | _ => throwError "targetContent.includes is not a function"
  end.

(** [codeMatch ? codeMatch[1].trim() : targetContent], after
    [targetContent.match(...)]; only strings have [match]. *)
Definition extractCode (targetContent : JsValue) : Completion JsValue :=
  match targetContent with
  | JStr s =>
      match codeBlock s with
      | Some group => Return (JStr (trim group))
      | None => Return targetContent
      end
  | _ => throwError "targetContent.match is not a function"
  end.

(** [_generatePlan(taskAnalysis)] *)
Definition _generatePlan (taskAnalysis : TaskAnalysis) : Completion JsValue :=
  let type := type taskAnalysis in
  let targetContent := targetContent taskAnalysis in
  let step (action : string) (parameters : JsValue) : JsValue :=
    JObj [ ("action", JStr action); ("parameters", parameters) ] in
  let plan (steps : list JsValue) : JsValue := JObj [ ("steps", JArr steps) ] in
  if MCPClient.isString type "analyze" then
    Return (plan [ step "analyzeText" (JObj [("text", targetContent)]);
                   step "extractEntities" (JObj [("text", targetContent)]) ])
  else if MCPClient.isString type "search" then
    Return (plan [ step "searchRepositories"
                        (JObj [("query", targetContent); ("perPage", JNum 5)]) ])
  else if MCPClient.isString type "generate" then
    Return (plan [ step "generatePlan"
                        (JObj [("task", targetContent); ("requirements", JArr [])]) ])
  else if MCPClient.isString type "execute" then
    mentionsJavascript <- contentIncludes targetContent "javascript" ;;
    mentionsJs <- (if mentionsJavascript then Return true
                   else contentIncludes targetContent "js") ;;
    if mentionsJs
    then
      code <- extractCode targetContent ;;
      Return (plan [ step "executeCode"
                          (JObj [("language", JStr "javascript"); ("code", code)]) ])
    else Return (plan [])
  else
    Return (plan [ step "analyzeText" (JObj [("text", targetContent)]) ]).

End Planner.

End SimpleAgent.

(** What the [try] block of [MCPClient.callTool] does with the body of
    a response. *)
Definition readResponse (mcpResponse : JsValue) : Completion JsValue :=
  match validateResponse mcpResponse with
  | JBool true =>
      status <- getMember mcpResponse "status" ;;
      if MCPClient.isString status "error"
      then throwError ("Błąd serwera MCP: " ++ toString (getProp mcpResponse "error"))
      else Return (getProp mcpResponse "result")
  | validationResult =>
      throwError ("Nieprawidłowa odpowiedź MCP: " ++ toString validationResult)
  end.

(** The request [createRequest(name, parameters)] builds. *)
Definition requestFor (name : string) (params : JsValue) : JsValue :=
  JObj [ ("version", JStr "1.0");
         ("action", JObj [ ("name", JStr name);
                           ("parameters", match params with
                                          | JUndefined => JObj []
                                          | p => p
                                          end) ]) ].

(** Requests to the two built-in tools. *)
Definition pingRequest : JsValue := requestFor "system.ping" (JObj []).

Definition getToolsRequest : JsValue :=
  JObj [ ("version", JStr "1.0");
         ("action", JObj [ ("name", JStr "system.getTools") ]) ].

(** A network that hands every request to [server] and delivers its
    answer; its state counts the requests sent. *)
Definition loopback (server : Server) (sent : nat) (_ : MCPClient.Client)
    (request : JsValue) : Completion JsValue * nat :=
  match fst (handleRequest server 0 request) with
  | Return envelope => (Return (JObj [("data", envelope)]), S sent)
  | Throw e => (Throw e, S sent)
  end.

(** A network that is down: every request fails without a response. *)
Definition offline (sent : nat) (_ : MCPClient.Client) (_ : JsValue)
  : Completion JsValue * nat :=
  (Throw (JObj [ ("message", JStr "connect ECONNREFUSED");
                 ("request", JObj []) ]), S sent).

Definition demoClient : MCPClient.Client :=
  MCPClient.mkClient (JStr "http://localhost:3001") (JNum 30000) (JObj []).

(** A [/ping] endpoint that answers 200. *)
Definition pingOk (sent : nat) (_ : MCPClient.Client) : Completion JsValue * nat :=
  (Return (JObj [("status", JNum 200); ("data", JStr "pong")]), S sent).

(** A user tool that always throws, registered after [echo]. *)
Definition failing : Handler := UserTool (fun _ => throwError "boom").

Definition failingServer : Server :=
  snd (registerTool (JStr "fail") (IsFunction failing) (JStr "Zawsze zawodzi")
         JNull Examples.echoServer).

(** An agent constructed with [{ maxRetries: -1 }]: no attempt is allowed. *)
Definition idleAgent : MCPAgent.Agent := MCPAgent.newMCPAgent false (Some (MCPAgent.Finite (-1))).

(** A plan whose second step is [null]. *)
Definition holedPlan : JsValue :=
  JObj [ ("steps", JArr [ Examples.stepValue Examples.echoStep; JNull;
                          Examples.stepValue Examples.brokenStep ]) ].

(** End-to-end scenario 3 of the specification: a search query, as the
    analysis of the rule-based agent hands it to the planner. *)
Definition searchAnalysis : SimpleAgent.TaskAnalysis :=
  SimpleAgent.mkAnalysis (JStr "search") (JStr "rust async runtimes")
                         (JStr "znajdź rust async runtimes").

(** A content without a fenced code block. *)
Definition noCodeBlock (_ : string) : option string := None.

(* ================================================================== *)
(** * Properties *)
(* ================================================================== *)

(** ** Envelope codec *)

Lemma app_nonempty_l (p s : string) : p <> "" -> exists c rest, p ++ s = String c rest.
Proof.
  destruct p as [|c p']; [congruence | intros _].
  exists c, (p' ++ s). reflexivity.
Qed.

Lemma createErrorResponse_nonempty (c : ascii) (rest : string) :
  createErrorResponse (JStr (String c rest)) = Return (errorEnvelope (String c rest)).
Proof. reflexivity. Qed.

Lemma validateResponse_errorEnvelope (c : ascii) (rest : string) :
  validateResponse (errorEnvelope (String c rest)) = JBool true.
Proof. reflexivity. Qed.

Lemma createSuccessResponse_mapping (fields : list (string * JsValue)) :
  createSuccessResponse (JObj fields) = Return (successEnvelope (JObj fields)).
Proof. reflexivity. Qed.

Lemma validateResponse_successEnvelope (fields : list (string * JsValue)) :
  validateResponse (successEnvelope (JObj fields)) = JBool true.
Proof. reflexivity. Qed.


Lemma createErrorResponse_prefixed (p s : string) :
  p <> "" ->
  createErrorResponse (JStr (p ++ s)) = Return (errorEnvelope (p ++ s)) /\
  validateResponse (errorEnvelope (p ++ s)) = JBool true.
Proof.
  intros Hp. destruct (app_nonempty_l p s Hp) as (c & rest & ->).
  split; [apply createErrorResponse_nonempty | apply validateResponse_errorEnvelope].
Qed.

(** C7 (as amended).  [createSuccessResponse] returns exactly when the
    result is a mapping and [createErrorResponse] exactly when the message
    is a non-empty string; what they return is the envelope around the
    argument and satisfies [validateResponse].  For every other argument
    they throw an [Error] whose message is [Nieprawidłowa odpowiedź MCP: ]
    followed by the complaint of the schema: the field is required (for
    [undefined]), must be of type object, must be a string, or is not
    allowed to be empty. *)
Theorem createResponse_valid_or_throws (v : JsValue) :
  match createSuccessResponse v with
  | Return envelope =>
      isMapping v = true /\ envelope = successEnvelope v /\
      validateResponse envelope = JBool true
  | Throw e =>
      isMapping v = false /\
      e = newError ("Nieprawidłowa odpowiedź MCP: " ++ dq ++ "result" ++ dq ++
                    match v with
                    | JUndefined => " is required"
                    | _ => " must be of type object"
                    end)
  end /\
  match createErrorResponse v with
  | Return envelope =>
      isNonEmptyString v = true /\
      (exists message, v = JStr message /\ envelope = errorEnvelope message) /\
      validateResponse envelope = JBool true
  | Throw e =>
      isNonEmptyString v = false /\
      e = newError ("Nieprawidłowa odpowiedź MCP: " ++ dq ++ "error" ++ dq ++
                    match v with
                    | JUndefined => " is required"
                    | JStr _ => " is not allowed to be empty"
                    | _ => " must be a string"
                    end)
  end.
Proof.
  split.
  - destruct v; try (split; reflexivity).
    rewrite createSuccessResponse_mapping, validateResponse_successEnvelope. auto.
  - destruct v as [| | | |s| |]; try (split; reflexivity).
    destruct s as [|c rest]; [split; reflexivity|].
    rewrite createErrorResponse_nonempty, validateResponse_errorEnvelope.
    split; [reflexivity|]. split; [|reflexivity].
    eexists. split; reflexivity.
Qed.

(** C7, the claim as stated, fails: a string, an array or [null] as
    result, and the empty string as message, make the constructors throw. *)
Lemma createResponse_throws_on_non_mapping :
  ~ (forall v, exists envelope,
        createSuccessResponse v = Return envelope /\
        validateResponse envelope = JBool true) /\
  createSuccessResponse (JStr "done") =
    throwError ("Nieprawidłowa odpowiedź MCP: " ++ dq ++ "result" ++ dq
                ++ " must be of type object") /\
  createSuccessResponse (JArr []) =
    throwError ("Nieprawidłowa odpowiedź MCP: " ++ dq ++ "result" ++ dq
                ++ " must be of type object") /\
  createSuccessResponse JNull =
    throwError ("Nieprawidłowa odpowiedź MCP: " ++ dq ++ "result" ++ dq
                ++ " must be of type object") /\
  createErrorResponse (JStr "") =
    throwError ("Nieprawidłowa odpowiedź MCP: " ++ dq ++ "error" ++ dq
                ++ " is not allowed to be empty").
Proof.
  split; [|repeat split; reflexivity].
  intros H. destruct (H JNull) as (envelope & Hret & _). discriminate Hret.
Qed.

(** The only value without the request shape that [validateRequest]
    lets through is [undefined]: every other one gets a message. *)
Lemma validateRequest_rejects_defined (v : JsValue) :
  v <> JUndefined -> hasRequestShape v = false ->
  exists message, validateRequest v = JStr message.
Proof.
  intros Hdef Hshape.
  destruct v as [| | b | n | s | items | fields];
    try (eexists; reflexivity); [congruence|].
  unfold hasRequestShape in Hshape.
  unfold validateRequest, validate, requestSchema.
  cbn [validateAt map fst presenceCheck].
  destruct (getProp (JObj fields) "version") as [| | | |ver| |] eqn:Ever;
    try (eexists; reflexivity).
  destruct (String.eqb_spec ver "1.0") as [->|Hver].
  2:{ apply String.eqb_neq in Hver. cbn. rewrite Hver. eexists; reflexivity. }
  destruct (getProp (JObj fields) "action") as [| | | | | |action] eqn:Eaction;
    try (eexists; reflexivity).
  cbn [andb String.eqb Ascii.eqb Bool.eqb isNonEmptyString] in Hshape.
  destruct (getProp (JObj action) "name") as [| | | |name| |] eqn:Ename;
    try (eexists; reflexivity).
  destruct name; [eexists; reflexivity | discriminate Hshape].
Qed.

(** What acceptance means for a value that is not [undefined]. *)
Lemma validateRequest_true_shape (v : JsValue) :
  v <> JUndefined -> validateRequest v = JBool true -> hasRequestShape v = true.
Proof.
  intros Hdef Hok.
  destruct (hasRequestShape v) eqn:Hshape; [reflexivity|].
  destruct (validateRequest_rejects_defined v Hdef Hshape) as (m & Hm).
  congruence.
Qed.

(** C9, at the input where the code departs from the claim: the root
    schema is not marked [required()], so Joi accepts [undefined] and
    [validateRequest(undefined)] is [true], not a message. *)
Theorem validateRequest_accepts_undefined :
  validateRequest JUndefined = JBool true /\
  hasRequestShape JUndefined = false.
Proof. split; reflexivity. Qed.

(** ** Dispatcher *)






Lemma prefix_refl (s : string) : String.prefix s s = true.
Proof.
  induction s as [|c s IH]; [reflexivity|].
  simpl. destruct (ascii_dec c c); [exact IH | congruence].
Qed.

Lemma includes_app_r (p s : string) : includes s (p ++ s) = true.
Proof.
  induction p as [|c p IH].
  - change ("" ++ s) with s.
    destruct s as [|a s]; [reflexivity|].
    cbn [includes]. rewrite prefix_refl. reflexivity.
  - change (String c p ++ s) with (String c (p ++ s)).
    cbn [includes]. rewrite IH. apply orb_true_r.
Qed.

(** C4.  A request that passes [validateRequest] and names a tool that is
    not registered is answered with the error envelope
    [Nieznane narzędzie: <name>], which contains the name, and no handler
    is called. *)
Theorem handleRequest_unknown_tool (this : Server) (now : Z) (request : JsValue)
    (name : string) :
  validateRequest request = JBool true ->
  getProp (getProp request "action") "name" = JStr name ->
  mapHas name (tools this) = false ->
  handleRequest this now request =
    (Return (errorEnvelope ("Nieznane narzędzie: " ++ name)), []) /\
  getProp (errorEnvelope ("Nieznane narzędzie: " ++ name)) "status" = JStr "error" /\
  includes name ("Nieznane narzędzie: " ++ name) = true.
Proof.
  intros Hvalid Hname Hfree.
  split; [|split; [reflexivity | apply includes_app_r]].
  unfold handleRequest. rewrite Hvalid.
  destruct request as [| | | | | |fields]; try discriminate Hname.
  unfold requestAction. cbn [getMember bind].
  destruct (getProp (JObj fields) "action") as [| | | | | |action] eqn:Haction;
    try discriminate Hname.
  rewrite Hname. cbn [toolsHas]. rewrite Hfree. cbn [negb fst snd toString].
  destruct (createErrorResponse_prefixed "Nieznane narzędzie: " name) as [-> _];
    [discriminate|].
  reflexivity.
Qed.

(** ** Tool registry *)

Lemma mapHas_false_lookup {A} (k : string) (m : list (string * A)) :
  mapHas k m = false -> mapGet k m = None.
Proof.
  induction m as [|[k' a] m IH]; [reflexivity|].
  unfold mapHas, mapGet in *. simpl.
  destruct (k' =? k); simpl; [discriminate | exact IH].
Qed.

Lemma mapHas_In {A} (k : string) (m : list (string * A)) :
  mapHas k m = true <-> In k (mapKeys m).
Proof.
  induction m as [|[k' a] m IH]; simpl; [split; [discriminate | tauto]|].
  unfold mapHas in *. simpl.
  destruct (String.eqb_spec k' k) as [->|Hne]; simpl.
  - split; auto.
  - rewrite IH. split; [auto | intros [H|H]; [congruence | exact H]].
Qed.

(** Setting a key that is absent appends it. *)
Lemma mapSet_fresh {A} (k : string) (a : A) (m : list (string * A)) :
  mapHas k m = false -> mapSet k a m = (m ++ [(k, a)])%list.
Proof.
  induction m as [|[k' a'] m IH]; [reflexivity|].
  unfold mapHas in *. simpl.
  destruct (k' =? k); simpl; [discriminate|].
  intros H. rewrite (IH H). reflexivity.
Qed.

Lemma mapKeys_mapSet {A} (k : string) (a : A) (m : list (string * A)) :
  mapKeys (mapSet k a m) =
  if mapHas k m then mapKeys m else (mapKeys m ++ [k])%list.
Proof.
  induction m as [|[k' a'] m IH]; [reflexivity|].
  unfold mapHas in *. simpl.
  destruct (String.eqb_spec k' k) as [->|Hne]; simpl; [reflexivity|].
  rewrite IH. destruct (existsb _ m); reflexivity.
Qed.

Lemma mapGet_mapSet_same {A} (k : string) (a : A) (m : list (string * A)) :
  mapGet k (mapSet k a m) = Some a.
Proof.
  induction m as [|[k' a'] m IH]; unfold mapGet in *; simpl.
  - rewrite String.eqb_refl. reflexivity.
  - destruct (String.eqb_spec k' k) as [->|Hne]; simpl.
    + rewrite String.eqb_refl. reflexivity.
    + rewrite (proj2 (String.eqb_neq _ _) Hne). exact IH.
Qed.

Lemma mapGet_mapSet_other {A} (k k' : string) (a : A) (m : list (string * A)) :
  k <> k' -> mapGet k' (mapSet k a m) = mapGet k' m.
Proof.
  intros Hne.
  induction m as [|[k0 a0] m IH]; unfold mapGet in *; simpl.
  - rewrite (proj2 (String.eqb_neq _ _) Hne). reflexivity.
  - destruct (String.eqb_spec k0 k) as [->|Hne0]; simpl.
    + rewrite (proj2 (String.eqb_neq _ _) Hne). reflexivity.
    + destruct (k0 =? k'); [reflexivity | exact IH].
Qed.

(** The two ways a call of [registerTool] can end. *)
Lemma registerTool_cases (name : JsValue) (handler : HandlerArg)
    (description schema : JsValue) (this : Server) :
  (exists m, registerTool name handler description schema this = (throwError m, this)) \/
  (exists n h d,
      name = JStr n /\ handler = IsFunction h /\ description = JStr d /\
      trimIsEmpty n = false /\ mapHas n (tools this) = false /\
      registerTool name handler description schema this =
        (Return tt,
         mkServer (mapSet n h (tools this))
                  (if truthy schema then mapSet n schema (toolSchemas this)
                   else toolSchemas this)
                  (mapSet n d (toolDescriptions this)))).
Proof.
  unfold registerTool.
  destruct name as [| | | |n| |]; try (left; eexists; reflexivity).
  destruct (trimIsEmpty n) eqn:Hblank; [left; eexists; reflexivity|].
  destruct handler as [h|v]; [|left; eexists; reflexivity].
  destruct description as [| | | |d| |]; try (left; eexists; reflexivity).
  destruct (mapHas n (tools this)) eqn:Hhas; [left; eexists; reflexivity|].
  right. exists n, h, d. repeat (split; [reflexivity || assumption|]).
  destruct schema; cbn [truthy tools toolSchemas toolDescriptions]; try reflexivity;
    match goal with |- context [if ?b then _ else _] => destruct b end; reflexivity.
Qed.

(** A call that throws leaves the three maps as they were, whatever the
    arguments. *)
Lemma registerTool_throw_unchanged (name : JsValue) (handler : HandlerArg)
    (description schema : JsValue) (this this' : Server) (e : JsValue) :
  registerTool name handler description schema this = (Throw e, this') -> this' = this.
Proof.
  destruct (registerTool_cases name handler description schema this)
    as [(m & ->) | (n & h & d & _ & _ & _ & _ & _ & ->)];
    intros H; [injection H as _ <-; reflexivity | discriminate H].
Qed.

Lemma newMCPServer_value :
  newMCPServer =
  Return (mkServer [ ("system.getTools", SystemGetTools); ("system.ping", SystemPing) ]
                   []
                   [ ("system.getTools", "Pobiera listę dostępnych narzędzi");
                     ("system.ping", "Sprawdza status serwera") ]).
Proof. reflexivity. Qed.

Lemma Forall_mapSet {A} (P : string * A -> Prop) (k : string) (a : A)
    (m : list (string * A)) :
  Forall P m -> P (k, a) -> Forall P (mapSet k a m).
Proof.
  intros Hm Hka. induction Hm as [|[k' a'] m Hx Hm IH]; simpl.
  - constructor; [exact Hka | constructor].
  - destruct (k' =? k); constructor; assumption.
Qed.

Lemma mapHas_same_keys {A B} (k : string) (m : list (string * A)) (m' : list (string * B)) :
  mapKeys m = mapKeys m' -> mapHas k m = mapHas k m'.
Proof.
  intros H. destruct (mapHas k m') eqn:E.
  - apply mapHas_In. rewrite H. apply mapHas_In. exact E.
  - destruct (mapHas k m) eqn:E'; [|reflexivity].
    apply mapHas_In in E'. rewrite H in E'. apply mapHas_In in E'. congruence.
Qed.

Lemma reachable_wellFormed (this : Server) : Reachable this -> WellFormed this.
Proof.
  induction 1 as [this Hnew | this name handler description schema outcome this' _ IH Hreg].
  - rewrite newMCPServer_value in Hnew. injection Hnew as <-.
    split; simpl; auto.
  - destruct (registerTool_cases name handler description schema this)
      as [(m & Hthrow) | (n & h & d & -> & -> & -> & Hblank & Hfree & Hok)].
    + rewrite Hthrow in Hreg. injection Hreg as _ <-. exact IH.
    + rewrite Hok in Hreg. injection Hreg as _ <-.
      destruct IH as [Hnames Hdescr Hsub Htruthy Hget Hping].
      split; cbn [tools toolDescriptions toolSchemas].
      * rewrite mapKeys_mapSet, Hfree. apply Forall_app. split; [exact Hnames|].
        constructor; [exact Hblank | constructor].
      * rewrite !mapKeys_mapSet, (mapHas_same_keys n _ _ Hdescr), Hfree, Hdescr.
        reflexivity.
      * intros k Hk. rewrite mapKeys_mapSet, Hfree. apply in_or_app.
        destruct (truthy schema); [|left; apply Hsub; exact Hk].
        rewrite mapKeys_mapSet in Hk.
        destruct (mapHas n (toolSchemas this)); [left; apply Hsub; exact Hk|].
        apply in_app_or in Hk. destruct Hk as [Hk|Hk]; [left; apply Hsub; exact Hk|].
        right. exact Hk.
      * destruct (truthy schema) eqn:Hs; [|exact Htruthy].
        apply Forall_mapSet; [exact Htruthy | exact Hs].
      * rewrite mapKeys_mapSet, Hfree. apply in_or_app. left. exact Hget.
      * rewrite mapKeys_mapSet, Hfree. apply in_or_app. left. exact Hping.
Qed.

(** C5 (as amended).  On a reachable server, a call of [registerTool]
    with a name that is already registered always throws and leaves the
    three maps as they were: same size, same handler, description and
    schema under that name.  What it throws follows the order of the
    checks in the code: the error about the handler when the handler is
    no function, else the error about the description when the
    description is no string, else the duplicate-tool error; so with a
    function and a string the error is the duplicate-tool one. *)
Theorem registerTool_duplicate (this : Server) (name : string) (handler : HandlerArg)
    (description schema : JsValue) :
  Reachable this ->
  mapHas name (tools this) = true ->
  exists this',
    registerTool (JStr name) handler description schema this
      = (throwError (match handler, description with
                     | NotFunction _, _ => invalidHandlerMessage
                     | IsFunction _, JStr _ => duplicateToolMessage name
                     | IsFunction _, _ => invalidDescriptionMessage
                     end), this') /\
    this' = this /\
    length (tools this') = length (tools this) /\
    mapGet name (tools this') = mapGet name (tools this) /\
    mapGet name (toolDescriptions this') = mapGet name (toolDescriptions this) /\
    mapGet name (toolSchemas this') = mapGet name (toolSchemas this).
Proof.
  intros Hreach Hhas. exists this.
  repeat split.
  unfold registerTool.
  assert (Hblank : trimIsEmpty name = false).
  { pose proof (names_not_blank _ (reachable_wellFormed _ Hreach)) as Hall.
    rewrite Forall_forall in Hall. apply Hall. apply mapHas_In. exact Hhas. }
  rewrite Hblank.
  destruct handler as [h|v]; [|destruct schema; reflexivity].
  destruct description; try (destruct schema; reflexivity).
  rewrite Hhas. destruct schema; reflexivity.
Qed.

(** ** Catalog *)

Lemma toolEntry_name (this : Server) (name : string) :
  getProp (toolEntry this name) "name" = JStr name.
Proof. reflexivity. Qed.

Lemma catalogNames_getToolsRoute (this : Server) :
  catalogNames (getToolsRoute this) = map JStr (mapKeys (tools this)).
Proof.
  unfold catalogNames, catalogEntries, getToolsRoute.
  cbn [getProp lookup String.eqb Ascii.eqb Bool.eqb].
  rewrite map_map. apply map_ext. intros name. apply toolEntry_name.
Qed.

Lemma catalogNames_systemGetTools (this : Server) :
  catalogNames (systemGetTools this) =
  map JStr (filter (fun name => negb (isSystemName name)) (mapKeys (tools this))).
Proof.
  unfold catalogNames, catalogEntries, systemGetTools.
  cbn [getProp lookup String.eqb Ascii.eqb Bool.eqb].
  rewrite map_map. apply map_ext. intros name. apply toolEntry_name.
Qed.

(** A successful registration fixes the catalog entry of the new tool
    and leaves the entries of the other tools alone. *)
Lemma toolEntry_after_register (this this' : Server) (n : string) (h : Handler)
    (d : string) (schema : JsValue) :
  Reachable this ->
  registerTool (JStr n) (IsFunction h) (JStr d) schema this = (Return tt, this') ->
  toolEntry this' n =
    JObj [ ("name", JStr n); ("description", JStr d); ("schema", or_else schema JNull) ] /\
  forall other, other <> n -> toolEntry this' other = toolEntry this other.
Proof.
  intros Hreach Hreg.
  destruct (registerTool_cases (JStr n) (IsFunction h) (JStr d) schema this)
    as [(m & Hthrow) | (n' & h' & d' & Hn & Hh & Hd & Hblank & Hfree & Hok)].
  { rewrite Hthrow in Hreg. discriminate Hreg. }
  injection Hn as <-. injection Hh as <-. injection Hd as <-.
  rewrite Hok in Hreg. injection Hreg as <-.
  unfold toolEntry; cbn [tools toolSchemas toolDescriptions]. split.
  - rewrite mapGet_mapSet_same. unfold or_else.
    destruct (truthy schema) eqn:Htruthy.
    + rewrite mapGet_mapSet_same, Htruthy. reflexivity.
    + rewrite (mapHas_false_lookup n (toolSchemas this)); [reflexivity|].
      destruct (mapHas n (toolSchemas this)) eqn:E; [|reflexivity].
      apply mapHas_In in E.
      apply (schemas_of_tools _ (reachable_wellFormed _ Hreach)) in E.
      apply mapHas_In in E. congruence.
  - intros other Hother.
    rewrite mapGet_mapSet_other by congruence.
    destruct (truthy schema); [rewrite mapGet_mapSet_other by congruence|]; reflexivity.
Qed.

(** The two catalogs of a reachable server.  The one returned by the
    [system.getTools] tool lists, in registration order, exactly the
    registered names outside the [system.] namespace; the one sent by
    [GET /tools] lists every registered name in registration order, the
    two built-in tools included; every entry of either catalog carries
    the name, the registered description and the registered schema or
    [null]. *)
Lemma catalogs_of_reachable_server (this : Server) :
  Reachable this ->
  hidesSystemTools (systemGetTools this) /\
  catalogNames (systemGetTools this) =
    map JStr (filter (fun name => negb (isSystemName name)) (mapKeys (tools this))) /\
  catalogNames (getToolsRoute this) = map JStr (mapKeys (tools this)) /\
  In (JStr "system.getTools") (catalogNames (getToolsRoute this)) /\
  In (JStr "system.ping") (catalogNames (getToolsRoute this)) /\
  forall entry,
    In entry (catalogEntries (systemGetTools this)) \/
    In entry (catalogEntries (getToolsRoute this)) ->
    exists name description,
      mapHas name (tools this) = true /\
      mapGet name (toolDescriptions this) = Some description /\
      entry = JObj [ ("name", JStr name);
                     ("description", JStr description);
                     ("schema", match mapGet name (toolSchemas this) with
                                | Some s => s
                                | None => JNull
                                end) ].
Proof.
  intros Hreach.
  pose proof (reachable_wellFormed _ Hreach) as [Hnames Hdescr Hsub Htruthy Hget Hping].
  split; [|split; [|split; [|split; [|split]]]].
  - intros name Hin. rewrite catalogNames_systemGetTools in Hin.
    apply in_map_iff in Hin. destruct Hin as (n & Hn & Hin). injection Hn as ->.
    apply filter_In in Hin. destruct Hin as [_ Hneg].
    destruct (isSystemName name); [discriminate | reflexivity].
  - apply catalogNames_systemGetTools.
  - apply catalogNames_getToolsRoute.
  - rewrite catalogNames_getToolsRoute. apply in_map. exact Hget.
  - rewrite catalogNames_getToolsRoute. apply in_map. exact Hping.
  - intros entry Hin.
    assert (Hname : exists name, In name (mapKeys (tools this)) /\ entry = toolEntry this name).
    { unfold catalogEntries, systemGetTools, getToolsRoute in Hin.
      cbn [getProp lookup String.eqb Ascii.eqb Bool.eqb] in Hin.
      destruct Hin as [Hin|Hin]; apply in_map_iff in Hin;
        destruct Hin as (name & <- & Hin); exists name; split; try reflexivity.
      - apply filter_In in Hin. tauto.
      - exact Hin. }
    destruct Hname as (name & Hin' & ->).
    assert (Hhas : mapHas name (toolDescriptions this) = true).
    { apply mapHas_In. rewrite Hdescr. exact Hin'. }
    destruct (mapGet name (toolDescriptions this)) as [description|] eqn:Hd.
    2:{ destruct (mapHas name (toolDescriptions this)) eqn:E; [|discriminate].
        clear Hhas. exfalso. revert E Hd. clear.
        induction (toolDescriptions this) as [|[k a] m IH]; [discriminate|].
        unfold mapHas, mapGet in *. simpl.
        destruct (k =? name); simpl; [discriminate | exact IH]. }
    exists name, description. split; [apply mapHas_In; exact Hin'|].
    split; [exact Hd|].
    unfold toolEntry. rewrite Hd.
    destruct (mapGet name (toolSchemas this)) as [s|] eqn:Hs; [|reflexivity].
    assert (Hts : truthy s = true).
    { revert Hs Htruthy. clear. unfold mapGet.
      induction (toolSchemas this) as [|[k a] m IH]; [discriminate|].
      simpl. intros Hs Hall. inversion Hall as [|x l Hx Hl]; subst.
      destruct (k =? name); [injection Hs as <-; exact Hx | exact (IH Hs Hl)]. }
    unfold or_else. rewrite Hts. reflexivity.
Qed.

Lemma mapGet_Some_has {A} (k : string) (a : A) (m : list (string * A)) :
  mapGet k m = Some a -> mapHas k m = true.
Proof.
  intros H. destruct (mapHas k m) eqn:E; [reflexivity|].
  rewrite (mapHas_false_lookup k m E) in H. discriminate H.
Qed.

(** Calls of [registerTool] only add: the names registered before stay
    where they are in the order, with their handler, description and
    schema. *)
Lemma extends_keeps (this this1 : Server) :
  Extends this this1 ->
  (exists more, mapKeys (tools this1) = (mapKeys (tools this) ++ more)%list) /\
  forall n,
    mapHas n (tools this) = true ->
    mapGet n (tools this1) = mapGet n (tools this) /\
    mapGet n (toolDescriptions this1) = mapGet n (toolDescriptions this) /\
    mapGet n (toolSchemas this1) = mapGet n (toolSchemas this).
Proof.
  induction 1 as [|this1 name handler description schema outcome this2 Hext IH Hreg].
  - split; [exists []; rewrite app_nil_r; reflexivity | intros; repeat split].
  - destruct IH as [(more & Hkeys) IH].
    destruct (registerTool_cases name handler description schema this1)
      as [(m & Hthrow) | (n' & h & d & -> & -> & -> & Hblank & Hfree & Hok)].
    + rewrite Hthrow in Hreg. injection Hreg as _ <-.
      split; [exists more; exact Hkeys | exact IH].
    + rewrite Hok in Hreg. injection Hreg as _ <-.
      cbn [tools toolSchemas toolDescriptions]. split.
      * exists (more ++ [n'])%list.
        rewrite mapKeys_mapSet, Hfree, Hkeys, app_assoc. reflexivity.
      * intros n Hn. destruct (IH n Hn) as (Ht & Hd & Hs).
        assert (Hin1 : mapHas n (tools this1) = true).
        { apply mapHas_In. rewrite Hkeys. apply in_or_app. left.
          apply mapHas_In. exact Hn. }
        assert (Hne : n' <> n) by (intros ->; congruence).
        rewrite !mapGet_mapSet_other by exact Hne.
        split; [exact Ht|]. split; [exact Hd|].
        destruct (truthy schema); [rewrite mapGet_mapSet_other by exact Hne|]; exact Hs.
Qed.

Lemma reachable_extends (this : Server) :
  Reachable this -> Extends Examples.freshServer this.
Proof.
  induction 1 as [this Hnew | this name handler description schema outcome this' _ IH Hreg].
  - rewrite newMCPServer_value in Hnew. injection Hnew as <-. apply extends_refl.
  - eapply extends_register; eassumption.
Qed.

(** On a reachable server the two reserved names still carry the
    handlers the constructor registered. *)
Lemma reachable_builtin_handlers (this : Server) :
  Reachable this ->
  mapGet "system.getTools" (tools this) = Some SystemGetTools /\
  mapGet "system.ping" (tools this) = Some SystemPing.
Proof.
  intros Hreach.
  destruct (extends_keeps _ _ (reachable_extends this Hreach)) as [_ Hsame].
  destruct (Hsame "system.ping" eq_refl) as (Hping & _).
  destruct (Hsame "system.getTools" eq_refl) as (Hget & _).
  split; assumption.
Qed.

(** [handleRequest] on a request that [validateRequest] accepts and
    whose action names a registered tool: the handler runs once, on the
    parameters as the request carries them, and its completion decides
    the response. *)
Lemma handleRequest_dispatch (this : Server) (now : Z) (request : JsValue)
    (n : string) (h : Handler) :
  validateRequest request = JBool true ->
  getProp (getProp request "action") "name" = JStr n ->
  mapGet n (tools this) = Some h ->
  handleRequest this now request =
    (try_catch
       (try_catch
          (result <- runHandler this now h
                       (getProp (getProp request "action") "parameters") ;;
           createSuccessResponse result)
          (fun toolError =>
             message <- getMember toolError "message" ;;
             createErrorResponse
               (JStr ("Błąd podczas wykonywania narzędzia: " ++ toString message))))
       (fun error =>
          message <- getMember error "message" ;;
          createErrorResponse (JStr ("Nieoczekiwany błąd: " ++ toString message))),
     [JStr n]).
Proof.
  intros Hvalid Hname Hget.
  unfold handleRequest. rewrite Hvalid.
  destruct request as [| | | | | |fields]; try discriminate Hname.
  unfold requestAction. cbn [getMember bind].
  destruct (getProp (JObj fields) "action") as [| | | | | |act] eqn:Haction;
    try discriminate Hname.
  rewrite Hname. cbn [toolsHas toolsGet].
  rewrite (mapGet_Some_has n h _ Hget), Hget. reflexivity.
Qed.

(** C8.  The two catalogs of the claim disagree on the reserved
    namespace, on every reachable server.  A request to the tool
    registered as [system.getTools], whatever parameters it carries, is
    answered with a catalog that has no entry named [system.*] and lists
    the other registered tools in registration order.  The body sent by
    [GET /tools] lists every registered name in registration order,
    [system.getTools] and [system.ping] included, so it does not hide the
    reserved namespace.  In both catalogs an entry carries the name, the
    registered description and the registered schema or [null]. *)
Theorem getTools_catalogs_differ (this : Server) (now : Z) (request : JsValue) :
  Reachable this ->
  validateRequest request = JBool true ->
  getProp (getProp request "action") "name" = JStr "system.getTools" ->
  handleRequest this now request =
    (Return (successEnvelope (systemGetTools this)), [JStr "system.getTools"]) /\
  hidesSystemTools (systemGetTools this) /\
  catalogNames (systemGetTools this) =
    map JStr (filter (fun name => negb (isSystemName name)) (mapKeys (tools this))) /\
  catalogNames (getToolsRoute this) = map JStr (mapKeys (tools this)) /\
  In (JStr "system.getTools") (catalogNames (getToolsRoute this)) /\
  In (JStr "system.ping") (catalogNames (getToolsRoute this)) /\
  ~ hidesSystemTools (getToolsRoute this) /\
  forall entry,
    In entry (catalogEntries (systemGetTools this)) \/
    In entry (catalogEntries (getToolsRoute this)) ->
    exists name description,
      mapHas name (tools this) = true /\
      mapGet name (toolDescriptions this) = Some description /\
      entry = JObj [ ("name", JStr name);
                     ("description", JStr description);
                     ("schema", match mapGet name (toolSchemas this) with
                                | Some s => s
                                | None => JNull
                                end) ].
Proof.
  intros Hreach Hvalid Hname.
  destruct (catalogs_of_reachable_server this Hreach)
    as (Hhide & Hnames & Hall & Hget & Hping & Hentries).
  destruct (reachable_builtin_handlers this Hreach) as [Hhandler _].
  split.
  { rewrite (handleRequest_dispatch this now request _ _ Hvalid Hname Hhandler).
    reflexivity. }
  split; [exact Hhide|]. split; [exact Hnames|]. split; [exact Hall|].
  split; [exact Hget|]. split; [exact Hping|]. split; [|exact Hentries].
  intros Habs. specialize (Habs "system.ping" Hping). discriminate Habs.
Qed.

(** ** Conversation context *)

Import MCPAgent.

Lemma skipn_one_tl {A} (l : list A) : skipn 1 l = tl l.
Proof. destruct l; reflexivity. Qed.

Lemma keepLast_length {A} (n : nat) (l : list A) :
  length (keepLast n l) = Nat.min n (length l).
Proof. unfold keepLast. rewrite length_skipn. lia. Qed.

Lemma keepLast_short {A} (n : nat) (l : list A) :
  (length l <= n)%nat -> keepLast n l = l.
Proof.
  intros H. unfold keepLast. replace (length l - n)%nat with 0%nat by lia. reflexivity.
Qed.

(** Trimming, appending and trimming again is trimming once. *)
Lemma keepLast_app {A} (n : nat) (l m : list A) :
  keepLast n (keepLast n l ++ m) = keepLast n (l ++ m).
Proof.
  destruct (Nat.le_gt_cases (length l) n) as [Hle|Hgt].
  - rewrite (keepLast_short n l Hle). reflexivity.
  - unfold keepLast at 1 3.
    rewrite !length_app, keepLast_length.
    replace (Nat.min n (length l) + length m - n)%nat with (length m) by lia.
    unfold keepLast.
    replace (length l + length m - n)%nat with (length m + (length l - n))%nat by lia.
    rewrite <- skipn_skipn. f_equal.
    rewrite skipn_app.
    replace (length l - n - length l)%nat with 0%nat by lia. reflexivity.
Qed.

Lemma addToConversation_keepLast (now : Z) (r : string) (c : JsValue) (this : Agent) :
  (length (conversations this) <= 20)%nat ->
  conversations (_addToConversation now r c this) =
  keepLast 20 (conversations this ++ [mkTurn r c now]).
Proof.
  intros Hlen. unfold _addToConversation, keepLast, shift. cbn [conversations].
  rewrite length_app. cbn [length].
  destruct (Nat.ltb_spec 20 (length (conversations this) + 1)) as [Hfull|Hroom].
  - replace (length (conversations this) + 1 - 20)%nat with 1%nat by lia.
    symmetry. apply skipn_one_tl.
  - replace (length (conversations this) + 1 - 20)%nat with 0%nat by lia. reflexivity.
Qed.

Lemma appendAll_keepLast (calls : list (Z * string * JsValue)) (this : Agent) :
  (length (conversations this) <= 20)%nat ->
  conversations (appendAll calls this) =
  keepLast 20 (conversations this ++ map turnOf calls).
Proof.
  revert this. induction calls as [|[[now r] c] calls IH]; intros this Hlen.
  - cbn [appendAll fold_left map]. rewrite app_nil_r.
    symmetry. apply keepLast_short. exact Hlen.
  - cbn [appendAll fold_left map turnOf].
    change (fold_left _ calls ?a) with (appendAll calls a).
    rewrite IH.
    + rewrite addToConversation_keepLast by exact Hlen.
      rewrite keepLast_app, <- app_assoc. reflexivity.
    + rewrite addToConversation_keepLast by exact Hlen.
      rewrite keepLast_length. lia.
Qed.

(** C6.  Starting from a history of at most 20 turns (the constructor
    and [resetContext] leave an empty one), after any sequence of calls of
    [_addToConversation] the history is the last 20 of all turns in their
    order of arrival, so it never holds more than 20; and a call made
    when it holds 20 drops the oldest turn only and puts the new turn
    last. *)
Theorem conversation_bounded_fifo (this : Agent) (calls : list (Z * string * JsValue)) :
  (length (conversations this) <= 20)%nat ->
  conversations (appendAll calls this) =
    keepLast 20 (conversations this ++ map turnOf calls) /\
  (length (conversations (appendAll calls this)) <= 20)%nat /\
  forall now r c,
    length (conversations (appendAll calls this)) = 20%nat ->
    conversations (_addToConversation now r c (appendAll calls this)) =
      (tl (conversations (appendAll calls this)) ++ [mkTurn r c now])%list.
Proof.
  intros Hlen. split; [apply appendAll_keepLast; exact Hlen|].
  split.
  - rewrite appendAll_keepLast by exact Hlen. rewrite keepLast_length. lia.
  - intros now r c Hfull.
    unfold _addToConversation, shift. cbn [conversations].
    rewrite length_app, Hfull. cbn [length Nat.add Nat.ltb Nat.leb].
    destruct (conversations (appendAll calls this)); [discriminate Hfull | reflexivity].
Qed.

(** ** Plan execution *)

Import RetryPolicy.

Section PlanExecution.

Variable World : Type.
Variable callTool : World -> JsValue -> JsValue -> Outcome JsValue * World.
Variable arrayLike : JsValue -> Outcome (list JsValue).

(** The loop is left at once when [success] is set. *)
Lemma retryLoop_success (fuel : nat) (this : Agent)
    (attempt : World -> Outcome JsValue * World) (r : Z) (v : JsValue) (w : World)
    (calls : list (Outcome JsValue)) :
  retryLoop fuel this attempt (mkLoop r true v) w calls
  = Some (mkLoop r true v, w, calls).
Proof. destruct fuel; reflexivity. Qed.

(** The loop is left at once when the retries are used up. *)
Lemma retryLoop_used_up (fuel : nat) (this : Agent)
    (attempt : World -> Outcome JsValue * World) (s : LoopState) (w : World)
    (calls : list (Outcome JsValue)) :
  lessThan (retries s) (maxRetries this) = false ->
  retryLoop fuel this attempt s w calls = Some (s, w, calls).
Proof.
  intros H. destruct fuel; cbn [retryLoop]; rewrite H, andb_false_r; reflexivity.
Qed.

(** *** The retry policy *)

Lemma tryUpTo_nil (n : nat) (step : Step) (w : World) :
  fst (tryUpTo callTool n step w) = [] -> n = 0%nat.
Proof.
  destruct n as [|n]; [reflexivity|]. cbn [tryUpTo].
  destruct (callTool w (action step) (parameters step)) as [[v|m] w1];
    [discriminate|].
  destruct (tryUpTo callTool n step w1). discriminate.
Qed.


(** Every call but the last one failed, and a failing last call is call
    number [n]. *)
Lemma tryUpTo_shape (n : nat) (step : Step) :
  forall w prev o,
    fst (tryUpTo callTool n step w) = (prev ++ [o])%list ->
    Forall isRejected prev /\
    (forall m, o = Rejected m -> length (prev ++ [o]) = n).
Proof.
  induction n as [|n IH]; intros w prev o Heq.
  - destruct prev; discriminate Heq.
  - cbn [tryUpTo] in Heq.
    destruct (callTool w (action step) (parameters step)) as [[v|m] w1].
    + destruct prev as [|x [|y rest]]; try discriminate Heq.
      injection Heq as <-. split; [constructor | intros m Hm; discriminate Hm].
    + specialize (IH w1).
      destruct (tryUpTo callTool n step w1) as [rest w2] eqn:Htry.
      cbn [fst] in *. destruct prev as [|x prev'].
      * injection Heq as <- Hrest.
        assert (Hn : n = 0%nat).
        { apply (tryUpTo_nil n step w1). rewrite Htry. exact Hrest. }
        split; [constructor | intros m' _; rewrite Hn; reflexivity].
      * injection Heq as <- Hrest. destruct (IH prev' o Hrest) as [Hprev Hlen].
        split; [constructor; [exact I | exact Hprev]|].
        intros m' Hm'. cbn [length app]. rewrite (Hlen m' Hm'). reflexivity.
Qed.

(** With at least one attempt allowed the first call is made, in the
    world the step starts in. *)
Lemma tryUpTo_first (n : nat) (step : Step) (w : World) :
  match fst (tryUpTo callTool n step w) with
  | [] => n = 0%nat
  | first :: _ => fst (callTool w (action step) (parameters step)) = first
  end.
Proof.
  destruct n as [|n]; [reflexivity|]. cbn [tryUpTo].
  destruct (callTool w (action step) (parameters step)) as [[v|m] w1]; [reflexivity|].
  destruct (tryUpTo callTool n step w1). reflexivity.
Qed.

Lemma last_map_Some {A} (x : A) (l : list A) :
  exists y, last (map Some (x :: l)) None = Some y.
Proof.
  revert x. induction l as [|z l IH]; intros x; [exists x; reflexivity|].
  destruct (IH z) as (y & Hy). exists y. exact Hy.
Qed.

Lemma resultOfCalls_rejected (prev : list (Outcome JsValue)) (m : string) :
  resultOfCalls (prev ++ [Rejected m]) = JObj [("error", JStr m)].
Proof. unfold resultOfCalls. rewrite map_app. cbn [map]. rewrite last_last. reflexivity. Qed.

Lemma resultOfCalls_resolved (prev : list (Outcome JsValue)) (v : JsValue) :
  resultOfCalls (prev ++ [Resolved v]) = v.
Proof. unfold resultOfCalls. rewrite map_app. cbn [map]. rewrite last_last. reflexivity. Qed.

Lemma tryEach_length (n : nat) (steps : list Step) :
  forall w, length (fst (tryEach callTool n steps w)) = length steps.
Proof.
  induction steps as [|step rest IH]; intros w; [reflexivity|].
  cbn [tryEach]. destruct (tryUpTo callTool n step w) as [calls w1].
  specialize (IH w1). destruct (tryEach callTool n rest w1) as [log w'].
  cbn [fst length] in *. rewrite IH. reflexivity.
Qed.

Lemma worldAfter_cons (n : nat) (step : Step) (rest : list Step) (w : World) :
  worldAfter callTool n (step :: rest) w =
  worldAfter callTool n rest (snd (tryUpTo callTool n step w)).
Proof.
  unfold worldAfter. cbn [tryEach].
  destruct (tryUpTo callTool n step w) as [calls w1]. cbn [snd].
  destruct (tryEach callTool n rest w1) as [log w']. reflexivity.
Qed.

(** *** The loops refine the policy *)

(** With a finite limit, the [while] loop on a step makes the calls of
    the policy and leaves in [stepResult] what the policy records. *)
Lemma retryLoop_refines (this : Agent) (step : Step) (limit : Z) (n : nat) :
  maxRetries this = Finite limit ->
  forall (fuel : nat) (r : Z) (result0 : JsValue) (w : World)
         (calls0 : list (Outcome JsValue)),
    Z.to_nat (limit - r) = n ->
    (n <= fuel)%nat ->
    exists s',
      retryLoop fuel this (fun w' => callTool w' (action step) (parameters step))
                (mkLoop r false result0) w calls0
        = Some (s', snd (tryUpTo callTool n step w),
                (calls0 ++ fst (tryUpTo callTool n step w))%list) /\
      stepResult s' =
        match last (map Some (fst (tryUpTo callTool n step w))) None with
        | None => result0
        | Some (Resolved v) => v
        | Some (Rejected m) => JObj [("error", JStr m)]
        end.
Proof.
  intros Hmax.
  induction n as [|n IH]; intros fuel r result0 w calls0 Hn Hfuel.
  - exists (mkLoop r false result0). cbn [tryUpTo fst snd map last].
    rewrite app_nil_r. split; [|reflexivity].
    apply retryLoop_used_up. rewrite Hmax. cbn [retries lessThan]. lia.
  - destruct fuel as [|fuel]; [lia|].
    cbn [retryLoop success retries stepResult negb andb].
    rewrite Hmax. cbn [lessThan atLeast].
    assert (Hcond : (r <? limit)%Z = true) by lia. rewrite Hcond.
    cbn [tryUpTo].
    destruct (callTool w (action step) (parameters step)) as [[v|m] w1] eqn:Hcall.
    + rewrite retryLoop_success. eexists. split; reflexivity.
    + destruct (IH fuel (r + 1)%Z
                  (if (r + 1 >=? limit)%Z
                   then JObj [("error", JStr m)] else result0)
                  w1 (calls0 ++ [Rejected m])%list)
        as (s' & Hrun & Hres); [lia | lia |].
      exists s'. rewrite Hrun.
      destruct (tryUpTo callTool n step w1) as [rest w2] eqn:Htry.
      cbn [fst snd] in *. rewrite <- app_assoc. split; [reflexivity|].
      rewrite Hres. destruct rest as [|c rest].
      * assert (n = 0%nat).
        { apply (tryUpTo_nil n step w1). rewrite Htry. reflexivity. }
        assert (Hlast : (r + 1 >=? limit)%Z = true) by lia.
        rewrite Hlast. reflexivity.
      * change (last (map Some (Rejected m :: c :: rest)) None)
          with (last (map Some (c :: rest)) None).
        destruct (last_map_Some c rest) as (x & ->). reflexivity.
Qed.

(** One iteration of the [for] loop on a readable step, with a finite
    limit and enough iterations allowed: the calls are those of the
    policy and the entry records their result. *)
Lemma executeStep_refines (this : Agent) (step : Step) (limit : Z) (fuel : nat)
    (w : World) :
  maxRetries this = Finite limit ->
  (Z.to_nat limit <= fuel)%nat ->
  executeStep callTool fuel this step w =
    Some (entryOf step (fst (tryUpTo callTool (Z.to_nat limit) step w)),
          snd (tryUpTo callTool (Z.to_nat limit) step w),
          fst (tryUpTo callTool (Z.to_nat limit) step w)).
Proof.
  intros Hmax Hfuel. unfold executeStep.
  destruct (retryLoop_refines this step limit (Z.to_nat limit) Hmax
              fuel 0 JUndefined w [])
    as (s' & Hrun & Hres); [f_equal; lia | exact Hfuel |].
  rewrite Hrun. cbn [app]. unfold entryOf, resultOfCalls. rewrite Hres. reflexivity.
Qed.

(** With a finite limit, the [while] loop whose [try] block throws
    before any call ends without touching the world. *)
Lemma retryLoop_without_call (this : Agent) (message : string) (limit : Z) (n : nat) :
  maxRetries this = Finite limit ->
  forall (fuel : nat) (r : Z) (result0 : JsValue) (w : World)
         (calls0 : list (Outcome JsValue)),
    Z.to_nat (limit - r) = n ->
    (n <= fuel)%nat ->
    exists s' calls,
      retryLoop fuel this (fun w' : World => (Rejected message, w'))
                (mkLoop r false result0) w calls0 = Some (s', w, calls).
Proof.
  intros Hmax.
  induction n as [|n IH]; intros fuel r result0 w calls0 Hn Hfuel.
  - exists (mkLoop r false result0), calls0.
    apply retryLoop_used_up. rewrite Hmax. cbn [retries lessThan]. lia.
  - destruct fuel as [|fuel]; [lia|].
    cbn [retryLoop success retries stepResult negb andb].
    rewrite Hmax. cbn [lessThan atLeast].
    assert (Hcond : (r <? limit)%Z = true) by lia. rewrite Hcond.
    apply IH; lia.
Qed.

(** An iteration on a readable element. *)
Lemma executeElement_step (this : Agent) (step : JsValue) (limit : Z) (fuel : nat)
    (w : World) :
  maxRetries this = Finite limit ->
  (Z.to_nat limit <= fuel)%nat ->
  readable this step = true ->
  executeElement callTool fuel this step w =
    Some (Resolved (entryOf (stepOf step)
                      (fst (tryUpTo callTool (Z.to_nat limit) (stepOf step) w))),
          snd (tryUpTo callTool (Z.to_nat limit) (stepOf step) w),
          fst (tryUpTo callTool (Z.to_nat limit) (stepOf step) w)).
Proof.
  intros Hmax Hfuel Hstep. unfold executeElement.
  unfold readable in Hstep. apply andb_true_iff in Hstep. destruct Hstep as [Hvalue Hprint].
  apply negb_true_iff in Hvalue. rewrite Hvalue.
  assert (Hlog : debug this && negb (convertible (getProp step "action")) = false).
  { destruct (debug this); [|reflexivity]. cbn [negb orb] in Hprint.
    rewrite Hprint. reflexivity. }
  rewrite Hlog.
  rewrite (executeStep_refines this (stepOf step) limit fuel w Hmax Hfuel).
  reflexivity.
Qed.

(** In debug mode, an iteration on a value whose [action] cannot be
    printed throws the TypeError of the conversion; no call is made. *)
Lemma executeElement_unprintable (this : Agent) (step : JsValue) (fuel : nat)
    (w : World) :
  isNullish step = false ->
  readable this step = false ->
  executeElement callTool fuel this step w = Some (Rejected cannotConvert, w, []).
Proof.
  intros Hvalue Hstep. unfold executeElement. rewrite Hvalue.
  unfold readable in Hstep. rewrite Hvalue in Hstep. cbn [negb andb] in Hstep.
  apply orb_false_iff in Hstep. destruct Hstep as [Hdebug Hprint].
  apply negb_false_iff in Hdebug. rewrite Hdebug, Hprint. reflexivity.
Qed.

(** An iteration on [null] or [undefined] throws the TypeError of
    [step.action]; no call is made. *)
Lemma executeElement_nullish (this : Agent) (step : JsValue) (limit : Z) (fuel : nat)
    (w : World) :
  maxRetries this = Finite limit ->
  (Z.to_nat limit <= fuel)%nat ->
  isNullish step = true ->
  executeElement callTool fuel this step w =
    Some (Rejected (cannotRead step "action"), w, []).
Proof.
  intros Hmax Hfuel Hstep. unfold executeElement. rewrite Hstep.
  destruct (debug this); [reflexivity|].
  destruct (retryLoop_without_call this (cannotRead step "action") limit
              (Z.to_nat limit) Hmax fuel 0 JUndefined w [])
    as (s' & calls & ->); [f_equal; lia | exact Hfuel |].
  reflexivity.
Qed.

(** The [for] loop on readable elements, with a finite limit: no
    iteration throws, the calls are those of the policy, step by step,
    and entry [i] records the calls of step [i]. *)
Lemma executeSteps_refines (this : Agent) (limit : Z) (fuel : nat) :
  maxRetries this = Finite limit ->
  (Z.to_nat limit <= fuel)%nat ->
  forall (items : list JsValue),
    Forall (fun step => readable this step = true) items ->
    forall (results0 : list JsValue) (w : World) (log0 : list (list (Outcome JsValue))),
    exists results,
      executeSteps callTool fuel this items results0 w log0 =
        Some (Resolved (results0 ++ results)%list,
              snd (tryEach callTool (Z.to_nat limit) (map stepOf items) w),
              (log0 ++ fst (tryEach callTool (Z.to_nat limit) (map stepOf items) w))%list) /\
      length results = length items /\
      forall i step,
        nth_error items i = Some step ->
        let calls :=
          fst (tryUpTo callTool (Z.to_nat limit) (stepOf step)
                 (worldAfter callTool (Z.to_nat limit)
                    (map stepOf (firstn i items)) w)) in
        nth_error results i = Some (entryOf (stepOf step) calls) /\
        nth_error (fst (tryEach callTool (Z.to_nat limit) (map stepOf items) w)) i
          = Some calls.
Proof.
  intros Hmax Hfuel items Hread.
  induction Hread as [|step rest Hstep Hrest IH]; intros results0 w log0.
  - exists []. cbn [executeSteps map tryEach fst snd]. rewrite !app_nil_r.
    split; [reflexivity|]. split; [reflexivity|].
    intros [|i] step H; discriminate H.
  - cbn [executeSteps map tryEach].
    rewrite (executeElement_step this step limit fuel w Hmax Hfuel Hstep).
    destruct (tryUpTo callTool (Z.to_nat limit) (stepOf step) w) as [calls w1] eqn:Htry.
    cbn [fst snd].
    destruct (IH (results0 ++ [entryOf (stepOf step) calls])%list w1
                 (log0 ++ [calls])%list)
      as (results & Hrun & Hlen & Hnth).
    exists (entryOf (stepOf step) calls :: results).
    rewrite Hrun.
    destruct (tryEach callTool (Z.to_nat limit) (map stepOf rest) w1) as [log w'] eqn:Hall.
    cbn [fst snd] in *. rewrite <- !app_assoc.
    split; [reflexivity|]. split; [cbn [length]; rewrite Hlen; reflexivity|].
    intros [|i] step' Hi.
    + injection Hi as <-. cbn [firstn map nth_error].
      unfold worldAfter. cbn [tryEach snd]. rewrite Htry. split; reflexivity.
    + cbn [firstn map nth_error]. rewrite worldAfter_cons, Htry. cbn [snd].
      exact (Hnth i step' Hi).
Qed.

(** With a finite limit the [for] loop ends on every list of elements. *)
Lemma executeSteps_returns (this : Agent) (limit : Z) (fuel : nat)
    (items : list JsValue) :
  maxRetries this = Finite limit ->
  (Z.to_nat limit <= fuel)%nat ->
  forall (results0 : list JsValue) (w : World) (log0 : list (list (Outcome JsValue))),
  exists outcome w' log,
    executeSteps callTool fuel this items results0 w log0 = Some (outcome, w', log).
Proof.
  intros Hmax Hfuel.
  induction items as [|step rest IH]; intros results0 w log0.
  - eexists _, _, _. reflexivity.
  - cbn [executeSteps]. destruct (isNullish step) eqn:Hvalue.
    + rewrite (executeElement_nullish this step limit fuel w Hmax Hfuel Hvalue).
      eexists _, _, _. reflexivity.
    + destruct (readable this step) eqn:Hstep.
      * rewrite (executeElement_step this step limit fuel w Hmax Hfuel Hstep).
        apply IH.
      * rewrite (executeElement_unprintable this step fuel w Hvalue Hstep).
        eexists _, _, _. reflexivity.
Qed.

Lemma executePlan_returns (this : Agent) (limit : Z) (fuel : nat) (plan : JsValue)
    (w : World) :
  maxRetries this = Finite limit ->
  (Z.to_nat limit <= fuel)%nat ->
  exists outcome w' log,
    _executePlan callTool arrayLike fuel this plan w = Some (outcome, w', log).
Proof.
  intros Hmax Hfuel. unfold _executePlan.
  destruct (planSteps arrayLike plan) as [items|message].
  - apply (executeSteps_returns this limit fuel items Hmax Hfuel).
  - eexists _, _, _. reflexivity.
Qed.

(** With [maxRetries = Infinity] the [while] loop does not end as long
    as the attempts fail. *)
Lemma retryLoop_unbounded_failing (this : Agent)
    (attempt : World -> Outcome JsValue * World) :
  maxRetries this = Infinity ->
  (forall w, exists m w', attempt w = (Rejected m, w')) ->
  forall (fuel : nat) (s : LoopState) (w : World) (calls : list (Outcome JsValue)),
    success s = false ->
    retryLoop fuel this attempt s w calls = None.
Proof.
  intros Hmax Hfail.
  induction fuel as [|fuel IH]; intros s w calls Hs; cbn [retryLoop];
    rewrite Hs, Hmax; cbn [lessThan negb andb]; [reflexivity|].
  destruct (Hfail w) as (m & w' & ->). apply IH. reflexivity.
Qed.

(** C2 (as amended).  For an agent whose [maxRetries] is finite, a plan
    whose [steps] is an array of [N] steps (readable values: every
    object with a tool name as [action] is one) is executed to the end:
    [_executePlan] returns [N] entries.  The calls made are those of the
    retry policy: the steps are taken in plan order, each is tried up to
    [maxRetries] times until a call succeeds, and each starts in the
    world the steps before it left, whatever their results were.  Entry [i] repeats the action
    and parameters of step [i] and records the result of its calls; when
    the last allowed call of a step failed, after [maxRetries] failures
    in a row, the result is [{ error: <message of that failure> }].
    Unless no attempt is allowed at all, the first call of every step is
    made. *)
Theorem executePlan_entry_per_step (this : Agent) (plan : JsValue)
    (items : list JsValue) (limit : Z) (fuel : nat) (w : World) :
  maxRetries this = Finite limit ->
  (Z.to_nat limit <= fuel)%nat ->
  isNullish plan = false ->
  getProp plan "steps" = JArr items ->
  Forall (fun step => readable this step = true) items ->
  exists results w' log,
    _executePlan callTool arrayLike fuel this plan w = Some (Resolved results, w', log) /\
    (log, w') = tryEach callTool (Z.to_nat limit) (map stepOf items) w /\
    length results = length items /\
    forall i step,
      nth_error items i = Some step ->
      let start :=
        worldAfter callTool (Z.to_nat limit) (map stepOf (firstn i items)) w in
      exists entry calls,
        nth_error results i = Some entry /\
        nth_error log i = Some calls /\
        calls = fst (tryUpTo callTool (Z.to_nat limit) (stepOf step) start) /\
        entry = JObj [ ("action", getProp step "action");
                       ("parameters", getProp step "parameters");
                       ("result", resultOfCalls calls) ] /\
        (forall prev m,
            calls = (prev ++ [Rejected m])%list ->
            length calls = Z.to_nat limit /\ Forall isRejected prev /\
            getProp entry "result" = JObj [("error", JStr m)]) /\
        (forall prev v,
            calls = (prev ++ [Resolved v])%list ->
            Forall isRejected prev /\ getProp entry "result" = v) /\
        match calls with
        | [] => Z.to_nat limit = 0%nat
        | first :: _ =>
            fst (callTool start (getProp step "action") (getProp step "parameters"))
            = first
        end.
Proof.
  intros Hmax Hfuel Hplan Hsteps Hread.
  destruct (executeSteps_refines this limit fuel Hmax Hfuel items Hread [] w [])
    as (results & Hrun & Hlen & Hnth).
  cbn [app] in Hrun.
  exists results,
         (snd (tryEach callTool (Z.to_nat limit) (map stepOf items) w)),
         (fst (tryEach callTool (Z.to_nat limit) (map stepOf items) w)).
  split.
  { unfold _executePlan, planSteps. rewrite Hplan, Hsteps. exact Hrun. }
  split. { destruct (tryEach callTool (Z.to_nat limit) (map stepOf items) w); reflexivity. }
  split; [exact Hlen|].
  intros i step Hi start.
  destruct (Hnth i step Hi) as [Hentry Hcalls]. fold start in Hentry, Hcalls.
  eexists _, _. split; [exact Hentry|]. split; [exact Hcalls|].
  split; [reflexivity|]. split; [reflexivity|].
  split; [|split].
  - intros prev m Heq.
    destruct (tryUpTo_shape (Z.to_nat limit) (stepOf step) start prev (Rejected m) Heq)
      as [Hprev Hcount].
    split; [rewrite Heq; exact (Hcount m eq_refl)|]. split; [exact Hprev|].
    unfold entryOf. cbn [getProp lookup String.eqb Ascii.eqb Bool.eqb].
    rewrite Heq. apply resultOfCalls_rejected.
  - intros prev v Heq.
    destruct (tryUpTo_shape (Z.to_nat limit) (stepOf step) start prev (Resolved v) Heq)
      as [Hprev _].
    split; [exact Hprev|].
    unfold entryOf. cbn [getProp lookup String.eqb Ascii.eqb Bool.eqb].
    rewrite Heq. apply resultOfCalls_resolved.
  - exact (tryUpTo_first (Z.to_nat limit) (stepOf step) start).
Qed.


End PlanExecution.

(** ** Query processing *)

Section QueryProcessing.

Variable World : Type.
Variable callTool : World -> JsValue -> JsValue -> Outcome JsValue * World.
Variable arrayLike : JsValue -> Outcome (list JsValue).
Variable TaskAnalysis : Type.
Variable _analyzeUserQuery : World -> JsValue -> Outcome TaskAnalysis * World.
Variable _generatePlan : World -> TaskAnalysis -> Outcome JsValue * World.
Variable _generateUserResponse :
  World -> JsValue -> list JsValue -> Outcome JsValue * World.
Variable dateNow : World -> Z.

Local Abbreviation run :=
  (processUserQuery callTool arrayLike
     _analyzeUserQuery _generatePlan _generateUserResponse dateNow).
Local Abbreviation Rejects :=
  (StageRejected callTool arrayLike
     _analyzeUserQuery _generatePlan _generateUserResponse dateNow).
Local Abbreviation Resolves :=
  (StagesResolved callTool arrayLike
     _analyzeUserQuery _generatePlan _generateUserResponse dateNow).

(** Whenever a run returns, it is of one of the two kinds. *)
Lemma returned_reject_or_resolve (fuel : nat) (this : Agent) (w : World)
    (userQuery answer : JsValue) (this' : Agent) (wEnd : World) :
  run fuel this w userQuery = Some (answer, this', wEnd) ->
  (exists message, Rejects fuel this w userQuery message wEnd) \/
  Resolves fuel this w userQuery answer wEnd.
Proof.
  unfold processUserQuery.
  destruct (_analyzeUserQuery w userQuery) as [[taskAnalysis|m] w1] eqn:Ha.
  2:{ intros H. injection H as _ _ <-. left. exists m. apply rejected_analysis. exact Ha. }
  destruct (_generatePlan w1 taskAnalysis) as [[plan|m] w2] eqn:Hp.
  2:{ intros H. injection H as _ _ <-. left. exists m.
      eapply rejected_plan; eassumption. }
  destruct (_executePlan callTool arrayLike fuel
              (_addToConversation (dateNow w) "user" userQuery this) plan w2)
    as [[[[results|m] w3] log]|] eqn:He; [| |discriminate].
  2:{ intros H. injection H as _ _ <-. left. exists m.
      eapply rejected_execution; eassumption. }
  destruct (_generateUserResponse w3 userQuery results) as [[response|m] w4] eqn:Hr.
  - intros H. injection H as <- _ <-. right. eapply resolved_all; eassumption.
  - intros H. injection H as _ _ <-. left. exists m.
    eapply rejected_response; eassumption.
Qed.

(** With a finite [maxRetries] every run is of one of the two kinds. *)
Lemma stages_reject_or_resolve (fuel : nat) (this : Agent) (limit : Z) (w : World)
    (userQuery : JsValue) :
  maxRetries this = Finite limit ->
  (Z.to_nat limit <= fuel)%nat ->
  (exists message wEnd, Rejects fuel this w userQuery message wEnd) \/
  (exists response wEnd, Resolves fuel this w userQuery response wEnd).
Proof.
  intros Hmax Hfuel.
  destruct (_analyzeUserQuery w userQuery) as [[taskAnalysis|m] w1] eqn:Ha.
  2:{ left. exists m, w1. apply rejected_analysis. exact Ha. }
  destruct (_generatePlan w1 taskAnalysis) as [[plan|m] w2] eqn:Hp.
  2:{ left. exists m, w2. eapply rejected_plan; eassumption. }
  destruct (executePlan_returns World callTool arrayLike
              (_addToConversation (dateNow w) "user" userQuery this)
              limit fuel plan w2 Hmax Hfuel)
    as ([results|m] & w3 & log & He).
  2:{ left. exists m, w3. eapply rejected_execution; eassumption. }
  destruct (_generateUserResponse w3 userQuery results) as [[response|m] w4] eqn:Hr.
  - right. exists response, w4. eapply resolved_all; eassumption.
  - left. exists m, w4. eapply rejected_response; eassumption.
Qed.

Lemma keepLast_snoc {A} (n : nat) (l : list A) (x : A) :
  (1 <= n)%nat -> exists older, keepLast n (l ++ [x]) = (older ++ [x])%list.
Proof.
  intros Hn. unfold keepLast. rewrite length_app. cbn [length].
  exists (skipn (length l + 1 - n) l).
  rewrite skipn_app.
  replace (length l + 1 - n - length l)%nat with 0%nat by lia. reflexivity.
Qed.

(** C10 (as amended).  On a history of at most 20 turns: when one of
    the four awaited stages (analysis, planning, plan execution,
    response) rejects, the caller gets the error text, and the history
    is the old one with the user turn appended and trimmed to its last 20
    turns, the user turn being its newest entry; when all stages resolve,
    the caller gets the response and the history is the old one with the
    user turn and then the assistant turn appended, trimmed to its last
    20.  The length grows by one resp. two only as far as the cap of 20
    allows.  Every run that returns is of one of the two kinds, and with
    a finite [maxRetries] every run returns. *)
Theorem processUserQuery_history (fuel : nat) (this : Agent) (w : World)
    (userQuery : JsValue) :
  (length (conversations this) <= 20)%nat ->
  (forall message wEnd,
      Rejects fuel this w userQuery message wEnd ->
      exists this',
        run fuel this w userQuery
          = Some (JStr (processingErrorMessage message), this', wEnd) /\
        conversations this' =
          keepLast 20 (conversations this ++ [mkTurn "user" userQuery (dateNow w)]) /\
        (exists older,
            conversations this' = (older ++ [mkTurn "user" userQuery (dateNow w)])%list) /\
        length (conversations this') = Nat.min 20 (length (conversations this) + 1)) /\
  (forall response wEnd,
      Resolves fuel this w userQuery response wEnd ->
      exists this',
        run fuel this w userQuery = Some (response, this', wEnd) /\
        conversations this' =
          keepLast 20 (conversations this ++
                       [ mkTurn "user" userQuery (dateNow w);
                         mkTurn "assistant" response (dateNow wEnd) ]) /\
        length (conversations this') = Nat.min 20 (length (conversations this) + 2)) /\
  (forall answer this' wEnd,
      run fuel this w userQuery = Some (answer, this', wEnd) ->
      (exists message, Rejects fuel this w userQuery message wEnd) \/
      Resolves fuel this w userQuery answer wEnd) /\
  (forall limit,
      maxRetries this = Finite limit ->
      (Z.to_nat limit <= fuel)%nat ->
      (exists message wEnd, Rejects fuel this w userQuery message wEnd) \/
      (exists response wEnd, Resolves fuel this w userQuery response wEnd)).
Proof.
  intros Hlen.
  assert (Huser : conversations (_addToConversation (dateNow w) "user" userQuery this)
                  = keepLast 20 (conversations this ++ [mkTurn "user" userQuery (dateNow w)]))
    by (apply addToConversation_keepLast; exact Hlen).
  split; [|split; [|split]].
  - intros message wEnd Hrej.
    exists (_addToConversation (dateNow w) "user" userQuery this).
    split; [|split; [exact Huser|split]].
    + unfold processUserQuery.
      destruct Hrej as [Ha | ta w1 Ha Hp | ta w1 plan w2 log Ha Hp He
                       | ta w1 plan w2 results w3 log Ha Hp He Hr].
      * rewrite Ha. reflexivity.
      * rewrite Ha, Hp. reflexivity.
      * rewrite Ha, Hp, He. reflexivity.
      * rewrite Ha, Hp, He, Hr. reflexivity.
    + rewrite Huser. apply keepLast_snoc. lia.
    + rewrite Huser, keepLast_length, length_app. reflexivity.
  - intros response wEnd Hres.
    destruct Hres as [ta w1 plan w2 results w3 log Ha Hp He Hr].
    eexists. split.
    + unfold processUserQuery. rewrite Ha, Hp, He, Hr. reflexivity.
    + assert (Hboth :
        conversations
          (_addToConversation (dateNow wEnd) "assistant" response
             (_addToConversation (dateNow w) "user" userQuery this))
        = keepLast 20 (conversations this ++
                       [ mkTurn "user" userQuery (dateNow w);
                         mkTurn "assistant" response (dateNow wEnd) ])).
      { rewrite addToConversation_keepLast.
        - rewrite Huser, keepLast_app, <- app_assoc. reflexivity.
        - rewrite Huser, keepLast_length. lia. }
      split; [exact Hboth|].
      rewrite Hboth, keepLast_length, length_app. reflexivity.
  - intros answer this' wEnd. apply returned_reject_or_resolve.
  - intros limit Hmax Hfuel.
    apply (stages_reject_or_resolve fuel this limit w userQuery).
    + exact Hmax.
    + exact Hfuel.
Qed.

End QueryProcessing.

(** ** Requests and responses *)

Lemma firstUnknown_none (declared present : list string) :
  firstUnknown declared present = None <->
  forallb (fun k => existsb (String.eqb k) declared) present = true.
Proof.
  induction present as [|k rest IH]; simpl; [tauto|].
  destruct (existsb (String.eqb k) declared); simpl; [exact IH|].
  split; discriminate.
Qed.

(** X1.  [createRequest] returns exactly when the name is a non-empty
    string and the parameters are a mapping or left out; the request it
    returns passes [validateRequest], and the server reads back from it
    the name and the parameters (an empty mapping when they were left
    out).  Otherwise it throws an [Error] whose message starts with
    [Nieprawidłowe żądanie MCP: ]. *)
Theorem createRequest_round_trip (actionName params : JsValue) :
  match createRequest actionName params with
  | Return request =>
      isNonEmptyString actionName = true /\
      isParameters params = true /\
      validateRequest request = JBool true /\
      requestAction request =
        Return (actionName, match params with JUndefined => JObj [] | p => p end)
  | Throw e =>
      isNonEmptyString actionName && isParameters params = false /\
      exists message, e = newError ("Nieprawidłowe żądanie MCP: " ++ message)
  end.
Proof.
  destruct actionName as [| | | |name| |];
    try (destruct params; (split; [reflexivity | eexists; reflexivity])).
  destruct name as [|c name];
    [destruct params; (split; [reflexivity | eexists; reflexivity])|].
  destruct params;
    try (split; [reflexivity | eexists; reflexivity]);
    repeat split; reflexivity.
Qed.

(** X2.  What [validateResponse] accepts, apart from [undefined]: an
    object with version ["1.0"] and no key beyond [version], [status],
    [result] and [error] that is either a success carrying a mapping as
    [result] and no [error], or an error carrying a non-empty string as
    [error] and no [result]. *)
Theorem validateResponse_discriminates (v : JsValue) :
  validateResponse v = JBool true ->
  v = JUndefined \/
  (getProp v "version" = JStr "1.0" /\
   hasOnlyKeys ["version"; "status"; "result"; "error"] v = true /\
   ((getProp v "status" = JStr "success" /\
     isMapping (getProp v "result") = true /\
     getProp v "error" = JUndefined) \/
    (getProp v "status" = JStr "error" /\
     isNonEmptyString (getProp v "error") = true /\
     getProp v "result" = JUndefined))).
Proof.
  intros Hok.
  destruct v as [| | b | n | s | items | fields]; try discriminate Hok; [left; reflexivity|].
  right.
  unfold validateResponse, validate, responseSchema in Hok.
  cbn [validateAt map fst presenceCheck] in Hok.
  destruct (getProp (JObj fields) "version") as [| | | |ver| |] eqn:Ever;
    try discriminate Hok.
  destruct (String.eqb_spec ver "1.0") as [->|Hver].
  2:{ apply String.eqb_neq in Hver. cbn in Hok. rewrite Hver in Hok. discriminate Hok. }
  destruct (getProp (JObj fields) "status") as [| | | |status| |] eqn:Estatus;
    try discriminate Hok.
  split; [reflexivity|].
  destruct (String.eqb_spec status "success") as [->|Hs].
  - destruct (getProp (JObj fields) "result") as [| | | | | |result] eqn:Eresult;
      try discriminate Hok.
    destruct (getProp (JObj fields) "error") eqn:Eerror; try discriminate Hok.
    cbn in Hok.
    destruct (firstUnknown _ _) eqn:Hunknown in Hok; [discriminate Hok|].
    apply firstUnknown_none in Hunknown.
    split; [exact Hunknown|]. left. repeat split; reflexivity.
  - destruct (String.eqb_spec status "error") as [->|He].
    + destruct (getProp (JObj fields) "result") eqn:Eresult; try discriminate Hok.
      destruct (getProp (JObj fields) "error") as [| | | |err| |] eqn:Eerror;
        try discriminate Hok.
      destruct err as [|c err]; [discriminate Hok|].
      cbn in Hok.
      destruct (firstUnknown _ _) eqn:Hunknown in Hok; [discriminate Hok|].
      apply firstUnknown_none in Hunknown.
      split; [exact Hunknown|]. right. repeat split; reflexivity.
    + apply String.eqb_neq in Hs, He. cbn in Hok. rewrite Hs, He in Hok.
      discriminate Hok.
Qed.

Lemma hasOnlyKeys_firstUnknown (allowed : list string) (fields : list (string * JsValue)) :
  hasOnlyKeys allowed (JObj fields) =
  match firstUnknown allowed (keys fields) with None => true | Some _ => false end.
Proof.
  unfold hasOnlyKeys.
  destruct (firstUnknown allowed (keys fields)) eqn:H.
  - destruct (forallb _ _) eqn:E; [|reflexivity].
    apply firstUnknown_none in E. congruence.
  - apply firstUnknown_none. exact H.
Qed.

(** X3.  [validateRequest] answers [true] exactly on [undefined] and on
    the objects with version ["1.0"], an action object with a non-empty
    string [name] and, if present, a mapping as [parameters], and no
    other key in the request or in the action. *)
Theorem validateRequest_accepts_iff (v : JsValue) :
  validateRequest v = JBool true <-> v = JUndefined \/ isExactRequest v = true.
Proof.
  destruct v as [| | b | n | s | items | fields];
    try (split; [discriminate | intros [H|H]; discriminate H]).
  { split; [left; reflexivity | reflexivity]. }
  unfold isExactRequest, hasRequestShape, validateRequest, validate, requestSchema.
  rewrite hasOnlyKeys_firstUnknown.
  cbn [validateAt map fst presenceCheck].
  destruct (getProp (JObj fields) "version") as [| | | |ver| |] eqn:Ever;
    try (split; [discriminate | intros [H|H]; discriminate H]).
  destruct (getProp (JObj fields) "action") as [| | | | | |act] eqn:Eaction;
    destruct (String.eqb_spec ver "1.0") as [->|Hver];
    try (apply String.eqb_neq in Hver; cbn; rewrite Hver);
    try (split; [discriminate | intros [H|H]; discriminate H]).
  rewrite hasOnlyKeys_firstUnknown.
  destruct (getProp (JObj act) "name") as [| | | |name| |] eqn:Ename;
    try (split; [discriminate | intros [H|H]; discriminate H]).
  destruct name as [|c name];
    [split; [discriminate | intros [H|H]; discriminate H]|].
  destruct (firstUnknown ["name"; "parameters"] (keys act)) as [k1|];
    destruct (firstUnknown ["version"; "action"] (keys fields)) as [k2|];
    destruct (getProp (JObj act) "parameters") as [| | | | | |ps];
    try (split; [discriminate | intros [H|H]; discriminate H]);
    (split; [intros _; right; reflexivity | intros _; reflexivity]).
Qed.

(** ** Dispatch of tool calls *)

(** X4.  A valid request for a registered user tool whose handler
    returns a mapping is answered with the success envelope around that
    mapping; the handler gets the parameters as the request carries them
    and is the only one called. *)
Theorem handleRequest_tool_success (this : Server) (now : Z) (request : JsValue)
    (n : string) (run : JsValue -> Completion JsValue) (fields : list (string * JsValue)) :
  validateRequest request = JBool true ->
  getProp (getProp request "action") "name" = JStr n ->
  mapGet n (tools this) = Some (UserTool run) ->
  run (getProp (getProp request "action") "parameters") = Return (JObj fields) ->
  handleRequest this now request = (Return (successEnvelope (JObj fields)), [JStr n]).
Proof.
  intros Hvalid Hname Hget Hrun.
  rewrite (handleRequest_dispatch this now request n _ Hvalid Hname Hget).
  cbn [runHandler]. rewrite Hrun. reflexivity.
Qed.

(** X5.  How the failures of a user tool are reported.  A handler that
    throws an [Error] is answered with
    [Błąd podczas wykonywania narzędzia: <message>]; a handler that
    returns something that is no mapping is answered under the same
    prefix with the complaint of [createSuccessResponse]; a handler that
    throws [null] or [undefined] makes the inner [catch] block itself
    throw, which the outer one reports as [Nieoczekiwany błąd: ...]. *)
Theorem handleRequest_tool_failure (this : Server) (now : Z) (request : JsValue)
    (n : string) (run : JsValue -> Completion JsValue) :
  validateRequest request = JBool true ->
  getProp (getProp request "action") "name" = JStr n ->
  mapGet n (tools this) = Some (UserTool run) ->
  let outcome := run (getProp (getProp request "action") "parameters") in
  (forall m, outcome = Throw (newError m) ->
     handleRequest this now request =
       (Return (errorEnvelope ("Błąd podczas wykonywania narzędzia: " ++ m)), [JStr n])) /\
  (forall r, outcome = Return r -> isMapping r = false ->
     handleRequest this now request =
       (Return (errorEnvelope
                  ("Błąd podczas wykonywania narzędzia: Nieprawidłowa odpowiedź MCP: "
                   ++ dq ++ "result" ++ dq ++
                   match r with
                   | JUndefined => " is required"
                   | _ => " must be of type object"
                   end)), [JStr n])) /\
  (outcome = Throw JNull ->
     handleRequest this now request =
       (Return (errorEnvelope
                  ("Nieoczekiwany błąd: Cannot read properties of null (reading "
                   ++ sq ++ "message" ++ sq ++ ")")), [JStr n])) /\
  (outcome = Throw JUndefined ->
     handleRequest this now request =
       (Return (errorEnvelope
                  ("Nieoczekiwany błąd: Cannot read properties of undefined (reading "
                   ++ sq ++ "message" ++ sq ++ ")")), [JStr n])).
Proof.
  intros Hvalid Hname Hget outcome. subst outcome.
  rewrite (handleRequest_dispatch this now request n _ Hvalid Hname Hget).
  cbn [runHandler].
  repeat split.
  - intros m ->. cbn [bind try_catch newError getMember getProp lookup toString
                       String.eqb Ascii.eqb Bool.eqb].
    destruct (createErrorResponse_prefixed "Błąd podczas wykonywania narzędzia: " m)
      as [-> _]; [discriminate | reflexivity].
  - intros r -> Hr. destruct r; try discriminate Hr; reflexivity.
  - intros ->. reflexivity.
  - intros ->. reflexivity.
Qed.

(** X6.  A request that [validateRequest] rejects is answered with
    [Nieprawidłowe żądanie: <validation message>], whatever the
    registry holds, and no handler is called. *)
Theorem handleRequest_rejected_request (this : Server) (now : Z) (request : JsValue)
    (m : string) :
  validateRequest request = JStr m ->
  handleRequest this now request =
    (Return (errorEnvelope ("Nieprawidłowe żądanie: " ++ m)), []).
Proof.
  intros Hm. unfold handleRequest. rewrite Hm. cbn [fst snd toString].
  destruct (createErrorResponse_prefixed "Nieprawidłowe żądanie: " m) as [-> _];
    [discriminate | reflexivity].
Qed.




(** ** Registry and catalog *)


(** X9.  The outcomes of [registerTool].  A call that throws leaves
    the server as it was and throws one of four errors: about the name,
    the handler, the description, or a duplicate (and then the name is
    registered).  A call that returns was given a non-blank string that
    was free, a function and a string, and has put the name last. *)
Theorem registerTool_failure_modes (name : JsValue) (handler : HandlerArg)
    (description schema : JsValue) (this : Server) :
  match registerTool name handler description schema this with
  | (Throw e, this') =>
      this' = this /\
      (e = newError invalidNameMessage \/
       e = newError invalidHandlerMessage \/
       e = newError invalidDescriptionMessage \/
       exists n, name = JStr n /\ mapHas n (tools this) = true /\
                 e = newError (duplicateToolMessage n))
  | (Return _, this') =>
      exists n d,
        name = JStr n /\ description = JStr d /\
        trimIsEmpty n = false /\ mapHas n (tools this) = false /\
        (exists h, handler = IsFunction h) /\
        mapKeys (tools this') = (mapKeys (tools this) ++ [n])%list
  end.
Proof.
  unfold registerTool.
  destruct name as [| | | |n| |]; try (split; [reflexivity | tauto]).
  destruct (trimIsEmpty n) eqn:Hblank; [split; [reflexivity | tauto]|].
  destruct handler as [h|v]; [|split; [reflexivity | tauto]].
  destruct description as [| | | |d| |]; try (split; [reflexivity | tauto]).
  destruct (mapHas n (tools this)) eqn:Hhas.
  - split; [reflexivity|]. right. right. right. exists n. repeat split. exact Hhas.
  - exists n, d. repeat split; try assumption; [exists h; reflexivity|].
    destruct (truthy _); cbn [tools]; rewrite mapKeys_mapSet, Hhas; reflexivity.
Qed.

(** X10.  Whatever calls of [registerTool] follow, successful or not,
    a name that is registered stays registered with the same handler,
    description, schema and catalog entry, and the registration order
    only grows at its end. *)
Theorem registrations_are_permanent (this this' : Server) (n : string) :
  Extends this this' ->
  mapHas n (tools this) = true ->
  mapGet n (tools this') = mapGet n (tools this) /\
  mapGet n (toolDescriptions this') = mapGet n (toolDescriptions this) /\
  mapGet n (toolSchemas this') = mapGet n (toolSchemas this) /\
  toolEntry this' n = toolEntry this n /\
  exists more, mapKeys (tools this') = (mapKeys (tools this) ++ more)%list.
Proof.
  intros Hext Hn.
  destruct (extends_keeps this this' Hext) as [Hkeys Hsame].
  destruct (Hsame n Hn) as (Ht & Hd & Hs).
  repeat split; try assumption.
  unfold toolEntry. rewrite Hd, Hs. reflexivity.
Qed.

Lemma reachable_NoDup (this : Server) :
  Reachable this -> NoDup (mapKeys (tools this)).
Proof.
  induction 1 as [this Hnew | this name handler description schema outcome this' _ IH Hreg].
  - rewrite newMCPServer_value in Hnew. injection Hnew as <-.
    cbn. repeat constructor; cbn; intuition discriminate.
  - destruct (registerTool_cases name handler description schema this)
      as [(m & Hthrow) | (n & h & d & -> & -> & -> & Hblank & Hfree & Hok)].
    + rewrite Hthrow in Hreg. injection Hreg as _ <-. exact IH.
    + rewrite Hok in Hreg. injection Hreg as _ <-. cbn [tools].
      rewrite mapKeys_mapSet, Hfree.
      apply NoDup_app; [exact IH | repeat constructor; intros [] |].
      intros k Hk [<-|[]]. apply mapHas_In in Hk. congruence.
Qed.

(** X11.  On a reachable server no name occurs twice in either
    catalog, and [GET /tools] has one entry per registered tool. *)
Theorem catalog_names_unique (this : Server) :
  Reachable this ->
  NoDup (catalogNames (getToolsRoute this)) /\
  NoDup (catalogNames (systemGetTools this)) /\
  length (catalogEntries (getToolsRoute this)) = length (tools this).
Proof.
  intros Hreach. pose proof (reachable_NoDup this Hreach) as Hnd.
  assert (Hinj : forall l, NoDup l -> NoDup (map JStr l)).
  { induction 1 as [|x l Hx Hl IHl]; cbn; constructor; [|exact IHl].
    rewrite in_map_iff. intros (y & Hy & Hin). injection Hy as ->. contradiction. }
  rewrite catalogNames_getToolsRoute, catalogNames_systemGetTools.
  split; [apply Hinj; exact Hnd|]. split; [apply Hinj; apply NoDup_filter; exact Hnd|].
  unfold catalogEntries, getToolsRoute.
  cbn [getProp lookup String.eqb Ascii.eqb Bool.eqb].
  unfold mapKeys. rewrite !length_map. reflexivity.
Qed.

(** X12.  On every reachable server a request to [system.ping] is
    answered with the success envelope around the time of the call, the
    status [active] and the protocol version: no registration can remove
    or replace the built-in tool. *)
Theorem builtin_ping_always_answers (this : Server) (now : Z) (request : JsValue) :
  Reachable this ->
  validateRequest request = JBool true ->
  getProp (getProp request "action") "name" = JStr "system.ping" ->
  handleRequest this now request =
    (Return (successEnvelope
               (JObj [ ("timestamp", JNum now); ("status", JStr "active");
                       ("version", JStr "1.0") ])),
     [JStr "system.ping"]).
Proof.
  intros Hreach Hvalid Hname.
  destruct (reachable_builtin_handlers this Hreach) as [_ Hping].
  rewrite (handleRequest_dispatch this now request _ _ Hvalid Hname Hping).
  reflexivity.
Qed.

(** ** Plans that end early, plans without attempts, plans in sequence *)

Section PlanFacts.

Variable World : Type.
Variable callTool : World -> JsValue -> JsValue -> Outcome JsValue * World.
Variable arrayLike : JsValue -> Outcome (list JsValue).

(** The [for] loop on a list in two parts. *)
Lemma executeSteps_app (fuel : nat) (this : Agent) (first second : list JsValue) :
  forall results w log,
    executeSteps callTool fuel this (first ++ second) results w log =
    match executeSteps callTool fuel this first results w log with
    | Some (Resolved results1, w1, log1) =>
        executeSteps callTool fuel this second results1 w1 log1
    | other => other
    end.
Proof.
  induction first as [|step rest IH]; intros results w log; [reflexivity|].
  cbn [app executeSteps].
  destruct (executeElement callTool fuel this step w)
    as [[[[entry|message] w1] calls]|]; try reflexivity.
  apply IH.
Qed.

(** The accumulators only collect. *)
Lemma executeSteps_accumulates (fuel : nat) (this : Agent) (remaining : list JsValue) :
  forall results w log,
    executeSteps callTool fuel this remaining results w log =
    match executeSteps callTool fuel this remaining [] w [] with
    | Some (Resolved results1, w1, log1) =>
        Some (Resolved (results ++ results1)%list, w1, (log ++ log1)%list)
    | Some (Rejected message, w1, log1) =>
        Some (Rejected message, w1, (log ++ log1)%list)
    | None => None
    end.
Proof.
  induction remaining as [|step rest IH]; intros results w log.
  - cbn. rewrite !app_nil_r. reflexivity.
  - cbn [executeSteps].
    destruct (executeElement callTool fuel this step w)
      as [[[[entry|message] w1] calls]|]; try reflexivity.
    rewrite (IH (results ++ [entry])%list), (IH ([] ++ [entry])%list).
    destruct (executeSteps callTool fuel this rest [] w1 [])
      as [[[[results1|message] w2] log1]|]; try reflexivity;
      rewrite <- !app_assoc; reflexivity.
Qed.

(** X13.  A plan whose [steps] array holds a [null] or [undefined]
    element, for an agent with a finite [maxRetries]: the steps before
    it are carried out as the retry policy says, then [_executePlan]
    throws the TypeError of reading [action] of that element.  The
    results collected so far are lost with it, and no step after the
    element is attempted: the world is the one the steps before it
    left. *)
Theorem executePlan_stops_at_null_step (this : Agent) (plan : JsValue)
    (before after : list JsValue) (step : JsValue) (limit : Z) (fuel : nat) (w : World) :
  maxRetries this = Finite limit ->
  (Z.to_nat limit <= fuel)%nat ->
  isNullish plan = false ->
  getProp plan "steps" = JArr (before ++ step :: after) ->
  Forall (fun element => readable this element = true) before ->
  isNullish step = true ->
  _executePlan callTool arrayLike fuel this plan w =
    Some (Rejected (cannotRead step "action"),
          worldAfter callTool (Z.to_nat limit) (map stepOf before) w,
          (fst (tryEach callTool (Z.to_nat limit) (map stepOf before) w) ++ [[]])%list).
Proof.
  intros Hmax Hfuel Hplan Hsteps Hbefore Hstep.
  unfold _executePlan, planSteps. rewrite Hplan, Hsteps.
  rewrite executeSteps_app.
  destruct (executeSteps_refines World callTool this limit fuel Hmax Hfuel
              before Hbefore [] w [])
    as (results & -> & _).
  cbn [executeSteps app].
  rewrite (executeElement_nullish World callTool this step limit fuel _ Hmax Hfuel Hstep).
  reflexivity.
Qed.

(** The [for] loop when no attempt is allowed. *)
Lemma executeSteps_without_attempts (this : Agent) (limit : Z) (fuel : nat) (w : World) :
  maxRetries this = Finite limit ->
  (limit <= 0)%Z ->
  forall items,
    Forall (fun step => readable this step = true) items ->
    forall results log,
      executeSteps callTool fuel this items results w log =
      Some (Resolved
              (results ++
               map (fun step => JObj [ ("action", getProp step "action");
                                       ("parameters", getProp step "parameters");
                                       ("result", JUndefined) ]) items)%list,
            w, (log ++ map (fun _ => []) items)%list).
Proof.
  intros Hmax Hlimit items Hread.
  assert (Hzero : Z.to_nat limit = 0%nat) by lia.
  assert (Hfuel : (Z.to_nat limit <= fuel)%nat) by lia.
  induction Hread as [|step rest Hstep Hrest IH]; intros results log.
  - cbn. rewrite !app_nil_r. reflexivity.
  - cbn [executeSteps map].
    rewrite (executeElement_step World callTool this step limit fuel w Hmax Hfuel Hstep).
    rewrite Hzero. cbn [tryUpTo fst snd].
    rewrite IH, <- !app_assoc. reflexivity.
Qed.

(** X14.  With a [maxRetries] of zero or less no attempt is allowed: the
    plan is gone through without a single call of the tool, and every
    entry repeats its step and has [undefined] as result. *)
Theorem executePlan_without_attempts (this : Agent) (plan : JsValue)
    (items : list JsValue) (limit : Z) (fuel : nat) (w : World) :
  maxRetries this = Finite limit ->
  (limit <= 0)%Z ->
  isNullish plan = false ->
  getProp plan "steps" = JArr items ->
  Forall (fun step => readable this step = true) items ->
  _executePlan callTool arrayLike fuel this plan w =
    Some (Resolved (map (fun step => JObj [ ("action", getProp step "action");
                                            ("parameters", getProp step "parameters");
                                            ("result", JUndefined) ]) items),
          w,
          map (fun _ => []) items).
Proof.
  intros Hmax Hlimit Hplan Hsteps Hread.
  unfold _executePlan, planSteps. rewrite Hplan, Hsteps.
  rewrite (executeSteps_without_attempts this limit fuel w Hmax Hlimit items Hread).
  reflexivity.
Qed.

(** X15.  Plans compose: executing the steps [first ++ second] is
    executing [first] and then, if that did not throw, [second] in the
    world [first] left, with the results and the calls of the two put
    one after the other.  This holds for every agent, finite
    [maxRetries] or not, and when [first] throws or does not end, so
    does the whole. *)
Theorem executePlan_app (fuel : nat) (this : Agent) (first second : list JsValue)
    (w : World) :
  _executePlan callTool arrayLike fuel this (JObj [("steps", JArr (first ++ second))]) w =
  match _executePlan callTool arrayLike fuel this (JObj [("steps", JArr first)]) w with
  | Some (Resolved results1, w1, log1) =>
      match _executePlan callTool arrayLike fuel this
              (JObj [("steps", JArr second)]) w1 with
      | Some (Resolved results2, w2, log2) =>
          Some (Resolved (results1 ++ results2)%list, w2, (log1 ++ log2)%list)
      | Some (Rejected message, w2, log2) =>
          Some (Rejected message, w2, (log1 ++ log2)%list)
      | None => None
      end
  | other => other
  end.
Proof.
  unfold _executePlan, planSteps.
  cbn [isNullish getProp lookup String.eqb Ascii.eqb Bool.eqb].
  rewrite executeSteps_app.
  destruct (executeSteps callTool fuel this first [] w [])
    as [[[[results1|message] w1] log1]|]; try reflexivity.
  apply executeSteps_accumulates.
Qed.

(** With [maxRetries = Infinity] the loop on a step ends exactly when a
    call succeeds, and then with that call's result. *)
Lemma retryLoop_unbounded (this : Agent) (step : Step) :
  maxRetries this = Infinity ->
  forall (fuel : nat) (r : Z) (result0 : JsValue) (w : World)
         (calls0 : list (Outcome JsValue)),
    retryLoop fuel this (fun w' => callTool w' (action step) (parameters step))
              (mkLoop r false result0) w calls0 =
    match last (map Some (fst (tryUpTo callTool fuel step w))) None with
    | Some (Resolved v) =>
        Some (mkLoop (r + Z.of_nat (length (fst (tryUpTo callTool fuel step w))) - 1)
                     true v,
              snd (tryUpTo callTool fuel step w),
              (calls0 ++ fst (tryUpTo callTool fuel step w))%list)
    | _ => None
    end.
Proof.
  intros Hmax.
  induction fuel as [|fuel IH]; intros r result0 w calls0.
  - cbn [retryLoop success retries negb andb]. rewrite Hmax. reflexivity.
  - cbn [retryLoop success retries stepResult negb andb].
    rewrite Hmax. cbn [lessThan atLeast]. cbn [tryUpTo].
    destruct (callTool w (action step) (parameters step)) as [[v|m] w1] eqn:Hcall.
    + rewrite retryLoop_success. cbn [fst snd map last length].
      replace (r + Z.of_nat 1 - 1)%Z with r by lia. reflexivity.
    + rewrite IH.
      destruct (tryUpTo callTool fuel step w1) as [rest w2] eqn:Htry.
      cbn [fst snd]. destruct rest as [|c rest]; [reflexivity|].
      change (last (map Some (Rejected m :: c :: rest)) None)
        with (last (map Some (c :: rest)) None).
      destruct (last (map Some (c :: rest)) None) as [[v|m']|]; try reflexivity.
      rewrite <- app_assoc. cbn [app length].
      do 3 f_equal. f_equal. lia.
Qed.

(** X16.  With [maxRetries = Infinity] a step is retried until a call
    succeeds: within any number of iterations the loop has ended exactly
    when one of the calls made succeeded, the entry then records that
    call's result, and an error is never recorded. *)
Theorem executeStep_unbounded (this : Agent) (step : Step) (fuel : nat) (w : World) :
  maxRetries this = Infinity ->
  match last (map Some (fst (tryUpTo callTool fuel step w))) None with
  | Some (Resolved v) =>
      executeStep callTool fuel this step w =
        Some (JObj [ ("action", action step);
                     ("parameters", parameters step);
                     ("result", v) ],
              snd (tryUpTo callTool fuel step w),
              fst (tryUpTo callTool fuel step w))
  | _ => executeStep callTool fuel this step w = None
  end.
Proof.
  intros Hmax. unfold executeStep.
  rewrite (retryLoop_unbounded this step Hmax fuel 0 JUndefined w []).
  destruct (last (map Some (fst (tryUpTo callTool fuel step w))) None) as [[v|m]|];
    reflexivity.
Qed.

End PlanFacts.

(** ** MCP client *)

Section ClientFacts.

Import MCPClient.

Lemma rethrow_newError (m : string) : rethrow (newError m) = Throw (newError m).
Proof. reflexivity. Qed.

Lemma hasMessage_newError (m : string) : hasMessage (newError m).
Proof. exists [("message", JStr m)], m. split; reflexivity. Qed.

(** The [catch] block turns a thrown value that carries a message into
    one that does too. *)
Lemma rethrow_hasMessage (e : JsValue) :
  hasMessage e -> exists e', rethrow e = Throw e' /\ hasMessage e'.
Proof.
  intros He. destruct He as (fields & m & -> & Hm).
  unfold rethrow. cbn [getMember bind].
  destruct (truthy (getProp (JObj fields) "response")).
  - eexists; split; [reflexivity | apply hasMessage_newError].
  - destruct (truthy (getProp (JObj fields) "request")).
    + eexists; split; [reflexivity | apply hasMessage_newError].
    + eexists; split; [reflexivity|]. exists fields, m. split; [reflexivity | exact Hm].
Qed.

Variable Net : Type.
Variable post : Net -> Client -> JsValue -> Completion JsValue * Net.
Variable getPing : Net -> Client -> Completion JsValue * Net.

Lemma readResponse_cases (mcpResponse : JsValue) :
  (exists fields,
      readResponse mcpResponse = Return (JObj fields) /\
      getProp mcpResponse "status" = JStr "success" /\
      getProp mcpResponse "result" = JObj fields) \/
  (exists m, readResponse mcpResponse = Throw (newError m)).
Proof.
  unfold readResponse.
  destruct (validateResponse mcpResponse) as [| |[|]| | | |] eqn:Hv;
    try (right; eexists; reflexivity).
  destruct mcpResponse as [| | | | | |fields];
    try (right; eexists; reflexivity); try discriminate Hv.
  cbn [getMember bind].
  unfold validateResponse, validate, responseSchema in Hv.
  cbn [validateAt map fst presenceCheck] in Hv.
  destruct (getProp (JObj fields) "version") as [| | | |ver| |] eqn:Ever;
    try discriminate Hv.
  destruct (String.eqb_spec ver "1.0") as [->|Hver].
  2:{ apply String.eqb_neq in Hver. cbn in Hv. rewrite Hver in Hv. discriminate Hv. }
  destruct (getProp (JObj fields) "status") as [| | | |status| |] eqn:Estatus;
    try discriminate Hv.
  destruct (String.eqb_spec status "success") as [->|Hs].
  - destruct (getProp (JObj fields) "result") as [| | | | | |result] eqn:Eresult;
      try discriminate Hv.
    left. exists result. repeat split.
  - destruct (String.eqb_spec status "error") as [->|He].
    + right. eexists. reflexivity.
    + apply String.eqb_neq in Hs, He. cbn in Hv. rewrite Hs, He in Hv. discriminate Hv.
Qed.

Lemma callTool_unfold (this : Client) (actionName params : JsValue) (net : Net) :
  callTool post this actionName params net =
  match createRequest actionName params with
  | Throw e => (rethrow e, net)
  | Return request =>
      match post net this request with
      | (Throw e, net') => (rethrow e, net')
      | (Return response, net') =>
          (try_catch (mcpResponse <- getMember response "data" ;; readResponse mcpResponse)
                     rethrow, net')
      end
  end.
Proof.
  unfold callTool, readResponse.
  replace (createRequest actionName
             match params with JUndefined => JObj [] | _ => params end)
    with (createRequest actionName params) by (destruct params; reflexivity).
  destruct (createRequest actionName params) as [request|e]; [|reflexivity].
  destruct (post net this request) as [[response|e] net']; reflexivity.
Qed.

(** X17.  When the name is no non-empty string or the parameters are
    no mapping, [callTool] rejects with the error of [createRequest]
    ([Nieprawidłowe żądanie MCP: ...]) and nothing is sent: the network
    is as it was. *)
Theorem callTool_invalid_request_not_sent (this : Client) (actionName params : JsValue)
    (net : Net) :
  isNonEmptyString actionName && isParameters params = false ->
  exists message,
    callTool post this actionName params net =
      (Throw (newError ("Nieprawidłowe żądanie MCP: " ++ message)), net).
Proof.
  intros Hbad. rewrite callTool_unfold.
  destruct actionName as [| | | |name| |];
    try (destruct params; eexists; reflexivity).
  destruct name as [|c name]; [destruct params; eexists; reflexivity|].
  destruct params; try discriminate Hbad; eexists; reflexivity.
Qed.

Lemma createRequest_throws_error (actionName params e : JsValue) :
  createRequest actionName params = Throw e -> exists m, e = newError m.
Proof.
  unfold createRequest.
  destruct (validate requestSchema _); intros H; [|discriminate H].
  injection H as <-. eexists. reflexivity.
Qed.

(** What becomes of a response the transport delivered. *)
Lemma delivered_cases (response : JsValue) :
  (exists fields,
      try_catch (mcpResponse <- getMember response "data" ;; readResponse mcpResponse)
                rethrow = Return (JObj fields) /\
      validateResponse (getProp response "data") = JBool true /\
      getProp (getProp response "data") "status" = JStr "success" /\
      getProp (getProp response "data") "result" = JObj fields) \/
  (exists m,
      try_catch (mcpResponse <- getMember response "data" ;; readResponse mcpResponse)
                rethrow = Throw (newError m)).
Proof.
  destruct response as [| | | | | |rfields]; cbn [getMember bind throwError try_catch];
    try (right; eexists; apply rethrow_newError);
    match goal with
    | |- context [readResponse ?d] =>
        destruct (readResponse_cases d) as [(fields & Hr & Hs & Hres) | (m & Hr)];
        rewrite Hr
    end;
    try (right; exists m; apply rethrow_newError);
    left; exists fields; cbn [try_catch]; split; [reflexivity|];
    (split; [|split; assumption]);
    unfold readResponse in Hr;
    match type of Hr with
    | context [validateResponse ?d] =>
        destruct (validateResponse d) as [| |[|]| | | |]; try discriminate Hr
    end; reflexivity.
Qed.

(** X18.  A call of [callTool] that resolves was sent as the request
    [createRequest] builds, got a response whose body passes
    [validateResponse] with status [success], and resolves with the
    [result] of that body, which is a mapping. *)
Theorem callTool_resolves_with_result (this : Client) (actionName params : JsValue)
    (net net' : Net) (r : JsValue) :
  callTool post this actionName params net = (Return r, net') ->
  exists request response fields,
    createRequest actionName params = Return request /\
    post net this request = (Return response, net') /\
    r = JObj fields /\
    validateResponse (getProp response "data") = JBool true /\
    getProp (getProp response "data") "status" = JStr "success" /\
    getProp (getProp response "data") "result" = r.
Proof.
  rewrite callTool_unfold. intros Hcall.
  destruct (createRequest actionName params) as [request|e] eqn:Hreq.
  2:{ destruct (createRequest_throws_error _ _ _ Hreq) as (m & ->).
      rewrite rethrow_newError in Hcall. discriminate Hcall. }
  destruct (post net this request) as [[response|e] net1] eqn:Hpost.
  - destruct (delivered_cases response) as [(fields & Hr & Hv & Hs & Hres) | (m & Hr)];
      rewrite Hr in Hcall; [|discriminate Hcall].
    injection Hcall as <- <-.
    exists request, response, fields. repeat split; assumption.
  - exfalso. unfold rethrow in Hcall.
    destruct e; cbn [getMember bind throwError] in Hcall;
      try discriminate Hcall;
      repeat match type of Hcall with
             | context [if ?b then _ else _] => destruct b
             end; discriminate Hcall.
Qed.

(** X19.  If every error of the transport carries a message (axios
    errors do), so does every value [callTool] rejects with: the [catch]
    blocks of its callers can always read [error.message]. *)
Theorem callTool_rejects_with_message (this : Client) (actionName params : JsValue)
    (net net' : Net) (e : JsValue) :
  (forall net0 request e0 net1,
      post net0 this request = (Throw e0, net1) -> hasMessage e0) ->
  callTool post this actionName params net = (Throw e, net') ->
  hasMessage e.
Proof.
  intros Htransport. rewrite callTool_unfold. intros Hcall.
  destruct (createRequest actionName params) as [request|e0] eqn:Hreq.
  2:{ destruct (createRequest_throws_error _ _ _ Hreq) as (m & ->).
      rewrite rethrow_newError in Hcall. injection Hcall as <- _.
      apply hasMessage_newError. }
  destruct (post net this request) as [[response|e0] net1] eqn:Hpost.
  - destruct (delivered_cases response) as [(fields & Hr & _) | (m & Hr)];
      rewrite Hr in Hcall; [discriminate Hcall|].
    injection Hcall as <- _. apply hasMessage_newError.
  - destruct (rethrow_hasMessage e0 (Htransport _ _ _ _ Hpost)) as (e' & He' & Hmsg).
    rewrite He' in Hcall. injection Hcall as <- _. exact Hmsg.
Qed.


(** X21.  [ping] never rejects: it resolves with [true] exactly when
    the request to [/ping] is answered with status 200, and with [false]
    on any other answer and on any error. *)
Theorem ping_resolves_true_iff_200 (this : Client) (net : Net) :
  exists b,
    ping getPing this net = (Return (JBool b), snd (getPing net this)) /\
    (b = true <->
     exists response,
       fst (getPing net this) = Return response /\
       getProp response "status" = JNum 200).
Proof.
  unfold ping. destruct (getPing net this) as [[response|e] net1]; cbn [fst snd].
  2:{ exists false. split; [reflexivity|].
      split; [discriminate | intros (r & H & _); discriminate H]. }
  destruct response as [| | | | | |fields];
    try (exists false; split; [reflexivity|];
         split; [discriminate | intros (r & H & Hs); injection H as <-; discriminate Hs]).
  cbn [bind getMember try_catch].
  exists (isNumber (getProp (JObj fields) "status") 200). split; [reflexivity|].
  split.
  - intros Hb. exists (JObj fields). split; [reflexivity|].
    destruct (getProp (JObj fields) "status"); try discriminate Hb.
    cbn [isNumber] in Hb. apply Z.eqb_eq in Hb. subst. reflexivity.
  - intros (r & H & Hs). injection H as <-. rewrite Hs. reflexivity.
Qed.


(** The outcome of [callTool], by cases. *)
Lemma callTool_cases (this : Client) (actionName params : JsValue) (net : Net) :
  (exists fields, fst (callTool post this actionName params net) = Return (JObj fields)) \/
  (exists m, fst (callTool post this actionName params net) = Throw (newError m)) \/
  (exists request e net',
      post net this request = (Throw e, net') /\
      fst (callTool post this actionName params net) = rethrow e).
Proof.
  rewrite callTool_unfold.
  destruct (createRequest actionName params) as [request|e0] eqn:Hreq.
  2:{ destruct (createRequest_throws_error _ _ _ Hreq) as (m & ->).
      right. left. exists m. reflexivity. }
  destruct (post net this request) as [[response|e0] net1] eqn:Hpost.
  - destruct (delivered_cases response) as [(fields & Hr & _) | (m & Hr)];
      cbn [fst]; rewrite Hr; [left; exists fields | right; left; exists m]; reflexivity.
  - right. right. exists request, e0, net1. split; [exact Hpost | reflexivity].
Qed.

Lemma callTool_cases_with_message (this : Client) (actionName params : JsValue)
    (net : Net) :
  (forall net0 request e0 net1,
      post net0 this request = (Throw e0, net1) -> hasMessage e0) ->
  (exists fields, fst (callTool post this actionName params net) = Return (JObj fields)) \/
  (exists e, fst (callTool post this actionName params net) = Throw e /\ hasMessage e).
Proof.
  intros Htransport.
  destruct (callTool_cases this actionName params net)
    as [(fields & H) | [(m & H) | (request & e & net' & Hpost & H)]].
  - left. exists fields. exact H.
  - right. exists (newError m). split; [exact H | apply hasMessage_newError].
  - right. destruct (rethrow_hasMessage e (Htransport _ _ _ _ Hpost)) as (e' & He' & Hm).
    exists e'. split; [rewrite H; exact He' | exact Hm].
Qed.

Lemma getAvailableTools_cases (this : Client) (net : Net) :
  (forall net0 request e0 net1,
      post net0 this request = (Throw e0, net1) -> hasMessage e0) ->
  (exists tools, fst (getAvailableTools post this net) = Return tools) \/
  (exists m, fst (getAvailableTools post this net) = Throw (newError m)).
Proof.
  intros Htransport. unfold getAvailableTools. cbn [fst snd].
  destruct (callTool_cases_with_message this (JStr "system.getTools") (JObj []) net
              Htransport) as [(fields & ->) | (e & -> & Hm)].
  - left. eexists. reflexivity.
  - right. destruct Hm as (efields & m & -> & Hm).
    eexists. cbn [bind try_catch getMember]. reflexivity.
Qed.

(** X22.  [getAvailableTools] calls the tool [system.getTools] with
    empty parameters.  When that call resolves, it resolves with the
    [tools] of the result, or with an empty array when that is missing
    or falsy; when the call rejects, it rejects with
    [Nie udało się pobrać listy narzędzi: <message of that error>]. *)
Theorem getAvailableTools_outcomes (this : Client) (net : Net) :
  (forall net0 request e0 net1,
      post net0 this request = (Throw e0, net1) -> hasMessage e0) ->
  (exists tools,
      fst (getAvailableTools post this net) = Return tools /\ truthy tools = true /\
      exists fields,
        fst (callTool post this (JStr "system.getTools") (JObj []) net)
          = Return (JObj fields) /\
        tools = or_else (getProp (JObj fields) "tools") (JArr [])) \/
  (exists m e,
      fst (callTool post this (JStr "system.getTools") (JObj []) net) = Throw e /\
      getProp e "message" = JStr m /\
      fst (getAvailableTools post this net) =
        Throw (newError ("Nie udało się pobrać listy narzędzi: " ++ m))).
Proof.
  intros Htransport. unfold getAvailableTools. cbn [fst snd].
  destruct (callTool_cases_with_message this (JStr "system.getTools") (JObj []) net
              Htransport) as [(fields & ->) | (e & -> & Hm)].
  - left. cbn [bind getMember try_catch].
    eexists. split; [reflexivity|]. split.
    + unfold or_else. destruct (truthy (getProp (JObj fields) "tools")) eqn:E;
        [exact E | reflexivity].
    + exists fields. split; reflexivity.
  - right. destruct Hm as (efields & m & -> & Hm).
    exists m, (JObj efields). split; [reflexivity|]. split; [exact Hm|].
    cbn [bind try_catch getMember]. rewrite Hm. reflexivity.
Qed.

(** X23.  [MCPAgent.loadAvailableTools] never rejects: the tool list
    of the agent becomes the list the client returned, and stays what it
    was when the client failed. *)
Theorem loadAvailableTools_never_rejects (contextTools : JsValue) (this : Client)
    (net : Net) :
  (forall net0 request e0 net1,
      post net0 this request = (Throw e0, net1) -> hasMessage e0) ->
  exists tools,
    fst (loadAvailableTools post contextTools this net) = Return tools /\
    match fst (getAvailableTools post this net) with
    | Return loaded => tools = loaded
    | Throw _ => tools = contextTools
    end.
Proof.
  intros Htransport. unfold loadAvailableTools. cbn [fst snd].
  destruct (getAvailableTools_cases this net Htransport) as [(tools & ->) | (m & ->)].
  - exists tools. split; reflexivity.
  - exists contextTools. split; reflexivity.
Qed.

End ClientFacts.

(** ** Client and server together *)

Section Composition.

Import MCPClient.

Lemma createRequest_returns (actionName params request : JsValue) :
  createRequest actionName params = Return request ->
  exists n, actionName = JStr n /\ request = requestFor n params /\
            validateRequest request = JBool true.
Proof.
  destruct actionName as [| | | |n| |]; try (destruct params; discriminate).
  destruct n as [|c n]; [destruct params; discriminate|].
  destruct params; try discriminate; intros H; injection H as <-;
    eexists; repeat split.
Qed.

Lemma requestFor_name (n : string) (params : JsValue) :
  getProp (getProp (requestFor n params) "action") "name" = JStr n.
Proof. reflexivity. Qed.

Lemma requestFor_parameters (n : string) (params : JsValue) :
  getProp (getProp (requestFor n params) "action") "parameters"
  = match params with JUndefined => JObj [] | p => p end.
Proof. reflexivity. Qed.

Variable Net : Type.
Variable post : Net -> Client -> JsValue -> Completion JsValue * Net.

Lemma callTool_delivered (this : Client) (actionName params request data : JsValue)
    (net net' : Net) :
  createRequest actionName params = Return request ->
  post net this request = (Return (JObj [("data", data)]), net') ->
  callTool post this actionName params net = (try_catch (readResponse data) rethrow, net').
Proof.
  intros Hreq Hpost. unfold callTool, readResponse.
  replace (createRequest actionName
             match params with JUndefined => JObj [] | _ => params end)
    with (createRequest actionName params) by (destruct params; reflexivity).
  rewrite Hreq, Hpost. reflexivity.
Qed.

Lemma handleRequest_unregistered (server : Server) (now : Z) (n : string)
    (params : JsValue) :
  validateRequest (requestFor n params) = JBool true ->
  mapHas n (tools server) = false ->
  handleRequest server now (requestFor n params) =
    (Return (errorEnvelope ("Nieznane narzędzie: " ++ n)), []).
Proof.
  intros Hvalid Hfree. unfold handleRequest. rewrite Hvalid.
  unfold requestFor, requestAction.
  cbn [getMember getProp lookup bind String.eqb Ascii.eqb Bool.eqb toolsHas].
  rewrite Hfree. cbn [negb fst snd toString].
  destruct (createErrorResponse_prefixed "Nieznane narzędzie: " n) as [-> _];
    [discriminate | reflexivity].
Qed.

(** X24.  A call of [callTool] whose request reaches a server and whose
    answer comes back.  For a name that is not registered the client
    rejects with [Błąd serwera MCP: Nieznane narzędzie: <name>].  For a
    registered user tool, the handler receives the parameters of the
    call (an empty mapping when they were left out); when it returns a
    mapping the client resolves with that mapping, and when it throws an
    [Error] the client rejects with
    [Błąd serwera MCP: Błąd podczas wykonywania narzędzia: <message>]. *)
Theorem callTool_through_server (this : Client) (server : Server) (now : Z)
    (n : string) (params request envelope : JsValue) (net net' : Net) :
  createRequest (JStr n) params = Return request ->
  fst (handleRequest server now request) = Return envelope ->
  post net this request = (Return (JObj [("data", envelope)]), net') ->
  let delivered := match params with JUndefined => JObj [] | p => p end in
  (mapHas n (tools server) = false ->
   callTool post this (JStr n) params net =
     (Throw (newError ("Błąd serwera MCP: Nieznane narzędzie: " ++ n)), net')) /\
  (forall run fields,
     mapGet n (tools server) = Some (UserTool run) ->
     run delivered = Return (JObj fields) ->
     callTool post this (JStr n) params net = (Return (JObj fields), net')) /\
  (forall run m,
     mapGet n (tools server) = Some (UserTool run) ->
     run delivered = Throw (newError m) ->
     callTool post this (JStr n) params net =
       (Throw (newError ("Błąd serwera MCP: Błąd podczas wykonywania narzędzia: " ++ m)),
        net')).
Proof.
  intros Hreq Hanswer Hpost delivered.
  rewrite (callTool_delivered this _ _ _ _ _ _ Hreq Hpost).
  destruct (createRequest_returns _ _ _ Hreq) as (n' & Hn & -> & Hvalid).
  injection Hn as <-.
  split; [|split].
  - intros Hfree.
    rewrite (handleRequest_unregistered server now n params Hvalid Hfree) in Hanswer.
    injection Hanswer as <-. reflexivity.
  - intros run fields Hget Hrun.
    rewrite (handleRequest_dispatch server now _ n _ Hvalid (requestFor_name n params) Hget)
      in Hanswer.
    rewrite requestFor_parameters in Hanswer. cbn [runHandler] in Hanswer.
    fold delivered in Hanswer. rewrite Hrun in Hanswer.
    injection Hanswer as <-. reflexivity.
  - intros run m Hget Hrun.
    rewrite (handleRequest_dispatch server now _ n _ Hvalid (requestFor_name n params) Hget)
      in Hanswer.
    rewrite requestFor_parameters in Hanswer. cbn [runHandler] in Hanswer.
    fold delivered in Hanswer. rewrite Hrun in Hanswer.
    cbn [fst bind try_catch newError getMember getProp lookup toString
         String.eqb Ascii.eqb Bool.eqb] in Hanswer.
    destruct (createErrorResponse_prefixed "Błąd podczas wykonywania narzędzia: " m)
      as [Hbuilt _]; [discriminate|].
    rewrite Hbuilt in Hanswer. injection Hanswer as <-. reflexivity.
Qed.

(** X25.  [getAvailableTools] against a reachable server whose answer
    the transport delivers: the client resolves with the catalog of the
    [system.getTools] tool, that is, with the entries of the registered
    tools outside the [system.] namespace, in registration order. *)
Theorem getAvailableTools_through_server (this : Client) (server : Server) (now : Z)
    (envelope : JsValue) (net net' : Net) :
  Reachable server ->
  fst (handleRequest server now (requestFor "system.getTools" (JObj []))) = Return envelope ->
  post net this (requestFor "system.getTools" (JObj []))
    = (Return (JObj [("data", envelope)]), net') ->
  getAvailableTools post this net =
    (Return (JArr (map (toolEntry server)
                       (filter (fun name => negb (isSystemName name))
                               (mapKeys (tools server))))), net').
Proof.
  intros Hreach Hanswer Hpost.
  destruct (reachable_builtin_handlers server Hreach) as [Hhandler _].
  rewrite (handleRequest_dispatch server now
             (requestFor "system.getTools" (JObj [])) "system.getTools" _
             eq_refl eq_refl Hhandler) in Hanswer.
  cbn [runHandler bind] in Hanswer. unfold systemGetTools in Hanswer.
  rewrite createSuccessResponse_mapping in Hanswer.
  cbn [try_catch fst] in Hanswer. injection Hanswer as <-.
  unfold getAvailableTools.
  rewrite (callTool_delivered this (JStr "system.getTools") (JObj []) _ _ net net'
             eq_refl Hpost).
  unfold readResponse. rewrite validateResponse_successEnvelope.
  reflexivity.
Qed.

End Composition.

(** ** The planner with built-in rules *)

Section PlannerFacts.

Variable codeBlock : string -> option string.
Variable trim : string -> string.

(** A step as the planner writes it: an object with a tool name as
    [action] and a mapping as [parameters]. *)
Lemma planned_step (name : string) (fields : list (string * JsValue)) (this : Agent) :
  name <> "" ->
  let step := JObj [ ("action", JStr name); ("parameters", JObj fields) ] in
  isNonEmptyString (getProp step "action") = true /\
  isMapping (getProp step "parameters") = true /\
  readable this step = true.
Proof.
  intros Hname step. subst step.
  cbn [getProp lookup String.eqb Ascii.eqb Bool.eqb isNonEmptyString isMapping].
  split; [|split; [reflexivity|]].
  - destruct name; [congruence | reflexivity].
  - unfold readable.
    cbn [isNullish negb andb getProp lookup String.eqb Ascii.eqb Bool.eqb convertible].
    apply orb_true_r.
Qed.

(** Every plan the rule-based [_generatePlan] returns is an object
    whose [steps] is an array of at most two steps, each with a non-empty
    tool name as [action] and a mapping as [parameters]. *)
Lemma generatePlan_steps (taskAnalysis : SimpleAgent.TaskAnalysis)
    (plan : JsValue) :
  SimpleAgent._generatePlan codeBlock trim taskAnalysis = Return plan ->
  exists items,
    plan = JObj [("steps", JArr items)] /\
    (length items <= 2)%nat /\
    Forall (fun step =>
              isNonEmptyString (getProp step "action") = true /\
              isMapping (getProp step "parameters") = true /\
              (exists request,
                  createRequest (getProp step "action") (getProp step "parameters")
                  = Return request) /\
              forall this, readable this step = true) items.
Proof.
  unfold SimpleAgent._generatePlan.
  assert (Hstep : forall name fields,
            name <> "" ->
            let step := JObj [ ("action", JStr name); ("parameters", JObj fields) ] in
            isNonEmptyString (getProp step "action") = true /\
            isMapping (getProp step "parameters") = true /\
            (exists request,
                createRequest (getProp step "action") (getProp step "parameters")
                = Return request) /\
            forall this, readable this step = true).
  { intros name fields Hname step.
    split; [exact (proj1 (planned_step name fields (newMCPAgent false None) Hname))|].
    split; [reflexivity|]. split.
    - subst step. cbn [getProp lookup String.eqb Ascii.eqb Bool.eqb].
      destruct name as [|c name]; [congruence|]. eexists. reflexivity.
    - intros this. exact (proj2 (proj2 (planned_step name fields this Hname))). }
  destruct (MCPClient.isString (SimpleAgent.type taskAnalysis) "analyze").
  { intros H. injection H as <-. eexists. split; [reflexivity|]. split; [cbn; lia|].
    repeat constructor; apply Hstep; discriminate. }
  destruct (MCPClient.isString (SimpleAgent.type taskAnalysis) "search").
  { intros H. injection H as <-. eexists. split; [reflexivity|]. split; [cbn; lia|].
    repeat constructor; apply Hstep; discriminate. }
  destruct (MCPClient.isString (SimpleAgent.type taskAnalysis) "generate").
  { intros H. injection H as <-. eexists. split; [reflexivity|]. split; [cbn; lia|].
    repeat constructor; apply Hstep; discriminate. }
  destruct (MCPClient.isString (SimpleAgent.type taskAnalysis) "execute").
  2:{ intros H. injection H as <-. eexists. split; [reflexivity|]. split; [cbn; lia|].
      repeat constructor; apply Hstep; discriminate. }
  destruct (SimpleAgent.contentIncludes (SimpleAgent.targetContent taskAnalysis)
              "javascript") as [[|]|e]; cbn [bind]; [| |discriminate].
  - destruct (SimpleAgent.extractCode codeBlock trim
                (SimpleAgent.targetContent taskAnalysis)) as [code|e];
      cbn [bind]; [|discriminate].
    intros H. injection H as <-. eexists. split; [reflexivity|]. split; [cbn; lia|].
    repeat constructor; apply Hstep; discriminate.
  - destruct (SimpleAgent.contentIncludes (SimpleAgent.targetContent taskAnalysis) "js")
      as [[|]|e]; cbn [bind]; [| |discriminate].
    + destruct (SimpleAgent.extractCode codeBlock trim
                  (SimpleAgent.targetContent taskAnalysis)) as [code|e];
        cbn [bind]; [|discriminate].
      intros H. injection H as <-. eexists. split; [reflexivity|]. split; [cbn; lia|].
      repeat constructor; apply Hstep; discriminate.
    + intros H. injection H as <-. exists []. split; [reflexivity|]. split; [cbn; lia|].
      constructor.
Qed.

(** X27.  When the rule-based [_generatePlan] throws.  It does so only
    for the task type [execute], and there exactly when the content is
    neither a string nor an array without the words [javascript] and
    [js]: on such content [includes] or [match] is missing.  What it
    throws is a TypeError with a message, so [processUserQuery] can
    report it. *)
Theorem generatePlan_throws_iff (taskAnalysis : SimpleAgent.TaskAnalysis) :
  (exists e, SimpleAgent._generatePlan codeBlock trim taskAnalysis = Throw e) <->
  MCPClient.isString (SimpleAgent.type taskAnalysis) "execute" = true /\
  match SimpleAgent.targetContent taskAnalysis with
  | JStr _ => False
  | JArr items =>
      existsb (fun item => MCPClient.isString item "javascript") items
      || existsb (fun item => MCPClient.isString item "js") items = true
  | _ => True
  end.
Proof.
  unfold SimpleAgent._generatePlan.
  destruct (SimpleAgent.type taskAnalysis) as [| | | |type| |];
    try (cbn; split; [intros (e & H); discriminate H | intros [H _]; discriminate H]).
  destruct (MCPClient.isString (JStr type) "analyze") eqn:Ha.
  { cbn [MCPClient.isString] in *. apply String.eqb_eq in Ha. subst type.
    split; [intros (e & H); discriminate H | intros [H _]; discriminate H]. }
  destruct (MCPClient.isString (JStr type) "search") eqn:Hs.
  { cbn [MCPClient.isString] in *. apply String.eqb_eq in Hs. subst type.
    split; [intros (e & H); discriminate H | intros [H _]; discriminate H]. }
  destruct (MCPClient.isString (JStr type) "generate") eqn:Hg.
  { cbn [MCPClient.isString] in *. apply String.eqb_eq in Hg. subst type.
    split; [intros (e & H); discriminate H | intros [H _]; discriminate H]. }
  destruct (MCPClient.isString (JStr type) "execute") eqn:He.
  2:{ split; [intros (e & H); discriminate H | intros [H _]; discriminate H]. }
  destruct (SimpleAgent.targetContent taskAnalysis) as [| | | |s|items|fields];
    cbn [SimpleAgent.contentIncludes SimpleAgent.extractCode bind throwError];
    try (split; [intros _; split; [reflexivity | exact I] | intros _; eexists; reflexivity]).
  - split; [|intros [_ []]].
    intros (e & H). exfalso.
    destruct (includes "javascript" s); cbn [bind] in H.
    + destruct (codeBlock s); discriminate H.
    + destruct (includes "js" s); cbn [bind] in H; [|discriminate H].
      destruct (codeBlock s); discriminate H.
  - destruct (existsb (fun item => MCPClient.isString item "javascript") items);
      cbn [bind orb].
    + split; [intros _; split; reflexivity | intros _; eexists; reflexivity].
    + destruct (existsb (fun item => MCPClient.isString item "js") items); cbn [bind].
      * split; [intros _; split; reflexivity | intros _; eexists; reflexivity].
      * split; [intros (e & H); discriminate H | intros [_ H]; discriminate H].
Qed.

Variable World : Type.
Variable callTool : World -> JsValue -> JsValue -> Outcome JsValue * World.
Variable arrayLike : JsValue -> Outcome (list JsValue).

(** X26.  Planning and execution together.  Every plan the rule-based
    [_generatePlan] returns is an object whose [steps] is an array of at
    most two steps, each with a non-empty tool name as [action] and a
    mapping as [parameters], which [createRequest] accepts; and for an
    agent with a finite [maxRetries], executing such a plan never throws
    and returns one entry per planned step. *)
Theorem generated_plan_is_executed (taskAnalysis : SimpleAgent.TaskAnalysis)
    (plan : JsValue) (this : Agent) (limit : Z) (fuel : nat) (w : World) :
  SimpleAgent._generatePlan codeBlock trim taskAnalysis = Return plan ->
  maxRetries this = Finite limit ->
  (Z.to_nat limit <= fuel)%nat ->
  exists items results w' log,
    plan = JObj [("steps", JArr items)] /\
    (length items <= 2)%nat /\
    Forall (fun step =>
              isNonEmptyString (getProp step "action") = true /\
              isMapping (getProp step "parameters") = true /\
              exists request,
                createRequest (getProp step "action") (getProp step "parameters")
                = Return request) items /\
    _executePlan callTool arrayLike fuel this plan w = Some (Resolved results, w', log) /\
    length results = length items /\
    length log = length items.
Proof.
  intros Hplan Hmax Hfuel.
  destruct (generatePlan_steps taskAnalysis plan Hplan)
    as (items & -> & Hcount & Hitems).
  assert (Hread : Forall (fun step => readable this step = true) items).
  { apply Forall_forall. intros step Hin.
    rewrite Forall_forall in Hitems. apply (Hitems step Hin). }
  destruct (executeSteps_refines World callTool this limit fuel Hmax Hfuel items
              Hread [] w [])
    as (results & Hrun & Hlen & _).
  cbn [app] in Hrun.
  exists items, results. eexists _, _. split; [reflexivity|].
  split; [exact Hcount|]. split.
  { apply Forall_forall. intros step Hin.
    rewrite Forall_forall in Hitems.
    destruct (Hitems step Hin) as (Hname & Hparams & Hrequest & _).
    split; [exact Hname|]. split; [exact Hparams | exact Hrequest]. }
  split; [exact Hrun|]. split; [exact Hlen|].
  rewrite tryEach_length, length_map. reflexivity.
Qed.

End PlannerFacts.

(** ** The theorems at concrete inputs *)

Import Examples.


(** C2 at the demo client, with the default of three attempts: the first
    step of the plan exhausts its attempts and its entry carries the
    error, the second step is still run, in the world after those three
    calls, and its entry carries what the tool returned. *)
Lemma executePlan_entry_per_step_witness :
  maxRetries demoAgent = Finite 3 /\
  _executePlan demoCallTool demoArrayLike 3 demoAgent demoPlan 0%nat =
    Some (Resolved
            [ JObj [ ("action", JStr "broken");
                     ("parameters", JObj []);
                     ("result", JObj [("error", JStr "Błąd serwera MCP: unavailable")]) ];
              JObj [ ("action", JStr "echo");
                     ("parameters", JObj [("text", JStr "abc")]);
                     ("result", JObj [("text", JStr "abc")]) ] ],
          4%nat,
          [ [ Rejected "Błąd serwera MCP: unavailable";
              Rejected "Błąd serwera MCP: unavailable";
              Rejected "Błąd serwera MCP: unavailable" ];
            [ Resolved (JObj [("text", JStr "abc")]) ] ]).
Proof.
  split; [reflexivity|].
  destruct (executePlan_entry_per_step nat demoCallTool demoArrayLike demoAgent demoPlan
              (map stepValue [brokenStep; echoStep]) 3 3 0%nat)
    as (results & w' & log & Hrun & Hlog & Hlen & Hnth).
  - reflexivity.
  - cbn; lia.
  - reflexivity.
  - reflexivity.
  - repeat constructor.
  - rewrite Hrun. vm_compute in Hlog. injection Hlog as -> ->.
    destruct (Hnth 0%nat _ eq_refl) as (e0 & c0 & He0 & _ & -> & -> & _).
    destruct (Hnth 1%nat _ eq_refl) as (e1 & c1 & He1 & _ & -> & -> & _).
    destruct results as [|r0 [|r1 [|r2 rest]]]; try discriminate Hlen.
    injection He0 as ->. injection He1 as ->.
    reflexivity.
Defined.

(** C2, the claim as stated, fails when the retries are not bounded.  The
    constructor keeps [maxRetries: Infinity], the loop condition
    [retries < Infinity] never turns false, and a step whose tool fails
    on every call is retried without end: however many iterations are
    allowed, [_executePlan] has not returned, so no result sequence is
    produced. *)
Lemma executePlan_unbounded_retries :
  maxRetries unboundedAgent = Infinity /\
  (forall calls,
      demoCallTool calls (JStr "broken") (JObj [])
      = (Rejected "Błąd serwera MCP: unavailable", S calls)) /\
  (forall fuel,
      _executePlan demoCallTool demoArrayLike fuel unboundedAgent brokenPlan 0%nat = None).
Proof.
  split; [reflexivity|]. split; [reflexivity|].
  intros fuel. unfold _executePlan.
  change (planSteps demoArrayLike brokenPlan) with (Resolved [stepValue brokenStep]).
  cbn [executeSteps]. unfold executeElement.
  change (isNullish (stepValue brokenStep)) with false. cbn match.
  unfold executeStep.
  rewrite (retryLoop_unbounded_failing nat unboundedAgent); [reflexivity| | |].
  - reflexivity.
  - intros w. eexists _, _. reflexivity.
  - reflexivity.
Qed.

(** C4 at the request of end-to-end scenario 2. *)
Lemma handleRequest_unknown_tool_witness :
  handleRequest freshServer 0 unknownToolRequest =
    (Return (errorEnvelope "Nieznane narzędzie: doesNotExist"), []) /\
  getProp (errorEnvelope "Nieznane narzędzie: doesNotExist") "status" = JStr "error" /\
  includes "doesNotExist" "Nieznane narzędzie: doesNotExist" = true.
Proof.
  apply (handleRequest_unknown_tool freshServer 0 unknownToolRequest "doesNotExist");
    reflexivity.
Defined.

Lemma echoServer_reachable : Reachable echoServer.
Proof.
  apply (reachable_register freshServer (JStr "echo") (IsFunction echo)
           (JStr "Zwraca parametry") echoSchema (Return tt)).
  - apply reachable_new. reflexivity.
  - reflexivity.
Defined.

(** C5 at the server with [echo] registered: registering [echo] again,
    with another function and another description, throws the
    duplicate-tool error and changes nothing. *)
Lemma registerTool_duplicate_witness :
  exists this',
    registerTool (JStr "echo") (IsFunction SystemPing) (JStr "Inny opis") JNull echoServer
      = (throwError (duplicateToolMessage "echo"), this') /\
    this' = echoServer /\
    length (tools this') = length (tools echoServer) /\
    mapGet "echo" (tools this') = mapGet "echo" (tools echoServer) /\
    mapGet "echo" (toolDescriptions this') = mapGet "echo" (toolDescriptions echoServer) /\
    mapGet "echo" (toolSchemas this') = mapGet "echo" (toolSchemas echoServer).
Proof.
  apply (registerTool_duplicate echoServer "echo" (IsFunction SystemPing)
           (JStr "Inny opis") JNull).
  - exact echoServer_reachable.
  - reflexivity.
Defined.

(** C5, the claim as stated, fails: the handler and the description are
    checked before the duplicate check, so on the registered name
    [system.ping] a call with a handler that is no function, or with a
    description that is no string, throws the error about that argument
    and not the duplicate-tool error. *)
Lemma registerTool_checks_handler_first :
  newMCPServer = Return freshServer /\
  mapHas "system.ping" (tools freshServer) = true /\
  registerTool (JStr "system.ping") (NotFunction (JNum 42)) (JStr "opis") JNull freshServer
    = (throwError invalidHandlerMessage, freshServer) /\
  registerTool (JStr "system.ping") (IsFunction SystemPing) (JNum 42) JNull freshServer
    = (throwError invalidDescriptionMessage, freshServer) /\
  invalidHandlerMessage <> duplicateToolMessage "system.ping" /\
  invalidDescriptionMessage <> duplicateToolMessage "system.ping".
Proof.
  repeat split; discriminate.
Qed.

(** C6 on a fresh agent after 21 appends: 20 turns are kept. *)
Lemma conversation_bounded_fifo_witness :
  (length (conversations demoAgent) <= 20)%nat /\
  length (conversations
            (appendAll (repeat (0%Z, "user", JStr "hej") 21) demoAgent)) = 20%nat.
Proof.
  split; [cbn; lia|].
  pose proof (conversation_bounded_fifo demoAgent (repeat (0%Z, "user", JStr "hej") 21))
    as H.
  destruct H as (Heq & _ & _); [cbn; lia|].
  rewrite Heq. reflexivity.
Defined.

(** C8 on the server the constructor builds: the [system.getTools] tool
    answers with an empty catalog, and [GET /tools] lists
    [system.getTools] and [system.ping]. *)
Lemma getTools_catalogs_differ_witness :
  newMCPServer = Return freshServer /\
  handleRequest freshServer 0 getToolsRequest =
    (Return (successEnvelope (JObj [("tools", JArr [])])), [JStr "system.getTools"]) /\
  catalogNames (getToolsRoute freshServer) =
    [JStr "system.getTools"; JStr "system.ping"] /\
  ~ hidesSystemTools (getToolsRoute freshServer).
Proof.
  destruct (getTools_catalogs_differ freshServer 0 getToolsRequest)
    as (Hrun & _ & _ & Hnames & _ & _ & Hshown & _).
  - apply reachable_new. reflexivity.
  - reflexivity.
  - reflexivity.
  - split; [reflexivity|]. split; [exact Hrun|]. split; [exact Hnames | exact Hshown].
Defined.

(** [handleRequest(undefined)]: the validation lets the value through,
    reading [request.action] throws, and the outer [catch] answers. *)
Lemma handleRequest_undefined :
  handleRequest freshServer 0 JUndefined =
  (Return (errorEnvelope
             ("Nieoczekiwany błąd: Cannot read properties of undefined (reading "
              ++ sq ++ "action" ++ sq ++ ")")), []).
Proof. reflexivity. Qed.

(** End-to-end scenario 1 of the specification: [system.ping]. *)
Lemma handleRequest_ping (now : Z) :
  handleRequest freshServer now
    (JObj [ ("version", JStr "1.0");
            ("action", JObj [ ("name", JStr "system.ping"); ("parameters", JObj []) ]) ])
  = (Return (successEnvelope
               (JObj [ ("timestamp", JNum now); ("status", JStr "active");
                       ("version", JStr "1.0") ])),
     [JStr "system.ping"]).
Proof. reflexivity. Qed.

(** C10 at the agent whose history holds 20 turns, with a planner
    answer that is no plan: plan execution throws, the caller gets the
    error text, the user turn is the newest of the 20 turns kept and no
    assistant turn is added; and at a fresh agent, where a query that is
    answered adds two turns. *)
Lemma processUserQuery_history_witness :
  (length (conversations fullAgent) <= 20)%nat /\
  (exists this',
      demoQuery 3%nat fullAgent 0%nat (JStr "null") =
        Some (JStr (processingErrorMessage
                      ("Cannot read properties of null (reading "
                       ++ sq ++ "steps" ++ sq ++ ")")),
              this', 0%nat) /\
      (exists older,
          conversations this' = (older ++ [mkTurn "user" (JStr "null") 0])%list) /\
      length (conversations this') = 20%nat) /\
  (exists this',
      demoQuery 3%nat demoAgent 0%nat (JStr "zbadaj abc")
        = Some (JStr "gotowe", this', 1%nat) /\
      conversations this' = [ mkTurn "user" (JStr "zbadaj abc") 0;
                              mkTurn "assistant" (JStr "gotowe") 1 ]).
Proof.
  split; [cbn; lia|]. split.
  - destruct (processUserQuery_history nat demoCallTool demoArrayLike JsValue
                demoAnalyze demoGeneratePlan demoRespond demoNow
                3%nat fullAgent 0%nat (JStr "null"))
      as (Hfail & _); [cbn; lia|].
    destruct (Hfail ("Cannot read properties of null (reading "
                     ++ sq ++ "steps" ++ sq ++ ")") 0%nat)
      as (this' & Hrun & _ & Hnewest & Hlen).
    + eapply rejected_execution; reflexivity.
    + exists this'. split; [exact Hrun|]. split; [exact Hnewest | exact Hlen].
  - destruct (processUserQuery_history nat demoCallTool demoArrayLike JsValue
                demoAnalyze demoGeneratePlan demoRespond demoNow
                3%nat demoAgent 0%nat (JStr "zbadaj abc"))
      as (_ & Hok & _); [cbn; lia|].
    destruct (Hok (JStr "gotowe") 1%nat) as (this' & Hrun & Hturns & _).
    + eapply resolved_all; reflexivity.
    + exists this'. split; [exact Hrun | exact Hturns].
Defined.

(** C10, the claim as stated, fails at the cap: on a history of 20
    turns an answered query leaves 20 turns, not 22, and a failed one
    leaves 20, not 21. *)
Lemma processUserQuery_growth_capped :
  (exists this',
      demoQuery 3%nat fullAgent 0%nat (JStr "zbadaj abc")
        = Some (JStr "gotowe", this', 1%nat) /\
      length (conversations fullAgent) = 20%nat /\
      length (conversations this') = 20%nat /\
      length (conversations this') <> (length (conversations fullAgent) + 2)%nat) /\
  (exists this',
      demoQuery 3%nat fullAgent 0%nat (JNum 7) =
        Some (JStr (processingErrorMessage "query.toLowerCase is not a function"),
              this', 0%nat) /\
      length (conversations this') = 20%nat /\
      length (conversations this') <> (length (conversations fullAgent) + 1)%nat).
Proof.
  split; eexists; (split; [reflexivity|]); repeat split; cbn; lia.
Qed.

(** ** The further theorems at concrete inputs *)

(** X2 at the success envelope around an empty mapping. *)
Lemma validateResponse_discriminates_witness :
  validateResponse (successEnvelope (JObj [])) = JBool true /\
  getProp (successEnvelope (JObj [])) "error" = JUndefined.
Proof.
  split; [reflexivity|].
  destruct (validateResponse_discriminates (successEnvelope (JObj [])) eq_refl)
    as [H | (_ & _ & [(_ & _ & H) | (H & _)])];
    [discriminate H | exact H | discriminate H].
Defined.

(** X4: the [echo] tool of [echoServer] answers with its parameters. *)
Lemma handleRequest_tool_success_witness :
  handleRequest echoServer 0 (requestFor "echo" (JObj [("text", JStr "abc")])) =
    (Return (successEnvelope (JObj [("text", JStr "abc")])), [JStr "echo"]).
Proof.
  apply (handleRequest_tool_success echoServer 0 _ "echo"
           (fun parameters => Return parameters) [("text", JStr "abc")]);
    reflexivity.
Defined.

(** X5: the tool [fail] throws [new Error("boom")]. *)
Lemma handleRequest_tool_failure_witness :
  handleRequest failingServer 0 (requestFor "fail" (JObj [])) =
    (Return (errorEnvelope "Błąd podczas wykonywania narzędzia: boom"), [JStr "fail"]).
Proof.
  apply (proj1 (handleRequest_tool_failure failingServer 0
                  (requestFor "fail" (JObj [])) "fail" (fun _ => throwError "boom")
                  eq_refl eq_refl eq_refl)
           "boom" eq_refl).
Defined.

(** X6: [null] as a request. *)
Lemma handleRequest_rejected_request_witness :
  validateRequest JNull = JStr (dq ++ "value" ++ dq ++ " must be of type object") /\
  handleRequest freshServer 0 JNull =
    (Return (errorEnvelope ("Nieprawidłowe żądanie: " ++ dq ++ "value" ++ dq
                            ++ " must be of type object")), []).
Proof.
  split; [reflexivity|].
  apply (handleRequest_rejected_request freshServer 0 JNull _ eq_refl).
Defined.


(** X10: [system.ping] is on [failingServer] what it was on the fresh
    server, two registrations later. *)
Lemma registrations_are_permanent_witness :
  mapGet "system.ping" (tools failingServer) = Some SystemPing /\
  toolEntry failingServer "system.ping" = toolEntry freshServer "system.ping".
Proof.
  assert (Hext : Extends freshServer failingServer).
  { apply (extends_register freshServer echoServer (JStr "fail") (IsFunction failing)
             (JStr "Zawsze zawodzi") JNull (Return tt) failingServer);
      [|reflexivity].
    apply (extends_register freshServer freshServer (JStr "echo") (IsFunction echo)
             (JStr "Zwraca parametry") echoSchema (Return tt) echoServer);
      [apply extends_refl | reflexivity]. }
  destruct (registrations_are_permanent freshServer failingServer "system.ping"
              Hext eq_refl) as (Hget & _ & _ & Hentry & _).
  split; [exact Hget | exact Hentry].
Defined.

(** X11 on [echoServer]. *)
Lemma catalog_names_unique_witness :
  NoDup (catalogNames (getToolsRoute echoServer)) /\
  length (catalogEntries (getToolsRoute echoServer)) = 3%nat.
Proof.
  destruct (catalog_names_unique echoServer echoServer_reachable) as (Hall & _ & Hlen).
  split; [exact Hall | exact Hlen].
Defined.

(** X12 on [echoServer], at time 5. *)
Lemma builtin_ping_always_answers_witness :
  handleRequest echoServer 5 pingRequest =
    (Return (successEnvelope
               (JObj [ ("timestamp", JNum 5); ("status", JStr "active");
                       ("version", JStr "1.0") ])),
     [JStr "system.ping"]).
Proof.
  apply (builtin_ping_always_answers echoServer 5 pingRequest
           echoServer_reachable eq_refl eq_refl).
Defined.

(** X13: the plan [echo, null, broken].  The [echo] step is carried
    out, the [null] element makes [_executePlan] throw, and [broken] is
    never called: one call was made in all. *)
Lemma executePlan_stops_at_null_step_witness :
  _executePlan demoCallTool demoArrayLike 3 demoAgent holedPlan 0%nat =
    Some (Rejected ("Cannot read properties of null (reading "
                    ++ sq ++ "action" ++ sq ++ ")"),
          1%nat,
          [ [Resolved (JObj [("text", JStr "abc")])]; [] ]).
Proof.
  apply (executePlan_stops_at_null_step nat demoCallTool demoArrayLike demoAgent
           holedPlan [stepValue echoStep] [stepValue brokenStep] JNull 3 3 0%nat);
    try reflexivity.
  repeat constructor.
Defined.

(** X14: an agent constructed with [maxRetries: -1] makes no call. *)
Lemma executePlan_without_attempts_witness :
  maxRetries idleAgent = Finite (-1) /\
  _executePlan demoCallTool demoArrayLike 0 idleAgent demoPlan 0%nat =
    Some (Resolved
            [ JObj [ ("action", JStr "broken"); ("parameters", JObj []);
                     ("result", JUndefined) ];
              JObj [ ("action", JStr "echo");
                     ("parameters", JObj [("text", JStr "abc")]);
                     ("result", JUndefined) ] ],
          0%nat, [ []; [] ]).
Proof.
  split; [reflexivity|].
  apply (executePlan_without_attempts nat demoCallTool demoArrayLike idleAgent demoPlan
           [stepValue brokenStep; stepValue echoStep] (-1) 0 0%nat);
    [reflexivity | lia | reflexivity | reflexivity |].
  repeat constructor.
Defined.

(** X16: with [maxRetries: Infinity] the [flaky] tool is called until it
    succeeds, on the third call; within two iterations the loop has not
    ended. *)
Lemma executeStep_unbounded_witness :
  executeStep demoCallTool 5 unboundedAgent flakyStep 0%nat =
    Some (JObj [ ("action", JStr "flaky"); ("parameters", JObj []);
                 ("result", JObj [("ok", JBool true)]) ],
          3%nat,
          [ Rejected "Brak odpowiedzi serwera: timeout";
            Rejected "Brak odpowiedzi serwera: timeout";
            Resolved (JObj [("ok", JBool true)]) ]) /\
  executeStep demoCallTool 2 unboundedAgent flakyStep 0%nat = None.
Proof.
  split.
  - exact (executeStep_unbounded nat demoCallTool unboundedAgent flakyStep 5 0%nat eq_refl).
  - exact (executeStep_unbounded nat demoCallTool unboundedAgent flakyStep 2 0%nat eq_refl).
Defined.

(** X17: a number as tool name; nothing is sent. *)
Lemma callTool_invalid_request_not_sent_witness :
  exists message,
    MCPClient.callTool (loopback echoServer) demoClient (JNum 5) (JObj []) 0%nat =
      (Throw (newError ("Nieprawidłowe żądanie MCP: " ++ message)), 0%nat).
Proof.
  apply (callTool_invalid_request_not_sent nat (loopback echoServer) demoClient
           (JNum 5) (JObj []) 0%nat eq_refl).
Defined.

(** X18: a call of [echo] through the loopback network. *)
Lemma callTool_resolves_with_result_witness :
  MCPClient.callTool (loopback echoServer) demoClient (JStr "echo")
                     (JObj [("text", JStr "abc")]) 0%nat
    = (Return (JObj [("text", JStr "abc")]), 1%nat) /\
  exists request response,
    createRequest (JStr "echo") (JObj [("text", JStr "abc")]) = Return request /\
    loopback echoServer 0%nat demoClient request = (Return response, 1%nat) /\
    getProp (getProp response "data") "result" = JObj [("text", JStr "abc")].
Proof.
  split; [reflexivity|].
  destruct (callTool_resolves_with_result nat (loopback echoServer) demoClient
              (JStr "echo") (JObj [("text", JStr "abc")]) 0%nat 1%nat
              (JObj [("text", JStr "abc")]) eq_refl)
    as (request & response & fields & Hreq & Hpost & _ & _ & _ & Hres).
  exists request, response. repeat split; assumption.
Defined.

(** The errors of the [offline] network carry a message. *)
Lemma offline_hasMessage (net0 : nat) (request e0 : JsValue) (net1 : nat) :
  offline net0 demoClient request = (Throw e0, net1) -> MCPClient.hasMessage e0.
Proof.
  intros H. injection H as <- _.
  eexists _, _. split; reflexivity.
Defined.

(** X19: a call while the network is down. *)
Lemma callTool_rejects_with_message_witness :
  MCPClient.callTool offline demoClient (JStr "echo") (JObj []) 0%nat =
    (Throw (newError "Brak odpowiedzi serwera: connect ECONNREFUSED"), 1%nat) /\
  MCPClient.hasMessage (newError "Brak odpowiedzi serwera: connect ECONNREFUSED").
Proof.
  split; [reflexivity|].
  apply (callTool_rejects_with_message nat offline demoClient (JStr "echo") (JObj [])
           0%nat 1%nat _ offline_hasMessage eq_refl).
Defined.


(** X22: the tool list cannot be fetched while the network is down. *)
Lemma getAvailableTools_outcomes_witness :
  exists m,
    fst (MCPClient.callTool offline demoClient (JStr "system.getTools") (JObj []) 0%nat)
      = Throw (newError m) /\
    fst (MCPClient.getAvailableTools offline demoClient 0%nat) =
      Throw (newError ("Nie udało się pobrać listy narzędzi: " ++ m)).
Proof.
  destruct (getAvailableTools_outcomes nat offline demoClient 0%nat offline_hasMessage)
    as [(tools & H & _) | (m & e & Hcall & Hm & Hget)]; [discriminate H|].
  injection Hcall as <-. injection Hm as <-.
  eexists. split; [reflexivity | exact Hget].
Defined.

(** X23: the agent keeps its tool list while the network is down. *)
Lemma loadAvailableTools_never_rejects_witness :
  fst (MCPClient.loadAvailableTools offline (JArr []) demoClient 0%nat)
    = Return (JArr []).
Proof.
  destruct (loadAvailableTools_never_rejects nat offline (JArr []) demoClient 0%nat
              offline_hasMessage) as (tools & Hload & Htools).
  cbn in Htools. subst tools. exact Hload.
Defined.

(** X24: [echo] called through the loopback network on [echoServer]. *)
Lemma callTool_through_server_witness :
  MCPClient.callTool (loopback echoServer) demoClient (JStr "echo")
                     (JObj [("text", JStr "abc")]) 0%nat
    = (Return (JObj [("text", JStr "abc")]), 1%nat) /\
  MCPClient.callTool (loopback echoServer) demoClient (JStr "doesNotExist")
                     (JObj []) 0%nat
    = (Throw (newError "Błąd serwera MCP: Nieznane narzędzie: doesNotExist"), 1%nat).
Proof.
  split.
  - apply (proj1 (proj2 (callTool_through_server nat (loopback echoServer) demoClient
                           echoServer 0 "echo" (JObj [("text", JStr "abc")]) _ _
                           0%nat 1%nat eq_refl eq_refl eq_refl))
             (fun parameters => Return parameters) [("text", JStr "abc")]);
      reflexivity.
  - apply (proj1 (callTool_through_server nat (loopback echoServer) demoClient
                    echoServer 0 "doesNotExist" (JObj []) _ _
                    0%nat 1%nat eq_refl eq_refl eq_refl)).
    reflexivity.
Defined.

(** X25: the tool list of [echoServer], as the client gets it. *)
Lemma getAvailableTools_through_server_witness :
  MCPClient.getAvailableTools (loopback echoServer) demoClient 0%nat =
    (Return (JArr [ JObj [ ("name", JStr "echo");
                           ("description", JStr "Zwraca parametry");
                           ("schema", echoSchema) ] ]), 1%nat).
Proof.
  exact (getAvailableTools_through_server nat (loopback echoServer) demoClient
           echoServer 0 _ 0%nat 1%nat echoServer_reachable eq_refl eq_refl).
Defined.

(** X26: the search query of end-to-end scenario 3 is planned as one
    [searchRepositories] step, and executing the plan gives one entry. *)
Lemma generated_plan_is_executed_witness :
  SimpleAgent._generatePlan noCodeBlock (fun s => s) searchAnalysis =
    Return (JObj [ ("steps",
                    JArr [ JObj [ ("action", JStr "searchRepositories");
                                  ("parameters",
                                   JObj [ ("query", JStr "rust async runtimes");
                                          ("perPage", JNum 5) ]) ] ]) ]) /\
  exists results w' log,
    _executePlan demoCallTool demoArrayLike 3 demoAgent
      (JObj [ ("steps",
               JArr [ JObj [ ("action", JStr "searchRepositories");
                             ("parameters",
                              JObj [ ("query", JStr "rust async runtimes");
                                     ("perPage", JNum 5) ]) ] ]) ]) 0%nat
      = Some (Resolved results, w', log) /\
    length results = 1%nat.
Proof.
  split; [reflexivity|].
  destruct (generated_plan_is_executed noCodeBlock (fun s => s) nat demoCallTool
              demoArrayLike searchAnalysis _ demoAgent 3 3 0%nat
              eq_refl eq_refl (le_n 3))
    as (items & results & w' & log & Hplan & _ & _ & Hrun & Hlen & _).
  injection Hplan as <-.
  exists results, w', log. split; [exact Hrun | exact Hlen].
Defined.
